(** * Polymarket dashboard: risk scorer, relevance classifier, aggregator

    A shallow embedding of [backend/risk_calculator.py],
    [backend/news_analyzer.py] and [backend/aggregator.py], and the
    properties the specification states about them.

    Conventions of the embedding.
    - A Python [float] is a real number: arithmetic is exact, a decimal
      literal denotes that decimal, [math.log10 x] is [ln x / ln 10] and
      [round(x, n)] rounds to the nearest multiple of [10^-n], an exact
      half going to the even neighbour.  NaN and the infinities have no
      counterpart.
    - A Python [str] is a [string] whose characters are the code points
      U+0000 to U+00FF.
    - A [dict] with a fixed set of keys is a record; a [dict] used as a map
      is a [gmap]; a [dict] iterated in insertion order is an association
      list. *)

From Stdlib Require Import Reals Lra Lia ZArith List String Ascii.
From Stdlib Require Import Permutation Sorted.
From stdpp Require Import gmap strings pretty.

Import ListNotations.

(** ** Python numbers *)

Module PyFloat.
Local Open Scope R_scope.

#[global] Instance Rle_decision (x y : R) : Decision (x <= y) := Rle_dec x y.
#[global] Instance Rlt_decision (x y : R) : Decision (x < y) := Rlt_dec x y.
#[global] Instance Rge_decision (x y : R) : Decision (x >= y) := Rge_dec x y.
#[global] Instance Rgt_decision (x y : R) : Decision (x > y) := Rgt_dec x y.
#[global] Instance Req_decision : EqDecision R := Req_dec_T.

(** [max(a, b)]: the second argument wins only when strictly greater. *)
Definition py_max (a b : R) : R := if decide (b > a) then b else a.

(** [min(a, b)]: the second argument wins only when strictly smaller. *)
Definition py_min (a b : R) : R := if decide (b < a) then b else a.

(** Nearest integer, an exact half going to the even neighbour. *)
Definition round_half_even (x : R) : Z :=
  let f := Zfloor x in
  if decide (x - IZR f < 1 / 2) then f
  else if decide (x - IZR f > 1 / 2) then (f + 1)%Z
  else if Z.even f then f else (f + 1)%Z.

(** [round(x, ndigits)] *)
Definition py_round (x : R) (ndigits : nat) : R :=
  IZR (round_half_even (x * 10 ^ ndigits)) / 10 ^ ndigits.

(** [math.log10] *)
Definition log10 (x : R) : R := ln x / ln 10.

End PyFloat.
Import PyFloat.

(** ** backend/risk_calculator.py *)

Module RiskCalculator.
Local Open Scope R_scope.
Local Open Scope string_scope.

(** The dict [calculate_risk_reward_score] returns; [enrich_with_risk_metrics]
    adds the key ['risk_category'] to it afterwards, so that key is optional. *)
Record RiskMetrics := {
  score : R;
  multiplier : R;
  expected_value : R;
  kelly_fraction : R;
  volume_weight : R;
  risk_category : option string
}.

Definition calculate_risk_reward_score (probability price volume : R) : RiskMetrics :=
  (* 1. Multiplier *)
  let multiplier := if decide (price > 0) then 1 / price else 0 in
  (* 2. Expected Value *)
  let ev := (probability * multiplier) - 1 in
  (* 3. Kelly Criterion *)
  let kelly_fraction :=
    if decide (multiplier > 1) then
      let b := multiplier - 1 in
      let kelly_fraction :=
        if decide (b > 0) then ((b * probability) - (1 - probability)) / b else 0 in
      py_max 0 (py_min kelly_fraction 1)
    else 0 in
  (* 4. Liquidity weight *)
  let volume_weight :=
    if decide (volume > 0) then py_min (py_max ((log10 volume - 4) / 3) 0.1) 1.0
    else 0.1 in
  (* 5. Final score *)
  let score := py_max 0 (multiplier - 1) * volume_weight in
  {| score := py_round score 6;
     multiplier := py_round multiplier 2;
     expected_value := py_round ev 4;
     kelly_fraction := py_round kelly_fraction 4;
     volume_weight := py_round volume_weight 4;
     risk_category := None |}.

Definition categorize_risk (probability multiplier : R) : string :=
  if decide (0.05 <= probability <= 0.10 /\ 10 <= multiplier <= 20) then "medium"
  else if decide (0.10 < probability <= 0.20 /\ 5 <= multiplier <= 10) then "low"
  else if decide (probability < 0.05 /\ multiplier > 20) then "extreme"
  else if decide (probability > 0.60 /\ multiplier < 2) then "safe"
  else "other".

(** [risk_metrics['risk_category'] = risk_category] *)
Definition set_risk_category (rm : RiskMetrics) (c : string) : RiskMetrics :=
  {| score := score rm;
     multiplier := multiplier rm;
     expected_value := expected_value rm;
     kelly_fraction := kelly_fraction rm;
     volume_weight := volume_weight rm;
     risk_category := Some c |}.

(** A market of the API response, after the calls that can raise:
    [api_outcomes] and [api_outcomePrices] are [None] when [eval] raised,
    an entry of the price list is [None] when [float(price_str)] raised. *)
Record ApiMarket := {
  api_id : string;
  api_question : string;
  api_slug : string;
  api_endDate : string;
  api_volume : R;
  api_image : option string;
  api_outcomes : option (list string);
  api_outcomePrices : option (list (option R))
}.

Record EventGroup := {
  group_title : string;
  group_image : string;
  group_markets : list ApiMarket
}.

Record Outcome := {
  name : string;
  price : R;
  probability : R;
  volume : R;
  risk_metrics : RiskMetrics
}.

Record Market := {
  question : string;
  url : string;
  end_date : string;
  market_volume : R;
  outcomes : list Outcome;
  event_title : string;
  market_id : string;
  image : string
}.

(** Body of the loop over [zip(outcomes_list, prices_list)]. *)
Definition enrich_outcome (market_volume : R) (outcome_name : string) (price_str : option R)
  : option Outcome :=
  match price_str with
  | None => None
  | Some price =>
      let probability := price in
      let risk_metrics := calculate_risk_reward_score probability price market_volume in
      let risk_category := categorize_risk probability (multiplier risk_metrics) in
      Some {| name := outcome_name;
              price := price;
              probability := probability;
              volume := market_volume;
              risk_metrics := set_risk_category risk_metrics risk_category |}
  end.

(** Body of the loop over [nested_markets]; [None] is the [continue]. *)
Definition enrich_market (event_group : EventGroup) (market : ApiMarket) : option Market :=
  match api_outcomes market, api_outcomePrices market with
  | Some outcomes_list, Some prices_list =>
      let market_volume := api_volume market in
      let market_outcomes :=
        omap (fun '(outcome_name, price_str) => enrich_outcome market_volume outcome_name price_str)
             (combine outcomes_list prices_list) in
      Some {| question := api_question market;
              url := "https://polymarket.com/event/" ++ api_slug market;
              end_date := api_endDate market;
              market_volume := market_volume;
              outcomes := market_outcomes;
              event_title := group_title event_group;
              market_id := api_id market;
              image := default (group_image event_group) (api_image market) |}
  | _, _ => None
  end.

Definition enrich_with_risk_metrics (markets_data : list EventGroup) : list Market :=
  flat_map (fun event_group => omap (enrich_market event_group) (group_markets event_group))
           markets_data.

(** The four tests of [categorize_risk] as a table, to compare every order
    of testing them with the order the code uses. *)
Definition risk_rules : list ((R -> R -> bool) * string) :=
  [ (fun p m => bool_decide (0.05 <= p <= 0.10 /\ 10 <= m <= 20), "medium");
    (fun p m => bool_decide (0.10 < p <= 0.20 /\ 5 <= m <= 10), "low");
    (fun p m => bool_decide (p < 0.05 /\ m > 20), "extreme");
    (fun p m => bool_decide (p > 0.60 /\ m < 2), "safe") ].

Fixpoint first_match (rules : list ((R -> R -> bool) * string)) (p m : R) : string :=
  match rules with
  | [] => "other"
  | (test, label) :: rest => if test p m then label else first_match rest p m
  end.

End RiskCalculator.

(** ** Python strings *)

Module PyStr.
Local Open Scope string_scope.

(** [c.lower()] for one code point below U+0100: the letters A-Z and the
    Latin-1 capitals U+00C0-U+00DE (U+00D7, the multiplication sign, apart). *)
Definition lower_char (c : ascii) : ascii :=
  let n := nat_of_ascii c in
  if (((65 <=? n) && (n <=? 90)) || ((192 <=? n) && (n <=? 222) && negb (n =? 215)))%nat
  then ascii_of_nat (n + 32)
  else c.

(** [s.lower()] *)
Fixpoint lower (s : string) : string :=
  match s with
  | EmptyString => EmptyString
  | String c s' => String (lower_char c) (lower s')
  end.

(** [c.isspace()] below U+0100: TAB..CR, FS..US, SPACE, NEL, NBSP. *)
Definition isspace (c : ascii) : bool :=
  let n := nat_of_ascii c in
  (((9 <=? n) && (n <=? 13)) || ((28 <=? n) && (n <=? 32)) || (n =? 133) || (n =? 160))%nat.

(** [s.split()]: the maximal runs of non-space characters, in order;
    [cur] is the run being read. *)
Fixpoint split_from (cur : string) (s : string) : list string :=
  match s with
  | EmptyString => match cur with EmptyString => [] | _ => [cur] end
  | String c s' =>
      if isspace c then
        match cur with
        | EmptyString => split_from EmptyString s'
        | _ => cur :: split_from EmptyString s'
        end
      else split_from (cur ++ String c EmptyString) s'
  end.

Definition split (s : string) : list string := split_from EmptyString s.

(** [sub in s] *)
Fixpoint contains (sub s : string) : bool :=
  String.prefix sub s ||
  match s with
  | EmptyString => false
  | String _ s' => contains sub s'
  end.

(** [sep.join(l)] *)
Fixpoint join (sep : string) (l : list string) : string :=
  match l with
  | [] => EmptyString
  | [x] => x
  | x :: rest => x ++ sep ++ join sep rest
  end.

(** [str(n)] for a non-negative [int] *)
Definition str_of_nat (n : nat) : string := pretty n.

End PyStr.
Import PyStr.

(** ** backend/news_analyzer.py *)

Module NewsAnalyzer.
Local Open Scope string_scope.

(** A relevance judgment: the dict both strategies return and the cache
    stores. *)
Record Judgment := {
  relevance_score : R;
  affects_outcomes : list string;
  impact_direction : string;
  confidence : string;
  reasoning : string;
  analysis_method : string
}.

Record News := {
  title : string;
  link : string
}.

Record Stats := {
  total_analyzed : nat;
  claude_ai : nat;
  keyword_fallback : nat;
  errors : nat;
  cached : nat
}.

(** An element of [news_market_mapping]. *)
Module Entry.
Record t := {
  news_id : nat;
  news_title : string;
  news_link : string;
  market_id : string;
  market_question : string;
  market_url : string;
  relevance_score : R;
  affects_outcomes : list string;
  impact_direction : string;
  confidence : string;
  reasoning : string;
  analysis_method : string
}.
End Entry.

Definition stopwords : gset string :=
  list_to_set ["the"; "a"; "an"; "will"; "be"; "is"; "in"; "of"; "to"; "for"; "on"; "at"].

Definition keyword_fallback_analysis
    (news_title market_question : string) (market_outcomes : list string) : Judgment :=
  let news_lower := lower news_title in
  let question_lower := lower market_question in
  (* Check for outcomes in news title *)
  let matching_outcomes :=
    List.filter (fun outcome => contains (lower outcome) news_lower) market_outcomes in
  (* Check keyword overlap *)
  let question_keywords : gset string := list_to_set (split question_lower) ∖ stopwords in
  let news_keywords : gset string := list_to_set (split news_lower) in
  let overlap := size (question_keywords ∩ news_keywords) in
  (* Calculate simple relevance score *)
  let relevance_score := 0%R in
  let relevance_score :=
    match matching_outcomes with
    | [] => relevance_score
    | _ :: _ => (relevance_score + 5)%R
    end in
  let relevance_score := (relevance_score + py_min (INR overlap * 0.5) 5)%R in
  {| relevance_score := py_min relevance_score 10;
     affects_outcomes := matching_outcomes;
     impact_direction := "neutral";
     confidence := "low";
     reasoning := "Keyword match: " ++ str_of_nat (length matching_outcomes)
                  ++ " outcomes, " ++ str_of_nat overlap ++ " keywords overlap";
     analysis_method := "keyword_fallback" |}.

Definition nl : string := String "010"%char EmptyString.
Definition dq : string := String "034"%char EmptyString.

(** The prompt of [analyze_with_claude]. *)
Definition prompt (news_title market_question : string) (market_outcomes : list string) : string :=
  "Analyze if this news is relevant to the prediction market." ++ nl ++ nl
  ++ "NEWS: " ++ dq ++ news_title ++ dq ++ nl ++ nl
  ++ "MARKET: " ++ dq ++ market_question ++ dq ++ nl
  ++ "OUTCOMES: " ++ join ", " market_outcomes ++ nl ++ nl
  ++ "Task:" ++ nl
  ++ "1. Determine relevance score (0-10, where 10 = highly relevant)" ++ nl
  ++ "2. If relevance >= 7, identify which outcome(s) it affects" ++ nl
  ++ "3. Determine impact direction: positive, negative, or neutral" ++ nl
  ++ "4. Provide confidence level: low, medium, high" ++ nl ++ nl
  ++ "Respond in JSON format:" ++ nl
  ++ "{" ++ nl
  ++ "  " ++ dq ++ "relevance_score" ++ dq ++ ": <0-10>," ++ nl
  ++ "  " ++ dq ++ "affects_outcomes" ++ dq ++ ": ["
       ++ dq ++ "outcome1" ++ dq ++ ", " ++ dq ++ "outcome2" ++ dq ++ "]," ++ nl
  ++ "  " ++ dq ++ "impact_direction" ++ dq ++ ": "
       ++ dq ++ "positive|negative|neutral" ++ dq ++ "," ++ nl
  ++ "  " ++ dq ++ "confidence" ++ dq ++ ": " ++ dq ++ "low|medium|high" ++ dq ++ "," ++ nl
  ++ "  " ++ dq ++ "reasoning" ++ dq ++ ": "
       ++ dq ++ "brief explanation (1-2 sentences)" ++ dq ++ nl
  ++ "}" ++ nl ++ nl
  ++ "Only respond with JSON, no other text.".

(** The state the loop of [analyze_news_relevance] threads.  [api_calls]
    is not a variable of the source: it counts the calls of
    [analyze_with_claude], and indexes the replies of the service.  The
    clock ([start_time], [time.sleep]) only delays the run and is left out. *)
Record State := {
  cache : gmap string Judgment;
  stats : Stats;
  news_market_mapping : list Entry.t;
  request_count : nat;
  api_calls : nat
}.

Definition set_cache (st : State) (c : gmap string Judgment) : State :=
  {| cache := c; stats := stats st; news_market_mapping := news_market_mapping st;
     request_count := request_count st; api_calls := api_calls st |}.

Definition set_stats (st : State) (s : Stats) : State :=
  {| cache := cache st; stats := s; news_market_mapping := news_market_mapping st;
     request_count := request_count st; api_calls := api_calls st |}.

Definition set_request_count (st : State) (n : nat) : State :=
  {| cache := cache st; stats := stats st; news_market_mapping := news_market_mapping st;
     request_count := n; api_calls := api_calls st |}.

Definition set_api_calls (st : State) (n : nat) : State :=
  {| cache := cache st; stats := stats st; news_market_mapping := news_market_mapping st;
     request_count := request_count st; api_calls := n |}.

Definition append_mapping (st : State) (e : Entry.t) : State :=
  {| cache := cache st; stats := stats st;
     news_market_mapping := news_market_mapping st ++ [e];
     request_count := request_count st; api_calls := api_calls st |}.

Definition incr_total_analyzed (s : Stats) : Stats :=
  {| total_analyzed := total_analyzed s + 1; claude_ai := claude_ai s;
     keyword_fallback := keyword_fallback s; errors := errors s; cached := cached s |}.

Definition incr_claude_ai (s : Stats) : Stats :=
  {| total_analyzed := total_analyzed s; claude_ai := claude_ai s + 1;
     keyword_fallback := keyword_fallback s; errors := errors s; cached := cached s |}.

Definition incr_keyword_fallback (s : Stats) : Stats :=
  {| total_analyzed := total_analyzed s; claude_ai := claude_ai s;
     keyword_fallback := keyword_fallback s + 1; errors := errors s; cached := cached s |}.

Definition incr_cached (s : Stats) : Stats :=
  {| total_analyzed := total_analyzed s; claude_ai := claude_ai s;
     keyword_fallback := keyword_fallback s; errors := errors s; cached := cached s + 1 |}.

Section Externals.

(** [hashlib.md5(content.encode()).hexdigest()] *)
Variable md5_hexdigest : string -> string.

(** The remote service and [json.loads]: the reply to the [n]-th call, as
    the parsed object with the five requested fields, or [None] when
    anything inside the [try] raised. *)
Variable client : nat -> string -> option Judgment.

(** [claude_client] is set. *)
Variable claude_client : bool.

Definition get_cache_key (news_title market_id : string) : string :=
  let content := news_title ++ ":" ++ market_id in
  md5_hexdigest content.

(** [n] is the number of calls made before this one. *)
Definition analyze_with_claude
    (news_title market_question : string) (market_outcomes : list string) (n : nat)
  : option Judgment :=
  match client n (prompt news_title market_question market_outcomes) with
  | Some result =>
      Some {| relevance_score := relevance_score result;
              affects_outcomes := affects_outcomes result;
              impact_direction := impact_direction result;
              confidence := confidence result;
              reasoning := reasoning result;
              analysis_method := "claude_ai" |}
  | None => None
  end.

(** Lines 193-223 of [analyze_news_relevance]: the classification of one
    (news, market) pair, from the cache check to the cache write. *)
Definition classify (st : State)
    (news_title market_id market_question : string) (outcome_names : list string)
  : Judgment * State :=
  (* Check cache *)
  let cache_key := get_cache_key news_title market_id in
  match cache st !! cache_key with
  | Some result => (result, set_stats st (incr_cached (stats st)))
  | None =>
      (* Try Claude AI first *)
      let '(result, st) :=
        if claude_client then
          (* Rate limiting check *)
          let st := if decide (50 <= request_count st)%nat then set_request_count st 0 else st in
          let result :=
            analyze_with_claude news_title market_question outcome_names (api_calls st) in
          let st := set_api_calls st (api_calls st + 1) in
          match result with
          | Some _ =>
              (result,
               set_request_count (set_stats st (incr_claude_ai (stats st)))
                                 (request_count st + 1))
          | None => (result, st)
          end
        else (None, st) in
      (* Fallback to keyword matching *)
      let '(result, st) :=
        match result with
        | Some result => (result, st)
        | None =>
            (keyword_fallback_analysis news_title market_question outcome_names,
             set_stats st (incr_keyword_fallback (stats st)))
        end in
      (* Cache result *)
      (result, set_cache st (<[cache_key := result]> (cache st)))
  end.

(** Body of the loop over [markets_with_metrics]. *)
Definition analyze_pair (news_idx : nat) (news : News) (st : State)
    (market : RiskCalculator.Market) : State :=
  let news_title := title news in
  let news_link := link news in
  let market_id := RiskCalculator.market_id market in
  let market_question := RiskCalculator.question market in
  let market_url := RiskCalculator.url market in
  (* Get outcome names *)
  let outcomes := RiskCalculator.outcomes market in
  let outcome_names :=
    List.filter (fun n => negb (String.eqb n EmptyString))
                (List.map RiskCalculator.name outcomes) in
  match outcome_names with
  | [] => st
  | _ :: _ =>
      let '(result, st) := classify st news_title market_id market_question outcome_names in
      let st := set_stats st (incr_total_analyzed (stats st)) in
      (* Only keep if relevance >= 3 *)
      if decide (relevance_score result >= 3)%R then
        append_mapping st
          {| Entry.news_id := news_idx;
             Entry.news_title := news_title;
             Entry.news_link := news_link;
             Entry.market_id := market_id;
             Entry.market_question := market_question;
             Entry.market_url := market_url;
             Entry.relevance_score := relevance_score result;
             Entry.affects_outcomes := affects_outcomes result;
             Entry.impact_direction := impact_direction result;
             Entry.confidence := confidence result;
             Entry.reasoning := reasoning result;
             Entry.analysis_method := analysis_method result |}
      else st
  end.

(** [enumerate(top_news)] from index [i] *)
Fixpoint enumerate_from {A : Type} (i : nat) (l : list A) : list (nat * A) :=
  match l with
  | [] => []
  | x :: l' => (i, x) :: enumerate_from (S i) l'
  end.

(** [loaded] is what [load_cache()] returned.  The final state carries the
    mapping and the stats that are returned and the cache that
    [save_cache] writes. *)
Definition analyze_news_relevance
    (loaded : gmap string Judgment)
    (news_data : list News) (markets_with_metrics : list RiskCalculator.Market) : State :=
  let st := {| cache := loaded;
               stats := {| total_analyzed := 0; claude_ai := 0; keyword_fallback := 0;
                           errors := 0; cached := 0 |};
               news_market_mapping := [];
               request_count := 0;
               api_calls := 0 |} in
  (* Limit to top 10 news *)
  let top_news := firstn 10 news_data in
  fold_left
    (fun st '(news_idx, news) => fold_left (analyze_pair news_idx news) markets_with_metrics st)
    (enumerate_from 0 top_news) st.

End Externals.

End NewsAnalyzer.

(** ** Python list built-ins *)

Module PyList.
Local Open Scope R_scope.

Section ByKey.
Context {A : Type} (key : A -> R).

(** [sorted(l, key=key, reverse=True)] is the stable sort of [l] by
    descending key.  Insertion from the right computes it: a new element
    comes from further left in [l] than everything already placed, so it
    passes the elements with a greater key and stops in front of the first
    one whose key is not greater than its own. *)
Fixpoint insert_reverse (x : A) (l : list A) : list A :=
  match l with
  | [] => [x]
  | y :: l' => if decide (key y > key x) then y :: insert_reverse x l' else x :: y :: l'
  end.

Definition sorted_reverse (l : list A) : list A := fold_right insert_reverse [] l.

(** [max(l, key=key)] scans left to right and replaces the best element
    so far only by one with a strictly greater key. *)
Fixpoint max_from (best : A) (l : list A) : A :=
  match l with
  | [] => best
  | x :: l' => max_from (if decide (key x > key best) then x else best) l'
  end.

(** [None]: [max] of an empty list raises [ValueError]. *)
Definition max_by (l : list A) : option A :=
  match l with
  | [] => None
  | x :: l' => Some (max_from x l')
  end.

End ByKey.

End PyList.
Import PyList.

(** ** backend/aggregator.py *)

Module Aggregator.
Import RiskCalculator.
Local Open Scope string_scope.

(** An element of the risk widget. *)
Module RiskItem.
Record t := {
  market_title : string;
  market_url : string;
  market_end_date : string;
  outcome_name : string;
  probability : R;
  multiplier : R;
  score : R;
  risk_category : option string;
  volume : R;
  image : string
}.
End RiskItem.

(** An element of the news widget. *)
Module NewsItem.
Record t := {
  news_title : string;
  news_link : string;
  market_title : string;
  market_url : string;
  relevance_score : R;
  affects_outcomes : list string;
  impact_direction : string;
  confidence : string;
  reasoning : string
}.
End NewsItem.

Record RiskWidget := {
  medium_risk : list RiskItem.t;
  low_risk : list RiskItem.t
}.

(** [risk_category == c] *)
Definition category_is (c : string) (risk_category : option string) : bool :=
  match risk_category with
  | Some c' => String.eqb c' c
  | None => false
  end.

(** The dict appended to [all_outcomes]. *)
Definition risk_item (market : Market) (outcome : Outcome) : RiskItem.t :=
  let risk_metrics := risk_metrics outcome in
  let risk_category := risk_category risk_metrics in
  {| RiskItem.market_title := question market;
     RiskItem.market_url := url market;
     RiskItem.market_end_date := end_date market;
     RiskItem.outcome_name := name outcome;
     RiskItem.probability := probability outcome;
     RiskItem.multiplier := multiplier risk_metrics;
     RiskItem.score := score risk_metrics;
     RiskItem.risk_category := risk_category;
     RiskItem.volume := volume outcome;
     RiskItem.image := image market |}.

(** The list [all_outcomes] the two loops of [build_risk_categories_widget]
    fill. *)
Definition all_outcomes (markets_data : list Market) : list RiskItem.t :=
  flat_map (fun market =>
    omap (fun outcome =>
      let risk_metrics := risk_metrics outcome in
      let risk_category := risk_category risk_metrics in
      if category_is "medium" risk_category || category_is "low" risk_category then
        Some (risk_item market outcome)
      else None)
      (outcomes market))
    markets_data.

Definition build_risk_categories_widget (markets_data : list Market) : RiskWidget :=
  let all_outcomes := all_outcomes markets_data in
  (* Sort by score (best risk-reward first) *)
  let medium_risk :=
    firstn 5 (sorted_reverse RiskItem.score
      (List.filter (fun o => category_is "medium" (RiskItem.risk_category o)) all_outcomes)) in
  let low_risk :=
    firstn 5 (sorted_reverse RiskItem.score
      (List.filter (fun o => category_is "low" (RiskItem.risk_category o)) all_outcomes)) in
  {| medium_risk := medium_risk; low_risk := low_risk |}.

(** [news_by_market[market_id].append(item)], the dict kept in insertion
    order. *)
Fixpoint group_append (market_id : string) (item : NewsAnalyzer.Entry.t)
    (news_by_market : list (string * list NewsAnalyzer.Entry.t))
  : list (string * list NewsAnalyzer.Entry.t) :=
  match news_by_market with
  | [] => [(market_id, [item])]
  | (k, news_list) :: rest =>
      if String.eqb k market_id then (k, (news_list ++ [item])%list) :: rest
      else (k, news_list) :: group_append market_id item rest
  end.

(** Group by market *)
Definition group_by_market (news_mapping : list NewsAnalyzer.Entry.t)
  : list (string * list NewsAnalyzer.Entry.t) :=
  fold_left (fun news_by_market item =>
               group_append (NewsAnalyzer.Entry.market_id item) item news_by_market)
            news_mapping [].

(** The dict appended to [top_news]. *)
Definition news_item (best_news : NewsAnalyzer.Entry.t) (market : Market) : NewsItem.t :=
  {| NewsItem.news_title := NewsAnalyzer.Entry.news_title best_news;
     NewsItem.news_link := NewsAnalyzer.Entry.news_link best_news;
     NewsItem.market_title := question market;
     NewsItem.market_url := url market;
     NewsItem.relevance_score := NewsAnalyzer.Entry.relevance_score best_news;
     NewsItem.affects_outcomes := NewsAnalyzer.Entry.affects_outcomes best_news;
     NewsItem.impact_direction := NewsAnalyzer.Entry.impact_direction best_news;
     NewsItem.confidence := NewsAnalyzer.Entry.confidence best_news;
     NewsItem.reasoning := NewsAnalyzer.Entry.reasoning best_news |}.

(** Body of the loop over [news_by_market.items()]: the entry appended to
    [top_news], if any. *)
Definition best_entry (markets_data : list Market)
    (market_id : string) (news_list : list NewsAnalyzer.Entry.t) : option NewsItem.t :=
  match max_by NewsAnalyzer.Entry.relevance_score news_list with
  | None => None
  | Some best_news =>
      (* Find market details *)
      match List.find (fun m => String.eqb (RiskCalculator.market_id m) market_id)
                      markets_data with
      | Some market => Some (news_item best_news market)
      | None => None
      end
  end.

(** [news_mapping] is [news_analysis.get('news_market_mapping', [])]. *)
Definition build_news_feed_widget
    (news_mapping : list NewsAnalyzer.Entry.t) (markets_data : list Market)
  : list NewsItem.t :=
  let news_by_market := group_by_market news_mapping in
  (* Get best news per market *)
  let top_news :=
    omap (fun '(market_id, news_list) => best_entry markets_data market_id news_list)
         news_by_market in
  (* Sort by relevance score and take top 10 *)
  firstn 10 (sorted_reverse NewsItem.relevance_score top_news).

End Aggregator.

(** ** backend/scraper.py *)

Module Scraper.
Local Open Scope string_scope.

(** An event of the API response: the keys the scraper reads, beside the
    ones [enrich_with_risk_metrics] reads ([group]: 'title', 'image',
    'markets').  [id] is empty when the key is missing or null. *)
Record Event := {
  id : string;
  description : string;
  volume24hr : R;
  endDate : string;
  group : RiskCalculator.EventGroup
}.

Definition title (market : Event) : string := RiskCalculator.group_title (group market).

(** Crypto detection keywords *)
Definition crypto_keywords : list string :=
  [ "bitcoin"; "btc"; "ethereum"; "eth"; "crypto"; "solana"; "sol";
    "xrp"; "ripple"; "cardano"; "ada"; "polygon"; "matic"; "doge";
    "dogecoin"; "shiba"; "avalanche"; "avax"; "polkadot"; "dot";
    "chainlink"; "link"; "uniswap"; "uni"; "litecoin"; "ltc";
    "binance"; "bnb"; "tether"; "usdt"; "usdc"; "dai"; "stablecoin";
    "defi"; "nft"; "web3"; "blockchain"; "token"; "coin" ].

(** [any(kw in title or kw in desc for kw in crypto_keywords)] *)
Definition is_crypto (market : Event) : bool :=
  let title := lower (title market) in
  let desc := lower (description market) in
  existsb (fun kw => contains kw title || contains kw desc) crypto_keywords.

(** The loop that fills [crypto_markets], with its [break]. *)
Fixpoint crypto_loop (all_markets crypto_markets : list Event) : list Event :=
  match all_markets with
  | [] => crypto_markets
  | market :: rest =>
      if is_crypto market then
        let crypto_markets := (crypto_markets ++ [market])%list in
        if decide (50 <= length crypto_markets)%nat then crypto_markets
        else crypto_loop rest crypto_markets
      else crypto_loop rest crypto_markets
  end.

Section Clock.

(** [now < end_date <= closing_soon_cutoff] for the date
    [datetime.fromisoformat(end_date_str.replace('Z', '+00:00'))], or
    [None] when parsing raises. *)
Variable closes_within_60_days : string -> option bool.

(** The loop that fills [closing_soon_markets], with its [break]. *)
Fixpoint closing_loop (all_markets closing_soon_markets : list Event) : list Event :=
  match all_markets with
  | [] => closing_soon_markets
  | market :: rest =>
      let end_date_str := endDate market in
      if negb (String.eqb end_date_str EmptyString) then
        match closes_within_60_days end_date_str with
        | Some true =>
            let closing_soon_markets := (closing_soon_markets ++ [market])%list in
            if decide (30 <= length closing_soon_markets)%nat then closing_soon_markets
            else closing_loop rest closing_soon_markets
        | _ => closing_loop rest closing_soon_markets
        end
      else closing_loop rest closing_soon_markets
  end.

(** Body of the deduplication loop, on [(seen_ids, final_markets)]. *)
Definition dedupe_step (acc : gset string * list Event) (market : Event)
  : gset string * list Event :=
  let '(seen_ids, final_markets) := acc in
  let market_id := id market in
  if negb (String.eqb market_id EmptyString) && negb (bool_decide (market_id ∈ seen_ids))
  then ({[market_id]} ∪ seen_ids, (final_markets ++ [market])%list)
  else acc.

Definition deduplicate (markets : list Event) : list Event :=
  snd (fold_left dedupe_step markets (∅, [])).

(** Lines 39-106: from the parsed response to [final_markets]. *)
Definition select_markets (all_markets : list Event) : list Event :=
  (* Sort by volume descending *)
  let sorted_markets := sorted_reverse volume24hr all_markets in
  (* Top 100 by volume = "trending" *)
  let trending_markets := firstn 100 sorted_markets in
  let crypto_markets := crypto_loop all_markets [] in
  let closing_soon_markets := closing_loop all_markets [] in
  (* Deduplicate by market ID *)
  deduplicate (trending_markets ++ crypto_markets ++ closing_soon_markets).

(** What one pass through the [try] block meets: a
    [requests.exceptions.RequestException], any other exception, or the
    parsed response with everything after it succeeding. *)
Inductive Attempt :=
  | RequestException
  | OtherException
  | Json (all_markets : list Event).

(** The service, by attempt number. *)
Variable get : nat -> Attempt.

(** What a call leaves: the list returned, the snapshot [save_snapshot]
    wrote if it was called, and the waits of [time.sleep] in order. *)
Record Fetched := {
  returned : list Event;
  snapshot : option (list Event);
  slept : list nat
}.

(** [for attempt in range(max_retries)], [remaining] iterations from
    [attempt] on. *)
Fixpoint fetch_loop (max_retries attempt remaining : nat) (waits : list nat) : Fetched :=
  match remaining with
  | 0 => {| returned := []; snapshot := None; slept := waits |}
  | S remaining =>
      match get attempt with
      | Json all_markets =>
          let final_markets := select_markets all_markets in
          {| returned := final_markets; snapshot := Some final_markets; slept := waits |}
      | RequestException =>
          if decide (attempt < max_retries - 1)%nat then
            let wait_time := 2 ^ attempt in
            fetch_loop max_retries (S attempt) remaining (waits ++ [wait_time])
          else {| returned := []; snapshot := None; slept := waits |}
      | OtherException => {| returned := []; snapshot := None; slept := waits |}
      end
  end.

Definition fetch_polymarket_markets (max_retries : nat) : Fetched :=
  fetch_loop max_retries 0 max_retries [].

End Clock.

End Scraper.

(** ** backend/news_fetcher.py *)

Module NewsFetcher.
Local Open Scope string_scope.

(** [s.lstrip()], [s.rstrip()], [s.strip()] *)
Fixpoint lstrip (s : string) : string :=
  match s with
  | EmptyString => EmptyString
  | String c s' => if isspace c then lstrip s' else s
  end.

Fixpoint rstrip (s : string) : string :=
  match s with
  | EmptyString => EmptyString
  | String c s' =>
      match rstrip s' with
      | EmptyString => if isspace c then EmptyString else String c EmptyString
      | r => String c r
      end
  end.

Definition strip (s : string) : string := rstrip (lstrip s).

Section SortByString.
Context {A : Type} (key : A -> string).

(** [l.sort(key=key, reverse=True)] for string keys, compared code point
    by code point: the stable sort by descending key, by insertion from
    the right as in [sorted_reverse]. *)
Fixpoint insert_reverse_str (x : A) (l : list A) : list A :=
  match l with
  | [] => [x]
  | y :: l' =>
      if String.ltb (key x) (key y) then y :: insert_reverse_str x l' else x :: y :: l'
  end.

Definition sort_reverse (l : list A) : list A := fold_right insert_reverse_str [] l.

End SortByString.

Definition RSS_SOURCES : list (string * string) :=
  [ ("chaingpt", "https://api.chaingpt.org/ai-news/rss");
    ("cointelegraph", "https://cointelegraph.com/rss");
    ("decrypt", "https://decrypt.co/feed");
    ("cryptonews", "https://crypto.news/feed") ].

(** An entry of a parsed feed.  A date is the UTC time it denotes, in
    microseconds; [None] when the attribute is missing or empty. *)
Record RssEntry := {
  published_parsed : option Z;
  updated_parsed : option Z;
  entry_title : string;
  entry_link : string;
  entry_summary : string
}.

(** A dict of [all_news]. *)
Record NewsItem := {
  title : string;
  link : string;
  published_at : option string;
  source : string;
  summary : string
}.

Section Externals.

(** [requests.get] and [feedparser.parse] for a source: the entries of the
    feed the loop goes through (all of them, unless something raises on the
    way), or [None] when the request or the parsing raised. *)
Variable fetch_feed : string -> string -> option (list RssEntry).

(** [datetime.isoformat] *)
Variable isoformat : Z -> string.

(** Body of the loop over [feed.entries], on [(seen_titles, all_news)]. *)
Definition entry_step (cutoff_time : Z) (source_name : string)
    (acc : gset string * list NewsItem) (entry : RssEntry) : gset string * list NewsItem :=
  let '(seen_titles, all_news) := acc in
  (* Parse published date *)
  let published :=
    match published_parsed entry with
    | Some t => Some t
    | None => updated_parsed entry
    end in
  (* Skip if too old *)
  if match published with Some t => bool_decide (t < cutoff_time)%Z | None => false end
  then acc
  else
    (* Extract data *)
    let title := strip (entry_title entry) in
    let link := entry_link entry in
    let summary := entry_summary entry in
    (* Deduplicate by title *)
    if negb (String.eqb title EmptyString) && negb (bool_decide (title ∈ seen_titles)) then
      ({[title]} ∪ seen_titles,
       (all_news ++ [ {| title := title;
                         link := link;
                         published_at := isoformat <$> published;
                         source := source_name;
                         summary := String.substring 0 200 summary |} ])%list)
    else acc.

(** Body of the loop over [RSS_SOURCES.items()]. *)
Definition source_step (cutoff_time : Z) (acc : gset string * list NewsItem)
    (src : string * string) : gset string * list NewsItem :=
  let '(source_name, feed_url) := src in
  match fetch_feed source_name feed_url with
  | Some entries => fold_left (entry_step cutoff_time source_name) entries acc
  | None => acc
  end.

(** [x['published_at'] or ''] *)
Definition sort_key (x : NewsItem) : string := default EmptyString (published_at x).

(** [cutoff_time] is [datetime.now(timezone.utc) - timedelta(hours=hours)]. *)
Definition fetch_crypto_news (cutoff_time : Z) : list NewsItem :=
  let all_news := snd (fold_left (source_step cutoff_time) RSS_SOURCES (∅, [])) in
  (* Sort by published date (newest first) *)
  sort_reverse sort_key all_news.

End Externals.

End NewsFetcher.

(** ** backend/check_closing.py

    The script reads the enriched markets and builds two lists of
    candidates; printing aside, these are its two loops. *)

Module CheckClosing.
Import RiskCalculator.
Local Open Scope R_scope.

(** A dict of [candidates]. *)
Module Candidate.
Record t := {
  question : string;
  outcome : string;
  prob : R;
  mult : R;
  hours : R
}.
End Candidate.

Section Clock.

(** [(end_date - now).total_seconds() / 3600] for the date
    [datetime.fromisoformat(end_date_str.replace('Z', '+00:00'))], or
    [None] when parsing raises. *)
Variable hours_until_close : string -> option R.

Definition candidates (markets_data : list Market) : list Candidate.t :=
  flat_map (fun market =>
    let end_date_str := end_date market in
    if String.eqb end_date_str EmptyString then []
    else
      match hours_until_close end_date_str with
      | None => []
      | Some hours_until_close =>
          (* Check markets closing in 30 days *)
          if decide (0 < hours_until_close <= 720) then
            omap (fun outcome =>
              let prob := probability outcome in
              let mult := multiplier (risk_metrics outcome) in
              (* Check if meets criteria *)
              if decide (0.60 <= prob <= 0.90 /\ mult >= 1.1) then
                Some {| Candidate.question := String.substring 0 60 (question market);
                        Candidate.outcome := name outcome;
                        Candidate.prob := prob;
                        Candidate.mult := py_round mult 2;
                        Candidate.hours := py_round hours_until_close 1 |}
              else None)
              (outcomes market)
          else []
      end)
    markets_data.

(** Check without probability restriction *)
Definition candidates_relaxed (markets_data : list Market) : list Candidate.t :=
  flat_map (fun market =>
    let end_date_str := end_date market in
    if String.eqb end_date_str EmptyString then []
    else
      match hours_until_close end_date_str with
      | None => []
      | Some hours_until_close =>
          if decide (0 < hours_until_close <= 720) then
            omap (fun outcome =>
              let mult := multiplier (risk_metrics outcome) in
              if decide (mult >= 1.1) then
                Some {| Candidate.question := String.substring 0 60 (question market);
                        Candidate.outcome := name outcome;
                        Candidate.prob := probability outcome;
                        Candidate.mult := py_round mult 2;
                        Candidate.hours := py_round hours_until_close 1 |}
              else None)
              (outcomes market)
          else []
      end)
    markets_data.

End Clock.

End CheckClosing.

(** ** The formulas of the specification

    Section 4.1 of the specification, as it words them; the theorems compare
    them with what [calculate_risk_reward_score] returns. *)

Module RiskSpec.
Local Open Scope R_scope.

Definition clamp (x lo hi : R) : R := Rmin (Rmax x lo) hi.

(** "multiplier = 1/price if price>0 else 0" *)
Definition spec_multiplier (price : R) : R :=
  if decide (price > 0) then 1 / price else 0.

(** "if volume>0, clamp((log10(volume) - 4)/3, 0.1, 1.0); if volume==0,
    volume_weight = 0.1" *)
Definition spec_volume_weight (volume : R) : R :=
  if decide (volume > 0) then clamp ((log10 volume - 4) / 3) 0.1 1.0 else 0.1.

(** "score = max(0, multiplier-1) * volume_weight" *)
Definition spec_score (price volume : R) : R :=
  Rmax 0 (spec_multiplier price - 1) * spec_volume_weight volume.

(** "let b = multiplier-1. If b>0: kelly = clamp(((b*probability) -
    (1-probability)) / b, 0, 1); else kelly = 0" *)
Definition spec_kelly (probability price : R) : R :=
  let b := spec_multiplier price - 1 in
  if decide (b > 0) then clamp (((b * probability) - (1 - probability)) / b) 0 1 else 0.

(** "medium: probability in [0.05,0.10] and multiplier in [10,20]" and
    the three other named regions *)
Definition in_medium (p m : R) : Prop := 0.05 <= p <= 0.10 /\ 10 <= m <= 20.
Definition in_low (p m : R) : Prop := 0.10 < p <= 0.20 /\ 5 <= m <= 10.
Definition in_extreme (p m : R) : Prop := p < 0.05 /\ m > 20.
Definition in_safe (p m : R) : Prop := p > 0.60 /\ m < 2.

(** Any two tests of the table that hold at [(p, m)] carry one label. *)
Definition coherent (rules : list ((R -> R -> bool) * string)) (p m : R) : Prop :=
  forall r1 r2, In r1 rules -> In r2 rules ->
    fst r1 p m = true -> fst r2 p m = true -> snd r1 = snd r2.


End RiskSpec.

(** What the loop body of [enrich_with_risk_metrics] stores for one
    outcome: the category of the probability and of the multiplier rounded
    to 2 decimals. *)
Definition stored_rounded (o : RiskCalculator.Outcome) : Prop :=
  RiskCalculator.probability o = RiskCalculator.price o
  /\ RiskCalculator.multiplier (RiskCalculator.risk_metrics o)
     = py_round (RiskSpec.spec_multiplier (RiskCalculator.price o)) 2
  /\ RiskCalculator.risk_category (RiskCalculator.risk_metrics o)
     = Some (RiskCalculator.categorize_risk
               (RiskCalculator.probability o)
               (py_round (RiskSpec.spec_multiplier (RiskCalculator.price o)) 2)).

(** An API response with one outcome priced just below the 0.05 boundary. *)
Definition boundary_response : list RiskCalculator.EventGroup :=
  [ {| RiskCalculator.group_title := "Crypto";
       RiskCalculator.group_image := EmptyString;
       RiskCalculator.group_markets :=
         [ {| RiskCalculator.api_id := "516710";
              RiskCalculator.api_question := "Will Bitcoin reach $100k?";
              RiskCalculator.api_slug := "bitcoin-100k";
              RiskCalculator.api_endDate := "2025-12-31";
              RiskCalculator.api_volume := 1500000%R;
              RiskCalculator.api_image := None;
              RiskCalculator.api_outcomes := Some ["Yes"%string];
              RiskCalculator.api_outcomePrices := Some [Some 0.04999%R] |} ] |} ].

(** Section 4.2 of the specification, as it words the keyword strategy. *)

Module ClassifierSpec.

(** "substring match" *)
Definition substring_of (sub s : string) : Prop :=
  exists pre post : string, s = (pre ++ sub ++ post)%string.

Definition stopword_list : list string :=
  ["the"; "a"; "an"; "will"; "be"; "is"; "in"; "of"; "to"; "for"; "on"; "at"]%string.

(** "token-overlap between market-question words (minus a small stopword
    set) and news-title words": the number of distinct such tokens. *)
Definition shared_tokens (market_question news_title : string) : nat :=
  length (filter (fun w => (w ∉ stopword_list) /\ (w ∈ split (lower news_title)))
                 (remove_dups (split (lower market_question)))).

End ClassifierSpec.

(** One call of [classify]: the arguments the loop body passes. *)
Record Request := {
  req_title : string;
  req_market_id : string;
  req_question : string;
  req_outcomes : list string
}.

(** A run of classifications, each from the state the previous one left. *)
Definition classify_all
    (md5_hexdigest : string -> string) (client : nat -> string -> option NewsAnalyzer.Judgment)
    (claude_client : bool) (st : NewsAnalyzer.State) (requests : list Request)
  : NewsAnalyzer.State :=
  fold_left
    (fun st r =>
       snd (NewsAnalyzer.classify md5_hexdigest client claude_client st
              (req_title r) (req_market_id r) (req_question r) (req_outcomes r)))
    requests st.

(** "affects_outcomes is a subset of the market's outcome names" *)
Definition within_outcomes (outcome_names : list string) (j : NewsAnalyzer.Judgment) : Prop :=
  incl (NewsAnalyzer.affects_outcomes j) outcome_names.

(** A reply of the service that names an outcome the market does not have. *)
Definition stray_reply (n : nat) (prompt : string) : option NewsAnalyzer.Judgment :=
  Some {| NewsAnalyzer.relevance_score := 9%R;
          NewsAnalyzer.affects_outcomes := ["Maybe"%string];
          NewsAnalyzer.impact_direction := "positive";
          NewsAnalyzer.confidence := "high";
          NewsAnalyzer.reasoning := "Directly related to BTC price";
          NewsAnalyzer.analysis_method := EmptyString |}.

(** Stand-ins for the digest and the service where a statement is
    instantiated: a digest that returns its argument and a service that
    is down.  The theorems hold for every digest and every service. *)
Definition plain_digest (content : string) : string := content.
Definition no_service (n : nat) (prompt : string) : option NewsAnalyzer.Judgment := None.

(** Section 4.3 of the specification: what a sorted, truncated widget list
    is, in terms of the list it was taken from. *)

Module AggregatorSpec.
Local Open Scope R_scope.

Section ByKey.
Context {A : Type} (key : A -> R).

(** "sort descending" *)
Definition descending (l : list A) : Prop :=
  StronglySorted (fun a b => key a >= key b) l.

(** The elements of [l] whose key is [k], in the order of [l]. *)
Definition with_key (k : R) (l : list A) : list A :=
  List.filter (fun a => bool_decide (key a = k)) l.

(** [returned] is the top [n] of [candidates]: it has at most [n] elements
    and all of them when there are fewer; with the elements left out it
    makes up [candidates]; no element left out has a greater key than a
    returned one; it is in descending order; and the elements of equal key
    stand, returned ones first, in the order they have in [candidates]. *)
Definition top_of (n : nat) (candidates returned : list A) : Prop :=
  (length returned <= n)%nat
  /\ exists unreturned,
       Permutation (returned ++ unreturned) candidates
       /\ (unreturned = [] \/ length returned = n)
       /\ (forall x y, In x returned -> In y unreturned -> key x >= key y)
       /\ descending returned
       /\ (forall k, with_key k (returned ++ unreturned) = with_key k candidates).

(** "the single judgment with the highest relevance_score (ties broken by
    traversal order)": [best] stands in [l] after elements of smaller key
    only and before elements of no greater key. *)
Definition first_best (l : list A) (best : A) : Prop :=
  exists before after,
    l = before ++ best :: after
    /\ (forall e, In e before -> key e < key best)
    /\ (forall e, In e after -> key e <= key best).

End ByKey.

(** "flatten every outcome across every market, filter to risk_category":
    the outcomes of category [c], market by market and outcome by outcome,
    as the widget shows them. *)
Definition category_outcomes (c : string) (markets_data : list RiskCalculator.Market)
  : list Aggregator.RiskItem.t :=
  flat_map (fun market =>
    List.map (Aggregator.risk_item market)
      (List.filter
         (fun outcome =>
            Aggregator.category_is c
              (RiskCalculator.risk_category (RiskCalculator.risk_metrics outcome)))
         (RiskCalculator.outcomes market)))
    markets_data.

(** "group judgments by market_id": the judgments of one market, in
    traversal order. *)
Definition judgments_of (market_id : string) (news_mapping : list NewsAnalyzer.Entry.t)
  : list NewsAnalyzer.Entry.t :=
  List.filter (fun item => String.eqb (NewsAnalyzer.Entry.market_id item) market_id)
              news_mapping.

(** [entry] is the news-feed entry of market [market_id]: the first
    judgment of highest relevance_score among that market's, with the
    question and url of the first market of that id. *)
Definition best_match
    (news_mapping : list NewsAnalyzer.Entry.t) (markets_data : list RiskCalculator.Market)
    (market_id : string) (entry : Aggregator.NewsItem.t) : Prop :=
  exists best_news market,
    first_best NewsAnalyzer.Entry.relevance_score
               (judgments_of market_id news_mapping) best_news
    /\ List.find (fun m => String.eqb (RiskCalculator.market_id m) market_id) markets_data
       = Some market
    /\ entry = Aggregator.news_item best_news market.

(** The invariant of the grouping loop after the judgments [seen]: the
    keys are distinct, each holds the judgments of its market, and a market
    without key has none. *)
Definition grouped (seen : list NewsAnalyzer.Entry.t)
    (news_by_market : list (string * list NewsAnalyzer.Entry.t)) : Prop :=
  NoDup (List.map fst news_by_market)
  /\ Forall (fun kv => snd kv = judgments_of (fst kv) seen) news_by_market
  /\ (forall k, ~ In k (List.map fst news_by_market) -> judgments_of k seen = []).

(** [top_news] before sorting, each entry with the key it was built for. *)
Definition tagged_top_news
    (markets_data : list RiskCalculator.Market)
    (news_by_market : list (string * list NewsAnalyzer.Entry.t))
  : list (string * Aggregator.NewsItem.t) :=
  omap (fun kv => pair (fst kv) <$> Aggregator.best_entry markets_data (fst kv) (snd kv))
       news_by_market.

End AggregatorSpec.

(** ** What the pipeline stores for an outcome

    In [enrich_with_risk_metrics] the probability is the price, so the
    metrics and the category of a stored outcome are functions of its price
    and of the market volume. *)

Module PipelineSpec.
Local Open Scope R_scope.

(** Expected value and Kelly fraction carry no information. *)
Definition neutral_metrics (o : RiskCalculator.Outcome) : Prop :=
  let rm := RiskCalculator.risk_metrics o in
  RiskCalculator.kelly_fraction rm = 0
  /\ RiskCalculator.expected_value rm
     = (if decide (RiskCalculator.price o > 0) then 0 else -1).

(** The category in terms of the price alone. *)
Definition category_by_price (o : RiskCalculator.Outcome) : Prop :=
  let price := RiskCalculator.price o in
  let c := RiskCalculator.risk_category (RiskCalculator.risk_metrics o) in
  (c = Some "medium"%string <-> 0.05 <= price <= 0.10)
  /\ (c = Some "low"%string <-> 0.10 < price <= 0.20)
  /\ (c = Some "safe"%string <-> price > 0.60)
  /\ (c = Some "extreme"%string <-> 0 < price /\ 1 / price > 20.005)
  /\ (c = Some "other"%string <->
        price <= 0 \/ (price < 0.05 /\ 1 / price <= 20.005) \/ 0.20 < price <= 0.60).

End PipelineSpec.

(** ** What a run of the analyzer keeps true *)

Module AnalyzerSpec.

(** The state [analyze_news_relevance] starts from. *)
Definition initial_state (loaded : gmap string NewsAnalyzer.Judgment) : NewsAnalyzer.State :=
  {| NewsAnalyzer.cache := loaded;
     NewsAnalyzer.stats :=
       {| NewsAnalyzer.total_analyzed := 0; NewsAnalyzer.claude_ai := 0;
          NewsAnalyzer.keyword_fallback := 0; NewsAnalyzer.errors := 0;
          NewsAnalyzer.cached := 0 |};
     NewsAnalyzer.news_market_mapping := [];
     NewsAnalyzer.request_count := 0;
     NewsAnalyzer.api_calls := 0 |}.

(** Every analyzed pair is counted under exactly one of the three ways a
    judgment is obtained; the service is called at least as often as it
    answers; the request counter of the rate limiter stays within 50. *)
Definition accounted (st : NewsAnalyzer.State) : Prop :=
  let s := NewsAnalyzer.stats st in
  NewsAnalyzer.total_analyzed s
  = NewsAnalyzer.claude_ai s + NewsAnalyzer.keyword_fallback s + NewsAnalyzer.cached s
  /\ NewsAnalyzer.errors s = 0
  /\ NewsAnalyzer.claude_ai s <= NewsAnalyzer.api_calls st
  /\ NewsAnalyzer.request_count st <= 50
  /\ NewsAnalyzer.request_count st <= NewsAnalyzer.claude_ai s
  /\ length (NewsAnalyzer.news_market_mapping st) <= NewsAnalyzer.total_analyzed s.

(** An entry of [news_market_mapping] passed the relevance filter, and
    pairs one of the first ten news with one of the markets. *)
Definition entry_of
    (news_data : list NewsAnalyzer.News) (markets : list RiskCalculator.Market)
    (e : NewsAnalyzer.Entry.t) : Prop :=
  (NewsAnalyzer.Entry.relevance_score e >= 3)%R
  /\ NewsAnalyzer.Entry.news_id e < 10
  /\ (exists news,
        news_data !! NewsAnalyzer.Entry.news_id e = Some news
        /\ NewsAnalyzer.Entry.news_title e = NewsAnalyzer.title news
        /\ NewsAnalyzer.Entry.news_link e = NewsAnalyzer.link news)
  /\ (exists market,
        In market markets
        /\ NewsAnalyzer.Entry.market_id e = RiskCalculator.market_id market
        /\ NewsAnalyzer.Entry.market_question e = RiskCalculator.question market
        /\ NewsAnalyzer.Entry.market_url e = RiskCalculator.url market
        /\ exists outcome, In outcome (RiskCalculator.outcomes market)
                           /\ RiskCalculator.name outcome <> EmptyString).

(** The cache only grows: what was loaded is still there, and there is one
    new entry for each judgment a strategy produced. *)
Definition cache_grown (loaded : gmap string NewsAnalyzer.Judgment)
    (st : NewsAnalyzer.State) : Prop :=
  loaded ⊆ NewsAnalyzer.cache st
  /\ size (NewsAnalyzer.cache st)
     = size loaded + NewsAnalyzer.claude_ai (NewsAnalyzer.stats st)
       + NewsAnalyzer.keyword_fallback (NewsAnalyzer.stats st).

(** The outcome names the loop body passes on. *)
Definition named_outcomes (market : RiskCalculator.Market) : list string :=
  List.filter (fun n => negb (String.eqb n EmptyString))
              (List.map RiskCalculator.name (RiskCalculator.outcomes market)).

(** The entry the loop body appends for a judgment it keeps. *)
Definition mapping_entry (news_idx : nat) (news : NewsAnalyzer.News)
    (market : RiskCalculator.Market) (result : NewsAnalyzer.Judgment) : NewsAnalyzer.Entry.t :=
  {| NewsAnalyzer.Entry.news_id := news_idx;
     NewsAnalyzer.Entry.news_title := NewsAnalyzer.title news;
     NewsAnalyzer.Entry.news_link := NewsAnalyzer.link news;
     NewsAnalyzer.Entry.market_id := RiskCalculator.market_id market;
     NewsAnalyzer.Entry.market_question := RiskCalculator.question market;
     NewsAnalyzer.Entry.market_url := RiskCalculator.url market;
     NewsAnalyzer.Entry.relevance_score := NewsAnalyzer.relevance_score result;
     NewsAnalyzer.Entry.affects_outcomes := NewsAnalyzer.affects_outcomes result;
     NewsAnalyzer.Entry.impact_direction := NewsAnalyzer.impact_direction result;
     NewsAnalyzer.Entry.confidence := NewsAnalyzer.confidence result;
     NewsAnalyzer.Entry.reasoning := NewsAnalyzer.reasoning result;
     NewsAnalyzer.Entry.analysis_method := NewsAnalyzer.analysis_method result |}.

(** The request counter after the rate-limiting check. *)
Definition checked_count (st : NewsAnalyzer.State) : nat :=
  if decide (50 <= NewsAnalyzer.request_count st) then 0 else NewsAnalyzer.request_count st.

(** What one classification does to the state [st], [key] being the
    pair's cache key, [result] the judgment and [st'] the state it returns:
    a hit only counts; a miss stores the judgment, which is either the
    reply of the service or the keyword judgment [kw]. *)
Definition classified (claude_client : bool) (key : string) (kw : NewsAnalyzer.Judgment)
    (st : NewsAnalyzer.State) (result : NewsAnalyzer.Judgment) (st' : NewsAnalyzer.State)
  : Prop :=
  let s := NewsAnalyzer.stats st in
  let s' := NewsAnalyzer.stats st' in
  NewsAnalyzer.news_market_mapping st' = NewsAnalyzer.news_market_mapping st
  /\ NewsAnalyzer.total_analyzed s' = NewsAnalyzer.total_analyzed s
  /\ NewsAnalyzer.errors s' = NewsAnalyzer.errors s
  /\ ((NewsAnalyzer.cache st !! key = Some result
       /\ st' = NewsAnalyzer.set_stats st (NewsAnalyzer.incr_cached s))
      \/ (NewsAnalyzer.cache st !! key = None
          /\ NewsAnalyzer.cache st' = <[key := result]> (NewsAnalyzer.cache st)
          /\ NewsAnalyzer.cached s' = NewsAnalyzer.cached s
          /\ ((claude_client = true
               /\ NewsAnalyzer.analysis_method result = "claude_ai"%string
               /\ NewsAnalyzer.claude_ai s' = NewsAnalyzer.claude_ai s + 1
               /\ NewsAnalyzer.keyword_fallback s' = NewsAnalyzer.keyword_fallback s
               /\ NewsAnalyzer.api_calls st' = NewsAnalyzer.api_calls st + 1
               /\ NewsAnalyzer.request_count st' = checked_count st + 1)
              \/ (result = kw
                  /\ NewsAnalyzer.claude_ai s' = NewsAnalyzer.claude_ai s
                  /\ NewsAnalyzer.keyword_fallback s' = NewsAnalyzer.keyword_fallback s + 1
                  /\ NewsAnalyzer.api_calls st'
                     = NewsAnalyzer.api_calls st + (if claude_client then 1 else 0)
                  /\ NewsAnalyzer.request_count st'
                     = (if claude_client then checked_count st
                        else NewsAnalyzer.request_count st))))).

(** What a second run on the same news and markets, started from the
    cache [saved] that the first run [st1] left, ends in: [st2] has the
    same mapping, took every judgment from the cache, and leaves the cache
    as it found it. *)
Definition replayed (saved : gmap string NewsAnalyzer.Judgment)
    (st1 st2 : NewsAnalyzer.State) : Prop :=
  let s2 := NewsAnalyzer.stats st2 in
  NewsAnalyzer.news_market_mapping st2 = NewsAnalyzer.news_market_mapping st1
  /\ NewsAnalyzer.total_analyzed s2 = NewsAnalyzer.total_analyzed (NewsAnalyzer.stats st1)
  /\ NewsAnalyzer.cached s2 = NewsAnalyzer.total_analyzed s2
  /\ NewsAnalyzer.claude_ai s2 = 0
  /\ NewsAnalyzer.keyword_fallback s2 = 0
  /\ NewsAnalyzer.api_calls st2 = 0
  /\ NewsAnalyzer.cache st2 = saved.

(** A judgment as the keyword strategy marks it. *)
Definition keyword_marked (method direction conf : string) : Prop :=
  method = "keyword_fallback"%string /\ direction = "neutral"%string /\ conf = "low"%string.

(** The invariant of a run without the service, from an empty cache: the
    service was never called, and every cached judgment and every entry of
    the mapping is marked as the keyword strategy marks them. *)
Definition keyword_only (st : NewsAnalyzer.State) : Prop :=
  NewsAnalyzer.api_calls st = 0
  /\ NewsAnalyzer.claude_ai (NewsAnalyzer.stats st) = 0
  /\ map_Forall (fun _ j => keyword_marked (NewsAnalyzer.analysis_method j)
                              (NewsAnalyzer.impact_direction j) (NewsAnalyzer.confidence j))
                (NewsAnalyzer.cache st)
  /\ Forall (fun e => keyword_marked (NewsAnalyzer.Entry.analysis_method e)
                         (NewsAnalyzer.Entry.impact_direction e)
                         (NewsAnalyzer.Entry.confidence e))
            (NewsAnalyzer.news_market_mapping st).

End AnalyzerSpec.

(** ** What the widgets show when fed by the pipeline *)

Module DashboardSpec.
Local Open Scope R_scope.

(** The ids of [ids], each once, in the order in which they first occur. *)
Fixpoint first_occurrences (ids : list string) : list string :=
  match ids with
  | [] => []
  | id :: rest =>
      id :: List.filter (fun k => negb (String.eqb k id)) (first_occurrences rest)
  end.

(** The markets the news feed can show: the market ids of the judgments
    that name a market of the list, each once, in the order in which they
    first occur in the mapping. *)
Definition feed_markets
    (news_mapping : list NewsAnalyzer.Entry.t) (markets_data : list RiskCalculator.Market)
  : list string :=
  List.filter
    (fun id => existsb (fun m => String.eqb (RiskCalculator.market_id m) id) markets_data)
    (first_occurrences (List.map NewsAnalyzer.Entry.market_id news_mapping)).

(** A feed entry shows a judgment that passed the filter, the title and
    link of one of the first ten news, and the question and url of one of
    the markets. *)
Definition feed_entry_sound
    (news_data : list NewsAnalyzer.News) (markets_data : list RiskCalculator.Market)
    (item : Aggregator.NewsItem.t) : Prop :=
  Aggregator.NewsItem.relevance_score item >= 3
  /\ (exists news_idx news,
        (news_idx < 10)%nat
        /\ news_data !! news_idx = Some news
        /\ Aggregator.NewsItem.news_title item = NewsAnalyzer.title news
        /\ Aggregator.NewsItem.news_link item = NewsAnalyzer.link news)
  /\ (exists market,
        In market markets_data
        /\ Aggregator.NewsItem.market_title item = RiskCalculator.question market
        /\ Aggregator.NewsItem.market_url item = RiskCalculator.url market).

(** An item of the risk widget lies in the region of its category. *)
Definition item_in_region (c : string) (item : Aggregator.RiskItem.t) : Prop :=
  let p := Aggregator.RiskItem.probability item in
  let m := Aggregator.RiskItem.multiplier item in
  Aggregator.RiskItem.risk_category item = Some c
  /\ ((c = "medium"%string /\ 0.05 <= p <= 0.10 /\ 10 <= m <= 20)
      \/ (c = "low"%string /\ 0.10 < p <= 0.20 /\ 5 <= m <= 10)).

End DashboardSpec.

(** ** What the scraper selects *)

Module ScraperSpec.

(** The test of the closing-soon loop. *)
Definition closing_soon (closes_within_60_days : string -> option bool)
    (market : Scraper.Event) : bool :=
  negb (String.eqb (Scraper.endDate market) EmptyString)
  && match closes_within_60_days (Scraper.endDate market) with
     | Some true => true
     | _ => false
     end.

(** The three lists the deduplication reads, in its order. *)
Definition candidates (closes_within_60_days : string -> option bool)
    (all_markets : list Scraper.Event) : list Scraper.Event :=
  firstn 100 (sorted_reverse Scraper.volume24hr all_markets)
  ++ firstn 50 (List.filter Scraper.is_crypto all_markets)
  ++ firstn 30 (List.filter (closing_soon closes_within_60_days) all_markets).

(** [final] keeps, of [markets], the first event of each non-empty id. *)
Definition first_of_each_id (markets final : list Scraper.Event) : Prop :=
  sublist final markets
  /\ NoDup (List.map Scraper.id final)
  /\ Forall (fun m => Scraper.id m <> EmptyString) final
  /\ (forall m, In m markets -> Scraper.id m <> EmptyString ->
        In (Scraper.id m) (List.map Scraper.id final)).

(** The invariant of the deduplication loop. *)
Definition deduplicated (markets : list Scraper.Event)
    (acc : gset string * list Scraper.Event) : Prop :=
  first_of_each_id markets (snd acc)
  /\ (forall k, k ∈ fst acc <-> In k (List.map Scraper.id (snd acc))).

(** The waits before attempt [k]: 1, 2, 4, ..., 2^(k-1) seconds. *)
Definition backoff (k : nat) : list nat := List.map (Nat.pow 2) (seq 0 k).

(** A service that fails every request. *)
Definition service_down (attempt : nat) : Scraper.Attempt := Scraper.RequestException.

(** A service that fails twice and then answers with an empty list. *)
Definition service_third_time (attempt : nat) : Scraper.Attempt :=
  if (attempt <? 2)%nat then Scraper.RequestException else Scraper.Json [].

(** A clock for which no date parses. *)
Definition no_date (end_date_str : string) : option bool := None.

(** What a call returns when attempt [k] is the first that does not end
    in a request exception. *)
Definition answered (closes_within_60_days : string -> option bool)
    (answer : Scraper.Attempt) (k : nat) : Scraper.Fetched :=
  match answer with
  | Scraper.Json all_markets =>
      {| Scraper.returned := Scraper.select_markets closes_within_60_days all_markets;
         Scraper.snapshot := Some (Scraper.select_markets closes_within_60_days all_markets);
         Scraper.slept := backoff k |}
  | _ => {| Scraper.returned := []; Scraper.snapshot := None; Scraper.slept := backoff k |}
  end.

End ScraperSpec.

(** ** What the news fetcher returns *)

Module NewsFetcherSpec.

(** A news item as the loop builds it: a non-empty title, a summary of at
    most 200 characters, one of the four sources, and a date that is not
    before the cutoff when there is one. *)
Definition well_formed (isoformat : Z -> string) (cutoff_time : Z)
    (item : NewsFetcher.NewsItem) : Prop :=
  NewsFetcher.title item <> EmptyString
  /\ String.length (NewsFetcher.summary item) <= 200
  /\ In (NewsFetcher.source item) (List.map fst NewsFetcher.RSS_SOURCES)
  /\ (NewsFetcher.published_at item = None
      \/ exists t, (cutoff_time <= t)%Z /\ NewsFetcher.published_at item = Some (isoformat t)).

(** The invariant of the loops. *)
Definition collected (isoformat : Z -> string) (cutoff_time : Z)
    (acc : gset string * list NewsFetcher.NewsItem) : Prop :=
  NoDup (List.map NewsFetcher.title (snd acc))
  /\ Forall (well_formed isoformat cutoff_time) (snd acc)
  /\ (forall k, k ∈ fst acc <-> In k (List.map NewsFetcher.title (snd acc))).

(** Descending order of the sort keys, code point by code point. *)
Definition newest_first (l : list NewsFetcher.NewsItem) : Prop :=
  StronglySorted
    (fun a b => String.leb (NewsFetcher.sort_key b) (NewsFetcher.sort_key a) = true) l.

End NewsFetcherSpec.

(** ** What the closing-soon script lists *)

Module CheckClosingSpec.
Local Open Scope R_scope.

(** The first loop of the script without its test of the multiplier. *)
Definition candidates_by_probability (hours_until_close : string -> option R)
    (markets_data : list RiskCalculator.Market) : list CheckClosing.Candidate.t :=
  flat_map (fun market =>
    if String.eqb (RiskCalculator.end_date market) EmptyString then []
    else
      match hours_until_close (RiskCalculator.end_date market) with
      | None => []
      | Some h =>
          if decide (0 < h <= 720) then
            omap (fun outcome =>
              if decide (0.60 <= RiskCalculator.probability outcome <= 0.90) then
                Some {| CheckClosing.Candidate.question :=
                          String.substring 0 60 (RiskCalculator.question market);
                        CheckClosing.Candidate.outcome := RiskCalculator.name outcome;
                        CheckClosing.Candidate.prob := RiskCalculator.probability outcome;
                        CheckClosing.Candidate.mult :=
                          py_round (RiskCalculator.multiplier
                                      (RiskCalculator.risk_metrics outcome)) 2;
                        CheckClosing.Candidate.hours := py_round h 1 |}
              else None)
              (RiskCalculator.outcomes market)
          else []
      end)
    markets_data.

(** The ranges of a candidate's fields. *)
Definition candidate_ranges (c : CheckClosing.Candidate.t) : Prop :=
  0.60 <= CheckClosing.Candidate.prob c <= 0.90
  /\ 1.11 <= CheckClosing.Candidate.mult c <= 1.67
  /\ 0 <= CheckClosing.Candidate.hours c <= 720
  /\ (String.length (CheckClosing.Candidate.question c) <= 60)%nat.

End CheckClosingSpec.

(** * Properties *)

(** ** Rounding, [max] and [min] *)

Section PyFloatFacts.
Local Open Scope R_scope.

Lemma py_max_Rmax (a b : R) : py_max a b = Rmax a b.
Proof.
  unfold py_max, Rmax. destruct (decide (b > a)), (Rle_dec a b); lra.
Qed.

Lemma py_min_Rmin (a b : R) : py_min a b = Rmin a b.
Proof.
  unfold py_min, Rmin. destruct (decide (b < a)), (Rle_dec a b); lra.
Qed.

Lemma py_max_lower (a b : R) : a <= py_max a b /\ b <= py_max a b.
Proof. unfold py_max. destruct (decide (b > a)); lra. Qed.

Lemma py_min_upper (a b : R) : py_min a b <= a /\ py_min a b <= b.
Proof. unfold py_min. destruct (decide (b < a)); lra. Qed.

Lemma py_min_lower (a b c : R) : c <= a -> c <= b -> c <= py_min a b.
Proof. unfold py_min. destruct (decide (b < a)); lra. Qed.

Lemma round_half_even_near (x : R) :
  IZR (round_half_even x) - 1 / 2 <= x <= IZR (round_half_even x) + 1 / 2.
Proof.
  unfold round_half_even. pose proof (Zfloor_bound x) as Hf.
  repeat case_decide; try destruct (Z.even _); rewrite ?plus_IZR; lra.
Qed.

Lemma round_half_even_unique (x : R) (z : Z) :
  IZR z - 1 / 2 < x < IZR z + 1 / 2 -> round_half_even x = z.
Proof.
  intros Hx. pose proof (round_half_even_near x) as Hn.
  apply Z.le_antisymm.
  - apply Z.lt_succ_r, lt_IZR. rewrite succ_IZR. lra.
  - apply Z.lt_succ_r, lt_IZR. rewrite succ_IZR. lra.
Qed.

Lemma round_half_even_IZR (z : Z) : round_half_even (IZR z) = z.
Proof. apply round_half_even_unique. lra. Qed.

Lemma round_half_even_mono (x y : R) :
  x <= y -> (round_half_even x <= round_half_even y)%Z.
Proof.
  intros Hxy. pose proof (Zfloor_le x y Hxy) as Hfl.
  pose proof (Zfloor_bound x) as Hx. pose proof (Zfloor_bound y) as Hy.
  destruct (Z.eq_dec (Zfloor x) (Zfloor y)) as [Heq | Hne].
  - unfold round_half_even. rewrite <- Heq in *.
    repeat case_decide; try destruct (Z.even (Zfloor x)); try lia; lra.
  - assert (Hlt : (Zfloor x + 1 <= Zfloor y)%Z) by lia.
    transitivity (Zfloor x + 1)%Z; [| transitivity (Zfloor y); [exact Hlt |]].
    + unfold round_half_even. repeat case_decide; try destruct (Z.even _); lia.
    + unfold round_half_even. repeat case_decide; try destruct (Z.even _); lia.
Qed.

Lemma pow10_pos (n : nat) : 0 < 10 ^ n.
Proof. apply pow_lt. lra. Qed.

Lemma py_round_mono (x y : R) (n : nat) : x <= y -> py_round x n <= py_round y n.
Proof.
  intros Hxy. unfold py_round. pose proof (pow10_pos n) as Hp.
  apply Rmult_le_compat_r; [left; apply Rinv_0_lt_compat; exact Hp |].
  apply IZR_le, round_half_even_mono. nra.
Qed.

Lemma py_round_fixed (z : Z) (n : nat) : py_round (IZR z / 10 ^ n) n = IZR z / 10 ^ n.
Proof.
  unfold py_round. pose proof (pow10_pos n) as Hp.
  replace (IZR z / 10 ^ n * 10 ^ n) with (IZR z) by (field; lra).
  now rewrite round_half_even_IZR.
Qed.

Lemma py_round_0 (n : nat) : py_round 0 n = 0.
Proof.
  replace 0 with (IZR 0 / 10 ^ n) at 1 by (pose proof (pow10_pos n); field; lra).
  rewrite py_round_fixed. pose proof (pow10_pos n). field; lra.
Qed.

Lemma py_round_1 (n : nat) : py_round 1 n = 1.
Proof.
  pose proof (pow10_pos n) as Hp.
  replace 1 with (IZR (10 ^ Z.of_nat n) / 10 ^ n) at 1.
  - rewrite py_round_fixed. rewrite <- pow_IZR. field; lra.
  - rewrite <- pow_IZR. field; lra.
Qed.

Lemma py_round_nonneg (x : R) (n : nat) : 0 <= x -> 0 <= py_round x n.
Proof.
  intros H. pose proof (py_round_mono 0 x n H) as Hm. now rewrite py_round_0 in Hm.
Qed.

Lemma py_round_le_1 (x : R) (n : nat) : x <= 1 -> py_round x n <= 1.
Proof.
  intros H. pose proof (py_round_mono x 1 n H) as Hm. now rewrite py_round_1 in Hm.
Qed.

Lemma py_round_tenth_4 : py_round 0.1 4 = 0.1.
Proof.
  replace 0.1 with (IZR 1000 / 10 ^ 4) by lra. apply py_round_fixed.
Qed.

(** A value within half a unit of the last place of [z / 10^n] rounds to it. *)
Lemma py_round_unique (x : R) (n : nat) (z : Z) :
  IZR z - 1 / 2 < x * 10 ^ n < IZR z + 1 / 2 -> py_round x n = IZR z / 10 ^ n.
Proof.
  intros H. unfold py_round. now rewrite (round_half_even_unique _ z).
Qed.


End PyFloatFacts.

(** ** The risk scorer *)

Section RiskCalculatorFacts.
Import RiskCalculator RiskSpec.
Local Open Scope R_scope.

Lemma clamp_py (x lo hi : R) : py_min (py_max x lo) hi = clamp x lo hi.
Proof. unfold clamp. now rewrite py_min_Rmin, py_max_Rmax. Qed.

Lemma clamp_bounds (x lo hi : R) : lo <= hi -> lo <= clamp x lo hi <= hi.
Proof.
  intros H. unfold clamp, Rmin, Rmax.
  destruct (Rle_dec x lo); destruct (Rle_dec _ hi); lra.
Qed.

Lemma spec_volume_weight_bounds (volume : R) : 0.1 <= spec_volume_weight volume <= 1.
Proof.
  unfold spec_volume_weight. case_decide; [| lra].
  pose proof (clamp_bounds ((log10 volume - 4) / 3) 0.1 1.0). lra.
Qed.


(** The fields of the returned dict are the rounded formulas. *)
Lemma calculate_fields (probability price volume : R) :
  let r := calculate_risk_reward_score probability price volume in
  multiplier r = py_round (spec_multiplier price) 2
  /\ volume_weight r = py_round (spec_volume_weight volume) 4
  /\ score r = py_round (spec_score price volume) 6
  /\ kelly_fraction r = py_round (spec_kelly probability price) 4.
Proof.
  unfold calculate_risk_reward_score, spec_score, spec_volume_weight, spec_kelly,
    spec_multiplier; cbn.
  repeat split.
  - case_decide; now rewrite ?clamp_py.
  - rewrite py_max_Rmax. do 2 f_equal. case_decide; now rewrite ?clamp_py.
  - f_equal. set (m := if decide (price > 0) then 1 / price else 0).
    destruct (decide (m > 1)), (decide (m - 1 > 0)); try lra.
    unfold clamp. rewrite py_max_Rmax, py_min_Rmin.
    unfold Rmax, Rmin. repeat destruct (Rle_dec _ _); lra.
Qed.

Lemma multiplier_at_7_cents :
  multiplier (calculate_risk_reward_score 0.07 0.07 1500000) = 14.29.
Proof.
  destruct (calculate_fields 0.07 0.07 1500000) as [-> _].
  unfold spec_multiplier. case_decide; [| lra].
  rewrite (py_round_unique _ 2 1429); lra.
Qed.

(** The two examples of section 8 of the specification. *)
Example medium_example :
  let r := calculate_risk_reward_score 0.07 0.07 1500000 in
  multiplier r = 14.29 /\ score r > 0 /\ categorize_risk 0.07 (multiplier r) = "medium"%string.
Proof.
  cbn zeta. rewrite multiplier_at_7_cents. split; [reflexivity |]. split.
  - destruct (calculate_fields 0.07 0.07 1500000) as (_ & _ & -> & _).
    assert (Hs : 1 <= spec_score 0.07 1500000).
    { unfold spec_score, spec_multiplier. case_decide; [| lra].
      pose proof (spec_volume_weight_bounds 1500000) as [Hw _].
      pose proof (Rmax_r 0 (1 / 0.07 - 1)) as Hm.
      assert (13 <= Rmax 0 (1 / 0.07 - 1)) by lra. nra. }
    pose proof (py_round_mono _ _ 6 Hs) as Hr. rewrite py_round_1 in Hr. lra.
  - unfold categorize_risk. repeat case_decide; (reflexivity || lra).
Qed.

Example safe_example :
  let r := calculate_risk_reward_score 0.75 0.75 5000000 in
  multiplier r = 1.33 /\ categorize_risk 0.75 (multiplier r) = "safe"%string.
Proof.
  cbn zeta.
  assert (Hm : multiplier (calculate_risk_reward_score 0.75 0.75 5000000) = 1.33).
  { destruct (calculate_fields 0.75 0.75 5000000) as [-> _].
    unfold spec_multiplier. case_decide; [| lra].
    rewrite (py_round_unique _ 2 133); lra. }
  rewrite Hm. split; [reflexivity |].
  unfold categorize_risk. repeat case_decide; (reflexivity || lra).
Qed.




Lemma spec_kelly_bounds (probability price : R) : 0 <= spec_kelly probability price <= 1.
Proof.
  unfold spec_kelly. cbn. case_decide; [apply clamp_bounds |]; lra.
Qed.

(** C3: for every probability and price in [0,1], the returned
    kelly_fraction lies in [0,1], and it is 0 whenever
    b = multiplier - 1 <= 0. *)
Theorem kelly_fraction_unit_interval (probability price volume : R) :
  0 <= probability <= 1 -> 0 <= price <= 1 ->
  let r := calculate_risk_reward_score probability price volume in
  0 <= kelly_fraction r <= 1
  /\ (spec_multiplier price - 1 <= 0 -> kelly_fraction r = 0).
Proof.
  intros _ _ r.
  destruct (calculate_fields probability price volume) as (_ & _ & _ & Hk).
  fold r in Hk. rewrite Hk.
  pose proof (spec_kelly_bounds probability price) as [Hlo Hhi].
  repeat split.
  - now apply py_round_nonneg.
  - now apply py_round_le_1.
  - intros Hb. unfold spec_kelly. cbn. case_decide; [lra | apply py_round_0].
Qed.

Lemma kelly_fraction_unit_interval_witness :
  0 <= 0.75 <= 1 /\ 0 <= 1 <= 1 /\
  let r := calculate_risk_reward_score 0.75 1 5000000 in
  0 <= kelly_fraction r <= 1
  /\ (spec_multiplier 1 - 1 <= 0 -> kelly_fraction r = 0).
Proof.
  split; [lra |]. split; [lra |].
  apply (kelly_fraction_unit_interval 0.75 1 5000000); lra.
Defined.

(** *** [categorize_risk] *)

Lemma coherent_perm rules rules' p m :
  Permutation rules rules' -> coherent rules p m -> coherent rules' p m.
Proof.
  intros Hp Hc r1 r2 H1 H2.
  apply Hc; apply (Permutation_in _ (Permutation_sym Hp)); assumption.
Qed.

Lemma coherent_tail r rules p m : coherent (r :: rules) p m -> coherent rules p m.
Proof. intros Hc r1 r2 H1 H2. apply Hc; now right. Qed.

Lemma first_match_perm rules rules' p m :
  Permutation rules rules' -> coherent rules p m ->
  first_match rules p m = first_match rules' p m.
Proof.
  induction 1 as [| [t l] xs ys Hp IH | [t1 l1] [t2 l2] xs | xs ys zs H1 IH1 H2 IH2];
    intros Hc; cbn.
  - reflexivity.
  - destruct (t p m); [reflexivity |]. eapply IH, coherent_tail, Hc.
  - destruct (t1 p m) eqn:E1, (t2 p m) eqn:E2; trivial.
    apply (Hc (t2, l2) (t1, l1)); cbn; auto.
  - rewrite IH1 by assumption. apply IH2. eapply coherent_perm; eauto.
Qed.

Lemma risk_rules_disjoint (p m : R) :
  ~ (in_medium p m /\ in_low p m) /\ ~ (in_medium p m /\ in_extreme p m)
  /\ ~ (in_medium p m /\ in_safe p m) /\ ~ (in_low p m /\ in_extreme p m)
  /\ ~ (in_low p m /\ in_safe p m) /\ ~ (in_extreme p m /\ in_safe p m).
Proof. unfold in_medium, in_low, in_extreme, in_safe. repeat split; lra. Qed.

Lemma risk_rules_coherent (p m : R) : coherent risk_rules p m.
Proof.
  intros r1 r2 H1 H2 T1 T2. unfold risk_rules in *. cbn in H1, H2.
  destruct H1 as [<- | [<- | [<- | [<- | []]]]];
    destruct H2 as [<- | [<- | [<- | [<- | []]]]];
    cbn in *; trivial;
    apply bool_decide_eq_true in T1; apply bool_decide_eq_true in T2; lra.
Qed.

Lemma first_match_risk_rules (p m : R) : first_match risk_rules p m = categorize_risk p m.
Proof.
  unfold categorize_risk, risk_rules. cbn [first_match].
  repeat case_bool_decide; repeat case_decide; (reflexivity || tauto).
Qed.

(** C2: [categorize_risk] returns one of the five strings, which one is
    decided by the thresholds alone, the four named regions are pairwise
    disjoint, and testing the four conditions in any order gives the same
    result. *)
Theorem categorize_risk_buckets (probability multiplier : R) :
  let c := categorize_risk probability multiplier in
  In c ["medium"; "low"; "extreme"; "safe"; "other"]%string
  /\ (c = "medium"%string <-> in_medium probability multiplier)
  /\ (c = "low"%string <-> in_low probability multiplier)
  /\ (c = "extreme"%string <-> in_extreme probability multiplier)
  /\ (c = "safe"%string <-> in_safe probability multiplier)
  /\ (c = "other"%string <->
        ~ in_medium probability multiplier /\ ~ in_low probability multiplier
        /\ ~ in_extreme probability multiplier /\ ~ in_safe probability multiplier)
  /\ (~ (in_medium probability multiplier /\ in_low probability multiplier)
      /\ ~ (in_medium probability multiplier /\ in_extreme probability multiplier)
      /\ ~ (in_medium probability multiplier /\ in_safe probability multiplier)
      /\ ~ (in_low probability multiplier /\ in_extreme probability multiplier)
      /\ ~ (in_low probability multiplier /\ in_safe probability multiplier)
      /\ ~ (in_extreme probability multiplier /\ in_safe probability multiplier))
  /\ (forall rules, Permutation risk_rules rules ->
        first_match rules probability multiplier = c).
Proof.
  intros c. subst c.
  split; [| split; [| split; [| split; [| split; [| split; [| split]]]]]].
  - unfold categorize_risk. cbn. repeat case_decide; tauto.
  - unfold categorize_risk, in_medium. repeat case_decide; split; (discriminate || lra || trivial).
  - unfold categorize_risk, in_low. repeat case_decide; split; (discriminate || lra || trivial).
  - unfold categorize_risk, in_extreme.
    repeat case_decide; split; (discriminate || lra || trivial).
  - unfold categorize_risk, in_safe. repeat case_decide; split; (discriminate || lra || trivial).
  - unfold categorize_risk, in_medium, in_low, in_extreme, in_safe.
    repeat case_decide; split; (discriminate || tauto || trivial).
  - apply risk_rules_disjoint.
  - intros rules Hp. rewrite <- first_match_risk_rules.
    symmetry. apply first_match_perm; [exact Hp | apply risk_rules_coherent].
Qed.

(** *** [enrich_with_risk_metrics] *)

Lemma enrich_outcome_stored market_volume outcome_name price_str o :
  enrich_outcome market_volume outcome_name price_str = Some o -> stored_rounded o.
Proof.
  unfold enrich_outcome. destruct price_str as [p |]; [| discriminate].
  intros [= <-]. unfold stored_rounded. cbn [probability price risk_metrics].
  destruct (calculate_fields p p market_volume) as (Hm & _).
  cbn zeta in Hm. unfold set_risk_category; cbn [multiplier risk_category].
  rewrite Hm. auto.
Qed.

Lemma enrich_market_stored event_group market m :
  enrich_market event_group market = Some m -> Forall stored_rounded (outcomes m).
Proof.
  unfold enrich_market.
  destruct (api_outcomes market) as [names |]; [| discriminate].
  destruct (api_outcomePrices market) as [prices |]; [| discriminate].
  intros [= <-]. cbn [outcomes]. apply Forall_forall. intros o Ho.
  apply list_elem_of_omap in Ho. destruct Ho as ([n ps] & _ & Ho).
  eapply enrich_outcome_stored, Ho.
Qed.

Lemma price_just_below_boundary :
  1 / 0.04999 > 20 /\ py_round (1 / 0.04999) 2 = 20.
Proof.
  split; [lra |]. rewrite (py_round_unique _ 2 2000); lra.
Qed.

(** C9: every outcome [enrich_with_risk_metrics] stores carries the
    category of its probability and of the multiplier rounded to 2 decimals;
    for the response [boundary_response], whose outcome is priced 0.04999,
    1/price is greater than 20 and rounds to 20.0, the stored category is
    'other' and the category of the exact multiplier is 'extreme'. *)
Theorem enrich_categorizes_rounded_multiplier :
  (forall markets_data,
     Forall (fun market => Forall stored_rounded (outcomes market))
            (enrich_with_risk_metrics markets_data))
  /\ (exists o,
        map outcomes (enrich_with_risk_metrics boundary_response) = [[o]]
        /\ price o = 0.04999
        /\ 1 / price o > 20
        /\ multiplier (risk_metrics o) = 20
        /\ risk_category (risk_metrics o) = Some "other"%string
        /\ categorize_risk (probability o) (1 / price o) = "extreme"%string).
Proof.
  split.
  - intros markets_data. apply Forall_forall. intros m Hm.
    unfold enrich_with_risk_metrics in Hm.
    rewrite list_elem_of_In in Hm. apply in_flat_map in Hm.
    destruct Hm as (g & _ & Hm).
    rewrite <- list_elem_of_In in Hm. apply list_elem_of_omap in Hm. destruct Hm as (am & _ & Hm).
    eapply enrich_market_stored, Hm.
  - destruct price_just_below_boundary as [Hgt Hround].
    set (rm := calculate_risk_reward_score 0.04999 0.04999 1500000).
    exists {| name := "Yes"; price := 0.04999; probability := 0.04999; volume := 1500000;
              risk_metrics :=
                set_risk_category rm (categorize_risk 0.04999 (multiplier rm)) |}.
    split; [reflexivity |]. cbn [price probability risk_metrics]. subst rm.
    assert (Hm : multiplier (calculate_risk_reward_score 0.04999 0.04999 1500000) = 20).
    { destruct (calculate_fields 0.04999 0.04999 1500000) as (-> & _).
      unfold spec_multiplier. case_decide; [exact Hround | lra]. }
    unfold set_risk_category; cbn [multiplier risk_category]. rewrite Hm.
    repeat split; trivial.
    + f_equal. unfold categorize_risk. repeat case_decide; (reflexivity || lra).
    + unfold categorize_risk. repeat case_decide; (reflexivity || lra).
Qed.

End RiskCalculatorFacts.

(** ** Strings *)

Section PyStrFacts.
Local Open Scope string_scope.

Lemma append_cons (c : ascii) (s t : string) : String c s ++ t = String c (s ++ t).
Proof. reflexivity. Qed.

Lemma append_nil (t : string) : EmptyString ++ t = t.
Proof. reflexivity. Qed.

Lemma prefix_app (sub s : string) :
  String.prefix sub s = true <-> exists post, s = sub ++ post.
Proof.
  revert s. induction sub as [| c sub IH]; intros [| d s]; cbn [String.prefix].
  - split; [intros _; now exists EmptyString | reflexivity].
  - split; [intros _; now exists (String d s) | reflexivity].
  - split; [discriminate | intros [post [=]]].
  - destruct (Ascii.ascii_dec c d) as [-> | Hne].
    + rewrite IH. split; intros [post Hp]; exists post;
        rewrite append_cons in *; congruence.
    + split; [discriminate | intros [post Hp]; rewrite append_cons in Hp; congruence].
Qed.

(** [sub in s] holds exactly when [s] is [pre ++ sub ++ post]. *)
Lemma contains_substring (sub s : string) :
  contains sub s = true <-> ClassifierSpec.substring_of sub s.
Proof.
  unfold ClassifierSpec.substring_of. induction s as [| c s IH]; cbn [contains].
  - rewrite orb_false_r, prefix_app. split.
    + intros [post ->]. now exists EmptyString, post.
    + intros ([| d pre] & post & H); [now exists post | discriminate].
  - rewrite orb_true_iff, prefix_app, IH. split.
    + intros [[post ->] | (pre & post & ->)].
      * now exists EmptyString, post.
      * now exists (String c pre), post.
    + intros ([| d pre] & post & H).
      * left. now exists post.
      * right. rewrite append_cons in H. injection H as _ ->. now exists pre, post.
Qed.

End PyStrFacts.

(** ** The relevance classifier: keyword strategy *)

Section KeywordFacts.
Import NewsAnalyzer ClassifierSpec.

(** The size of the set intersection the code takes is the number of
    distinct shared tokens. *)
Lemma overlap_shared_tokens (market_question news_title : string) :
  size ((list_to_set (split (lower market_question)) ∖ stopwords)
          ∩ list_to_set (split (lower news_title)) : gset string)
  = shared_tokens market_question news_title.
Proof.
  unfold shared_tokens.
  rewrite <- (size_list_to_set (C := gset string))
    by (apply NoDup_filter, NoDup_remove_dups).
  f_equal. apply set_eq. intros w.
  rewrite elem_of_intersection, elem_of_difference, !elem_of_list_to_set.
  rewrite list_elem_of_filter, elem_of_remove_dups.
  unfold stopwords. rewrite elem_of_list_to_set. unfold stopword_list. tauto.
Qed.

Lemma keyword_matching_outcomes news_title market_question market_outcomes :
  affects_outcomes (keyword_fallback_analysis news_title market_question market_outcomes)
  = List.filter (fun outcome => contains (lower outcome) (lower news_title)) market_outcomes.
Proof. reflexivity. Qed.

(** C4: the keyword strategy returns as affects_outcomes exactly the
    outcome names whose lower-cased text is a substring of the lower-cased
    title; relevance_score = (5 if affects_outcomes is non-empty else 0)
    + min(0.5 * overlap, 5), capped at 10, [overlap] being the number of
    tokens shared by the question's words minus the stopwords and the
    title's words; impact_direction is 'neutral' and confidence is 'low'.
    For 'Bitcoin surges', 'Will Bitcoin reach $100k?', ['Yes','No'] the
    affects_outcomes are empty. *)
Theorem keyword_fallback_analysis_spec
    (news_title market_question : string) (market_outcomes : list string) :
  let j := keyword_fallback_analysis news_title market_question market_outcomes in
  affects_outcomes j
    = List.filter (fun outcome => contains (lower outcome) (lower news_title)) market_outcomes
  /\ (forall outcome,
        In outcome (affects_outcomes j)
        <-> In outcome market_outcomes /\ substring_of (lower outcome) (lower news_title))
  /\ relevance_score j
     = Rmin ((match affects_outcomes j with [] => 0 | _ :: _ => 5 end)
             + Rmin (0.5 * INR (shared_tokens market_question news_title)) 5) 10
  /\ impact_direction j = "neutral"%string
  /\ confidence j = "low"%string
  /\ affects_outcomes
       (keyword_fallback_analysis "Bitcoin surges" "Will Bitcoin reach $100k?" ["Yes"; "No"])
     = [].
Proof.
  intros j. subst j. repeat split.
  - rewrite keyword_matching_outcomes in H. now apply List.filter_In in H.
  - rewrite keyword_matching_outcomes in H. apply List.filter_In in H.
    now apply contains_substring.
  - intros [Hin Hsub]. rewrite keyword_matching_outcomes. apply List.filter_In.
    split; [exact Hin | now apply contains_substring].
  - unfold keyword_fallback_analysis.
    cbn [relevance_score affects_outcomes]. rewrite overlap_shared_tokens.
    rewrite !py_min_Rmin, (Rmult_comm (INR _) 0.5).
    destruct (List.filter _ market_outcomes); f_equal; lra.
Qed.

(** The specification's example, in full: one shared token, score 0.5. *)
Lemma keyword_example_relevance :
  relevance_score
    (keyword_fallback_analysis "Bitcoin surges" "Will Bitcoin reach $100k?" ["Yes"; "No"])
  = 0.5%R.
Proof.
  unfold keyword_fallback_analysis. cbn [relevance_score].
  rewrite overlap_shared_tokens.
  replace (shared_tokens "Will Bitcoin reach $100k?" "Bitcoin surges") with 1%nat
    by (vm_compute; reflexivity).
  cbn [INR List.filter]. rewrite !py_min_Rmin.
  replace (contains (lower "Yes") (lower "Bitcoin surges")) with false by reflexivity.
  replace (contains (lower "No") (lower "Bitcoin surges")) with false by reflexivity.
  unfold Rmin. repeat destruct (Rle_dec _ _); lra.
Qed.

End KeywordFacts.

(** ** The relevance classifier: cache and strategies *)

Section ClassifierFacts.
Import NewsAnalyzer.
Local Open Scope string_scope.

Variable md5_hexdigest : string -> string.
Variable client : nat -> string -> option Judgment.
Variable claude_client : bool.

Local Abbreviation get_cache_key := (NewsAnalyzer.get_cache_key md5_hexdigest).
Local Abbreviation classify := (NewsAnalyzer.classify md5_hexdigest client claude_client).
Local Abbreviation classify_all := (classify_all md5_hexdigest client claude_client).

(** A hit returns the cached judgment and only counts it. *)
Lemma classify_hit st news_title market_id market_question outcome_names j :
  cache st !! get_cache_key news_title market_id = Some j ->
  classify st news_title market_id market_question outcome_names
  = (j, set_stats st (incr_cached (stats st))).
Proof. intros H. unfold NewsAnalyzer.classify. now rewrite H. Qed.

(** After a classification the judgment is in the cache under the pair's
    key, and no entry that was in the cache has changed. *)
Lemma classify_cache st news_title market_id market_question outcome_names :
  let r := classify st news_title market_id market_question outcome_names in
  cache (snd r) !! get_cache_key news_title market_id = Some (fst r)
  /\ (forall k j, cache st !! k = Some j -> cache (snd r) !! k = Some j).
Proof.
  unfold NewsAnalyzer.classify.
  destruct (cache st !! get_cache_key news_title market_id) as [j0 |] eqn:E.
  - cbn. auto.
  - assert (Hne : forall k j, cache st !! k = Some j -> get_cache_key news_title market_id <> k)
      by (intros k j Hk <-; congruence).
    destruct claude_client; [destruct (analyze_with_claude _ _ _ _ _) as [reply |] |];
      cbn; (split; [apply lookup_insert_eq |]);
      intros k j Hk; rewrite lookup_insert_ne by eauto; repeat case_decide; exact Hk.
Qed.

Lemma classify_all_keeps st requests k j :
  cache st !! k = Some j -> cache (classify_all st requests) !! k = Some j.
Proof.
  revert st. induction requests as [| r requests IH]; intros st Hk; cbn; [exact Hk |].
  apply IH. now apply classify_cache.
Qed.

(** C6: classifying a (news_title, market_id) pair again, after any run of
    other classifications, returns the judgment of the first
    classification.  The second classification calls neither strategy (the
    call counter of the AI strategy and the counters of both strategies in
    the stats are unchanged), counts one more 'cached', and leaves the cache
    as it was; the first one had stored its judgment under the pair's key
    before it returned. *)
Theorem classify_twice_cached
    (st : State) (news_title market_id question1 : string) (names1 : list string)
    (between : list Request) (question2 : string) (names2 : list string) :
  let first := classify st news_title market_id question1 names1 in
  let st' := classify_all (snd first) between in
  let second := classify st' news_title market_id question2 names2 in
  cache (snd first) !! get_cache_key news_title market_id = Some (fst first)
  /\ fst second = fst first
  /\ snd second = set_stats st' (incr_cached (stats st'))
  /\ api_calls (snd second) = api_calls st'
  /\ claude_ai (stats (snd second)) = claude_ai (stats st')
  /\ keyword_fallback (stats (snd second)) = keyword_fallback (stats st')
  /\ cached (stats (snd second)) = cached (stats st') + 1
  /\ cache (snd second) = cache st'.
Proof.
  intros first st' second.
  destruct (classify_cache st news_title market_id question1 names1) as [Hstored _].
  fold first in Hstored.
  pose proof (classify_all_keeps _ between _ _ Hstored) as Hkept. fold st' in Hkept.
  pose proof (classify_hit st' news_title market_id question2 names2 _ Hkept) as Hhit.
  fold second in Hhit. rewrite Hhit. cbn. repeat split. exact Hstored.
Qed.

(** C10: two pairs whose concatenations [news_title + ':' + market_id]
    coincide have one cache key, and classifying the second after the
    first returns the first one's judgment without calling a strategy. *)
Theorem cache_key_collision
    (title1 id1 title2 id2 : string) :
  title1 ++ ":" ++ id1 = title2 ++ ":" ++ id2 ->
  get_cache_key title1 id1 = get_cache_key title2 id2
  /\ forall (st : State) (question1 : string) (names1 : list string)
            (question2 : string) (names2 : list string),
       let first := classify st title1 id1 question1 names1 in
       let second := classify (snd first) title2 id2 question2 names2 in
       fst second = fst first
       /\ api_calls (snd second) = api_calls (snd first)
       /\ claude_ai (stats (snd second)) = claude_ai (stats (snd first))
       /\ keyword_fallback (stats (snd second)) = keyword_fallback (stats (snd first))
       /\ cached (stats (snd second)) = cached (stats (snd first)) + 1.
Proof.
  intros Hcontent.
  assert (Hkey : get_cache_key title1 id1 = get_cache_key title2 id2)
    by (unfold NewsAnalyzer.get_cache_key; now rewrite Hcontent).
  split; [exact Hkey |].
  intros st question1 names1 question2 names2 first second.
  destruct (classify_cache st title1 id1 question1 names1) as [Hstored _].
  fold first in Hstored. rewrite Hkey in Hstored.
  pose proof (classify_hit (snd first) title2 id2 question2 names2 _ Hstored) as Hhit.
  fold second in Hhit. rewrite Hhit. cbn. repeat split.
Qed.

(** C5, amended: the keyword strategy returns a sub-list of the outcome
    names it was given; the AI strategy returns the affects_outcomes of the
    service's reply as they are. *)
Theorem strategies_affects_outcomes
    (news_title market_question : string) (outcome_names : list string) (n : nat) :
  within_outcomes outcome_names
    (keyword_fallback_analysis news_title market_question outcome_names)
  /\ sublist (affects_outcomes
                (keyword_fallback_analysis news_title market_question outcome_names))
             outcome_names
  /\ affects_outcomes
       <$> analyze_with_claude client news_title market_question outcome_names n
     = affects_outcomes <$> client n (prompt news_title market_question outcome_names).
Proof.
  repeat split.
  - intros o Ho. rewrite keyword_matching_outcomes in Ho.
    now apply List.filter_In in Ho.
  - rewrite keyword_matching_outcomes.
    induction outcome_names as [| o names IH]; cbn; [constructor |].
    destruct (contains _ _); now constructor.
  - unfold analyze_with_claude. now destruct (client n _).
Qed.

End ClassifierFacts.

Section ClassifierExamples.
Import NewsAnalyzer.
Local Open Scope string_scope.

(** C5, as stated, fails for the AI strategy: a reply naming 'Maybe' for
    a market whose outcomes are 'Yes' and 'No' is returned unchanged. *)
Lemma analyze_with_claude_stray_outcome :
  exists j,
    analyze_with_claude stray_reply
      "Bitcoin surges" "Will Bitcoin reach $100k?" ["Yes"; "No"] 0 = Some j
    /\ ~ within_outcomes ["Yes"; "No"] j.
Proof.
  eexists. split; [reflexivity |].
  intros H. specialize (H "Maybe" (or_introl eq_refl)).
  cbn in H. destruct H as [H | [H | []]]; discriminate H.
Qed.

(** The same reply reaches [news_market_mapping]: with the service
    answering [stray_reply], the one entry of the mapping for the market of
    [boundary_response], whose only outcome is 'Yes', names 'Maybe'. *)
Lemma stray_outcome_in_mapping (md5_hexdigest : string -> string) :
  exists e,
    news_market_mapping
      (analyze_news_relevance md5_hexdigest stray_reply true ∅
         [ {| title := "Bitcoin surges"; link := "http://example.com/1" |} ]
         (RiskCalculator.enrich_with_risk_metrics boundary_response))
    = [e]
    /\ Entry.market_id e = "516710"
    /\ Entry.affects_outcomes e = ["Maybe"].
Proof.
  unfold analyze_news_relevance. cbn [firstn enumerate_from fold_left].
  unfold RiskCalculator.enrich_with_risk_metrics, boundary_response.
  cbn [flat_map RiskCalculator.group_markets omap list_omap RiskCalculator.enrich_market
       RiskCalculator.api_outcomes RiskCalculator.api_outcomePrices app fold_left].
  unfold analyze_pair.
  cbn [RiskCalculator.outcomes RiskCalculator.market_id RiskCalculator.question
       RiskCalculator.url RiskCalculator.api_id RiskCalculator.api_question
       combine omap list_omap RiskCalculator.enrich_outcome List.map RiskCalculator.name
       List.filter String.eqb Ascii.eqb negb title link].
  unfold classify. cbn [cache]. rewrite lookup_empty. cbn.
  case_decide; [| lra]. cbn. eexists. repeat split.
Qed.

Lemma cache_key_collision_witness :
  ("a:b", "c") <> ("a", "b:c")
  /\ "a:b" ++ ":" ++ "c" = "a" ++ ":" ++ "b:c"
  /\ get_cache_key plain_digest "a:b" "c" = get_cache_key plain_digest "a" "b:c"
  /\ forall (st : State) (question1 : string) (names1 : list string)
            (question2 : string) (names2 : list string),
       let first := classify plain_digest no_service false st "a:b" "c" question1 names1 in
       let second :=
         classify plain_digest no_service false (snd first) "a" "b:c" question2 names2 in
       fst second = fst first
       /\ api_calls (snd second) = api_calls (snd first)
       /\ claude_ai (stats (snd second)) = claude_ai (stats (snd first))
       /\ keyword_fallback (stats (snd second)) = keyword_fallback (stats (snd first))
       /\ cached (stats (snd second)) = cached (stats (snd first)) + 1.
Proof.
  split; [discriminate |]. split; [reflexivity |].
  apply (cache_key_collision plain_digest no_service false "a:b" "c" "a" "b:c").
  reflexivity.
Defined.

End ClassifierExamples.

(** ** Sorting and maxima *)

Section PyListFacts.
Import AggregatorSpec.
Local Open Scope R_scope.
Context {A : Type} (key : A -> R).

Lemma insert_reverse_perm (x : A) (l : list A) :
  Permutation (insert_reverse key x l) (x :: l).
Proof.
  induction l as [| y l IH]; cbn; [reflexivity |].
  case_decide; [| reflexivity].
  rewrite IH. apply perm_swap.
Qed.

Lemma sorted_reverse_perm (l : list A) : Permutation (sorted_reverse key l) l.
Proof.
  induction l as [| x l IH]; cbn; [reflexivity |].
  rewrite insert_reverse_perm. now constructor.
Qed.

Lemma insert_reverse_descending (x : A) (l : list A) :
  descending key l -> descending key (insert_reverse key x l).
Proof.
  unfold descending. induction 1 as [| y l Hl IH Hy]; cbn.
  - repeat constructor.
  - case_decide as Hgt.
    + constructor; [exact IH |].
      apply Forall_forall. intros z Hz. rewrite list_elem_of_In in Hz.
      apply (Permutation_in _ (insert_reverse_perm x l)) in Hz.
      destruct Hz as [<- | Hz]; [lra |].
      rewrite Forall_forall in Hy. apply Hy. now apply list_elem_of_In.
    + constructor; [now constructor |].
      constructor; [lra |].
      eapply Forall_impl; [exact Hy |]. cbn. intros z Hz. lra.
Qed.

Lemma sorted_reverse_descending (l : list A) : descending key (sorted_reverse key l).
Proof.
  induction l as [| x l IH]; cbn; [constructor |].
  now apply insert_reverse_descending.
Qed.

(** Stability: an inserted element goes in front of the elements of its
    own key. *)
Lemma insert_reverse_with_key (k : R) (x : A) (l : list A) :
  with_key key k (insert_reverse key x l) = with_key key k (x :: l).
Proof.
  unfold with_key. induction l as [| y l IH]; [reflexivity |].
  cbn [insert_reverse]. case_decide as Hgt; [| reflexivity].
  cbn [List.filter] in *. rewrite IH.
  repeat case_bool_decide; (reflexivity || lra).
Qed.

Lemma sorted_reverse_with_key (k : R) (l : list A) :
  with_key key k (sorted_reverse key l) = with_key key k l.
Proof.
  induction l as [| x l IH]; [reflexivity |].
  cbn [sorted_reverse fold_right]. rewrite insert_reverse_with_key.
  fold (sorted_reverse key l). unfold with_key in *. cbn [List.filter]. now rewrite IH.
Qed.

Lemma descending_app (l1 l2 : list A) :
  descending key (l1 ++ l2) ->
  descending key l1 /\ forall x y, In x l1 -> In y l2 -> key x >= key y.
Proof.
  unfold descending. induction l1 as [| a l1 IH]; cbn.
  - intros _. split; [constructor | intros x y []].
  - intros H. apply StronglySorted_inv in H as [Hs Ha].
    destruct (IH Hs) as [Hd Hx]. split.
    + constructor; [exact Hd |].
      rewrite Forall_app in Ha. tauto.
    + intros x y [<- | Hin] Hy; [| now apply Hx].
      rewrite Forall_forall in Ha. apply Ha, list_elem_of_In, in_or_app. now right.
Qed.

(** The first [n] of the stable descending sort are the top [n]. *)
Lemma firstn_sorted_reverse_top (n : nat) (l : list A) :
  top_of key n l (firstn n (sorted_reverse key l)).
Proof.
  set (s := sorted_reverse key l).
  split; [apply firstn_le_length |].
  exists (skipn n s).
  pose proof (sorted_reverse_descending l) as Hd. fold s in Hd.
  rewrite <- (firstn_skipn n s) in Hd. apply descending_app in Hd as [Hd Hx].
  rewrite (firstn_skipn n s).
  repeat split; trivial.
  - apply sorted_reverse_perm.
  - destruct (Nat.le_gt_cases (length s) n) as [Hle | Hgt].
    + left. now apply skipn_all2.
    + right. rewrite length_firstn. lia.
  - intros k. apply sorted_reverse_with_key.
Qed.

End PyListFacts.

(** ** The aggregator: risk widget *)

Section RiskWidgetFacts.
Import RiskCalculator Aggregator AggregatorSpec.
Local Open Scope string_scope.

Lemma filter_flat_map {X Y : Type} (f : Y -> bool) (g : X -> list Y) (l : list X) :
  List.filter f (flat_map g l) = flat_map (fun x => List.filter f (g x)) l.
Proof.
  induction l as [| x l IH]; cbn; [reflexivity |].
  now rewrite List.filter_app, IH.
Qed.

Lemma category_is_eq (c : string) (rc : option string) :
  category_is c rc = true <-> rc = Some c.
Proof.
  destruct rc as [c' |]; cbn; [| split; discriminate].
  rewrite String.eqb_eq. split; congruence.
Qed.

(** The items of one category among [all_outcomes] are the outcomes of
    that category in traversal order. *)
Lemma all_outcomes_category (c : string) (markets_data : list Market) :
  c = "medium" \/ c = "low" ->
  List.filter (fun o => category_is c (RiskItem.risk_category o)) (all_outcomes markets_data)
  = category_outcomes c markets_data.
Proof.
  intros Hc. unfold all_outcomes, category_outcomes. rewrite filter_flat_map.
  apply flat_map_ext. intros market.
  induction (outcomes market) as [| o os IH]; [reflexivity |].
  cbn [omap list_omap List.filter List.map].
  change (list_omap _ _ ?f os) with (omap f os). cbn zeta.
  destruct (category_is c (risk_category (risk_metrics o))) eqn:Ec.
  - assert (Hkeep : category_is "medium" (risk_category (risk_metrics o))
                    || category_is "low" (risk_category (risk_metrics o)) = true).
    { apply category_is_eq in Ec. rewrite Ec.
      destruct Hc as [-> | ->]; cbn; rewrite ?orb_true_r; reflexivity. }
    rewrite Hkeep. cbn [List.filter List.map RiskItem.risk_category risk_item].
    rewrite Ec. cbn [List.map]. now rewrite IH.
  - destruct (category_is "medium" _ || category_is "low" _); [| exact IH].
    cbn [List.filter RiskItem.risk_category risk_item]. rewrite Ec. exact IH.
Qed.

(** C7: each list of the risk widget has at most 5 entries and is the top
    5 by score of its category's outcomes: no outcome left out has a
    greater score than a returned one, the entries are in descending score
    order, and entries of equal score keep the market-then-outcome order. *)
Theorem build_risk_categories_widget_top5 (markets_data : list Market) :
  let w := build_risk_categories_widget markets_data in
  (length (medium_risk w) <= 5)%nat
  /\ (length (low_risk w) <= 5)%nat
  /\ top_of RiskItem.score 5 (category_outcomes "medium" markets_data) (medium_risk w)
  /\ top_of RiskItem.score 5 (category_outcomes "low" markets_data) (low_risk w).
Proof.
  cbn zeta. unfold build_risk_categories_widget. cbn [medium_risk low_risk].
  rewrite !all_outcomes_category by auto.
  split; [apply firstn_le_length |].
  split; [apply firstn_le_length |].
  split; apply firstn_sorted_reverse_top.
Qed.

End RiskWidgetFacts.

(** ** The aggregator: news feed *)

Section MaxFacts.
Import AggregatorSpec.
Local Open Scope R_scope.
Context {A : Type} (key : A -> R).

Lemma max_from_upper (best : A) (l : list A) :
  key best <= key (max_from key best l)
  /\ forall e, In e l -> key e <= key (max_from key best l).
Proof.
  revert best. induction l as [| x l IH]; intros best; cbn.
  - split; [lra | intros e []].
  - destruct (IH (if decide (key x > key best) then x else best)) as [Hb He].
    case_decide; (split; [lra |]); intros e [<- | Hin]; auto; lra.
Qed.

Lemma max_from_first (best : A) (l : list A) :
  max_from key best l = best
  \/ exists l1 l2,
       l = l1 ++ max_from key best l :: l2
       /\ key best < key (max_from key best l)
       /\ forall e, In e l1 -> key e < key (max_from key best l).
Proof.
  revert best. induction l as [| x l IH]; intros best; cbn; [now left |].
  destruct (IH (if decide (key x > key best) then x else best))
    as [Heq | (l1 & l2 & Hl & Hlt & Hl1)].
  - rewrite Heq. case_decide as Hgt; [| now left].
    right. exists [], l. repeat split; [lra | intros e []].
  - right. exists (x :: l1), l2. split; [cbn; congruence |].
    case_decide; (split; [lra |]); intros e [<- | Hin]; auto; lra.
Qed.

(** [max(l, key=key)] is the first element of greatest key. *)
Lemma max_by_first_best (l : list A) (best : A) :
  max_by key l = Some best -> first_best key l best.
Proof.
  destruct l as [| x l]; [discriminate |]. cbn. intros [= <-].
  destruct (max_from_upper x l) as [Hx Hl].
  destruct (max_from_first x l) as [Heq | (l1 & l2 & Hl12 & Hlt & Hl1)].
  - exists [], l. rewrite Heq in *. repeat split; [intros e [] | exact Hl].
  - exists (x :: l1), l2. split; [cbn; congruence |]. split.
    + intros e [<- | Hin]; auto.
    + intros e Hin. apply Hl. rewrite Hl12. apply in_or_app. right. now right.
Qed.

Lemma insert_reverse_map {B : Type} (f : B -> A) (x : B) (l : list B) :
  insert_reverse key (f x) (List.map f l)
  = List.map f (insert_reverse (fun b => key (f b)) x l).
Proof.
  induction l as [| y l IH]; [reflexivity |].
  cbn. case_decide; cbn; [now rewrite IH | reflexivity].
Qed.

Lemma sorted_reverse_map {B : Type} (f : B -> A) (l : list B) :
  sorted_reverse key (List.map f l)
  = List.map f (sorted_reverse (fun b => key (f b)) l).
Proof.
  induction l as [| x l IH]; [reflexivity |].
  cbn. fold (sorted_reverse key (List.map f l)). rewrite IH. apply insert_reverse_map.
Qed.

End MaxFacts.

Section NewsFeedFacts.
Import RiskCalculator Aggregator AggregatorSpec.
Local Open Scope string_scope.

Lemma judgments_of_snoc (k : string) (seen : list NewsAnalyzer.Entry.t)
    (item : NewsAnalyzer.Entry.t) :
  judgments_of k (seen ++ [item])
  = (judgments_of k seen
     ++ if String.eqb (NewsAnalyzer.Entry.market_id item) k then [item] else [])%list.
Proof. unfold judgments_of. rewrite List.filter_app. reflexivity. Qed.

Lemma group_append_keys (market_id : string) (item : NewsAnalyzer.Entry.t)
    (g : list (string * list NewsAnalyzer.Entry.t)) (k : string) :
  In k (List.map fst (group_append market_id item g))
  <-> k = market_id \/ In k (List.map fst g).
Proof.
  induction g as [| [k' l'] g IH]; cbn.
  - split; intros [H | []]; left; congruence.
  - destruct (String.eqb_spec k' market_id) as [-> | Hne]; cbn.
    + split.
      * intros [H | H]; [left; congruence | right; right; exact H].
      * intros [H | [H | H]]; [left; congruence | left; exact H | right; exact H].
    + rewrite IH. tauto.
Qed.

Lemma group_append_NoDup (market_id : string) (item : NewsAnalyzer.Entry.t)
    (g : list (string * list NewsAnalyzer.Entry.t)) :
  NoDup (List.map fst g) -> NoDup (List.map fst (group_append market_id item g)).
Proof.
  induction g as [| [k' l'] g IH]; cbn; intros Hnd.
  - repeat constructor. intros H. inversion H.
  - apply NoDup_cons in Hnd as [Hk' Hnd]. rewrite list_elem_of_In in Hk'.
    destruct (String.eqb_spec k' market_id) as [-> | Hne]; cbn.
    + apply NoDup_cons. rewrite list_elem_of_In. auto.
    + apply NoDup_cons. rewrite list_elem_of_In. split; [| auto].
      rewrite group_append_keys. intros [-> | H]; auto.
Qed.

Lemma group_append_lists (seen : list NewsAnalyzer.Entry.t) (item : NewsAnalyzer.Entry.t)
    (g : list (string * list NewsAnalyzer.Entry.t)) :
  let market_id := NewsAnalyzer.Entry.market_id item in
  NoDup (List.map fst g) ->
  Forall (fun kv => snd kv = judgments_of (fst kv) seen) g ->
  (~ In market_id (List.map fst g) -> judgments_of market_id seen = []) ->
  Forall (fun kv => snd kv = judgments_of (fst kv) (seen ++ [item]))
         (group_append market_id item g).
Proof.
  intros market_id.
  assert (Hother : forall k, k <> market_id ->
            judgments_of k (seen ++ [item]) = judgments_of k seen).
  { intros k Hk. rewrite judgments_of_snoc.
    destruct (String.eqb_spec (NewsAnalyzer.Entry.market_id item) k) as [He | _];
      [now subst | apply app_nil_r]. }
  assert (Hsame : judgments_of market_id (seen ++ [item])
                  = (judgments_of market_id seen ++ [item])%list).
  { rewrite judgments_of_snoc. unfold market_id. now rewrite String.eqb_refl. }
  induction g as [| [k' l'] g IH]; cbn [group_append List.map fst]; intros Hnd Hg Habs.
  - constructor; [| constructor]. cbn. rewrite Hsame, Habs; [reflexivity | intros []].
  - apply NoDup_cons in Hnd as [Hk' Hnd]. rewrite list_elem_of_In in Hk'.
    apply Forall_cons in Hg as [Hhd Hg]. cbn in Hhd.
    destruct (String.eqb_spec k' market_id) as [-> | Hne].
    + constructor; [cbn; now rewrite Hsame, Hhd |].
      rewrite Forall_forall in Hg |- *. intros [k l] Hin. cbn.
      rewrite Hother; [now apply (Hg (k, l)) |].
      intros ->. apply Hk'. rewrite list_elem_of_In in Hin.
      now apply (in_map fst) in Hin.
    + constructor; [cbn; now rewrite Hother |].
      apply IH; trivial. intros Hno. apply Habs. cbn. intros [He | Hin]; auto.
Qed.

Lemma group_append_grouped (seen : list NewsAnalyzer.Entry.t) (item : NewsAnalyzer.Entry.t)
    (g : list (string * list NewsAnalyzer.Entry.t)) :
  grouped seen g ->
  grouped (seen ++ [item]) (group_append (NewsAnalyzer.Entry.market_id item) item g).
Proof.
  intros (Hnd & Hg & Habs). repeat split.
  - now apply group_append_NoDup.
  - apply group_append_lists; auto.
  - intros k Hk. rewrite group_append_keys in Hk.
    rewrite judgments_of_snoc, Habs by tauto.
    destruct (String.eqb_spec (NewsAnalyzer.Entry.market_id item) k); [| reflexivity].
    exfalso. apply Hk. now left.
Qed.

Lemma group_by_market_grouped (news_mapping : list NewsAnalyzer.Entry.t) :
  grouped news_mapping (group_by_market news_mapping).
Proof.
  unfold group_by_market.
  assert (Hgen : forall items seen g, grouped seen g ->
            grouped (seen ++ items)
              (fold_left (fun news_by_market item =>
                            group_append (NewsAnalyzer.Entry.market_id item) item news_by_market)
                         items g)).
  { induction items as [| item items IH]; intros seen g Hg; cbn.
    - now rewrite app_nil_r.
    - replace (seen ++ item :: items)%list with ((seen ++ [item]) ++ items)%list
        by (now rewrite <- app_assoc).
      apply IH. now apply group_append_grouped. }
  apply (Hgen news_mapping [] []).
  split; [constructor | split; [constructor | reflexivity]].
Qed.

Lemma tagged_top_news_entries (markets_data : list Market)
    (g : list (string * list NewsAnalyzer.Entry.t)) :
  List.map snd (tagged_top_news markets_data g)
  = omap (fun '(market_id, news_list) => best_entry markets_data market_id news_list) g.
Proof.
  unfold tagged_top_news. induction g as [| [k l] g IH]; [reflexivity |].
  cbn [omap list_omap fst snd].
  change (list_omap _ _ ?f g) with (omap f g) in *.
  destruct (best_entry markets_data k l); cbn; now rewrite IH.
Qed.

Lemma tagged_top_news_keys (markets_data : list Market)
    (g : list (string * list NewsAnalyzer.Entry.t)) :
  sublist (List.map fst (tagged_top_news markets_data g)) (List.map fst g).
Proof.
  unfold tagged_top_news. induction g as [| [k l] g IH]; [constructor |].
  cbn [omap list_omap fst snd List.map].
  change (list_omap _ _ ?f g) with (omap f g) in *.
  destruct (best_entry markets_data k l); cbn; now constructor.
Qed.

Lemma tagged_top_news_best (news_mapping : list NewsAnalyzer.Entry.t)
    (markets_data : list Market) (g : list (string * list NewsAnalyzer.Entry.t)) :
  Forall (fun kv => snd kv = judgments_of (fst kv) news_mapping) g ->
  Forall (fun ke => best_match news_mapping markets_data (fst ke) (snd ke))
         (tagged_top_news markets_data g).
Proof.
  unfold tagged_top_news. induction 1 as [| [k l] g Hkl Hg IH]; [constructor |].
  cbn [omap list_omap fst snd] in *.
  change (list_omap _ _ ?f g) with (omap f g) in *.
  unfold best_entry at 1.
  destruct (max_by NewsAnalyzer.Entry.relevance_score l) as [best |] eqn:Hmax; [| exact IH].
  destruct (List.find _ markets_data) as [market |] eqn:Hfind; [| exact IH].
  cbn. constructor; [| exact IH]. cbn.
  exists best, market. rewrite <- Hkl.
  split; [now apply max_by_first_best | split; [exact Hfind | reflexivity]].
Qed.

Lemma In_firstn {X : Type} (n : nat) (l : list X) (x : X) : In x (firstn n l) -> In x l.
Proof. intros H. rewrite <- (firstn_skipn n l). apply in_or_app. now left. Qed.

Lemma Forall2_fst_snd {X Y : Type} (P : X -> Y -> Prop) (l : list (X * Y)) :
  Forall (fun xy => P (fst xy) (snd xy)) l -> Forall2 P (List.map fst l) (List.map snd l).
Proof. induction 1; cbn; now constructor. Qed.

(** C8: the news feed has at most 10 entries, in descending order of
    relevance_score, and its entries belong to pairwise distinct market
    ids: the entry of a market carries the first judgment of highest
    relevance_score among that market's judgments. *)
Theorem build_news_feed_widget_best
    (news_mapping : list NewsAnalyzer.Entry.t) (markets_data : list Market) :
  let feed := build_news_feed_widget news_mapping markets_data in
  (length feed <= 10)%nat
  /\ descending NewsItem.relevance_score feed
  /\ exists market_ids : list string,
       NoDup market_ids
       /\ Forall2 (best_match news_mapping markets_data) market_ids feed.
Proof.
  cbn zeta. unfold build_news_feed_widget.
  destruct (group_by_market_grouped news_mapping) as (Hnd & Hg & _).
  set (g := group_by_market news_mapping) in *.
  rewrite <- tagged_top_news_entries.
  set (tagged := tagged_top_news markets_data g).
  rewrite sorted_reverse_map, firstn_map.
  set (kept := firstn 10 (sorted_reverse (fun b => NewsItem.relevance_score (snd b)) tagged)).
  assert (Hsub : forall ke, In ke kept -> In ke tagged).
  { intros ke Hin. apply In_firstn in Hin.
    now apply (Permutation_in _ (sorted_reverse_perm _ tagged)) in Hin. }
  split; [| split].
  - rewrite length_map. apply firstn_le_length.
  - unfold kept. rewrite <- firstn_map, <- sorted_reverse_map.
    pose proof (sorted_reverse_descending NewsItem.relevance_score (List.map snd tagged))
      as Hd.
    rewrite <- (firstn_skipn 10) in Hd. now apply descending_app in Hd.
  - exists (List.map fst kept). split.
    + unfold kept. rewrite <- firstn_map.
      eapply sublist_NoDup; [| apply sublist_take].
      rewrite (Permutation_map fst (sorted_reverse_perm _ tagged)).
      exact (sublist_NoDup _ _ Hnd (tagged_top_news_keys markets_data g)).
    + apply Forall2_fst_snd. apply Forall_forall. intros ke Hin.
      rewrite list_elem_of_In in Hin. apply Hsub in Hin.
      pose proof (tagged_top_news_best news_mapping markets_data g Hg) as Hbest.
      rewrite Forall_forall in Hbest. apply Hbest. now apply list_elem_of_In.
Qed.

End NewsFeedFacts.

(** * Further properties of the risk scorer *)

Section RiskCalculatorMore.
Import RiskCalculator RiskSpec PipelineSpec.
Local Open Scope R_scope.

Lemma calculate_expected_value (probability price volume : R) :
  expected_value (calculate_risk_reward_score probability price volume)
  = py_round (probability * spec_multiplier price - 1) 4.
Proof. reflexivity. Qed.

Lemma py_round_IZR (z : Z) (n : nat) : py_round (IZR z) n = IZR z.
Proof.
  pose proof (pow10_pos n) as Hp.
  replace (IZR z) with (IZR (z * 10 ^ Z.of_nat n) / 10 ^ n) at 1.
  - rewrite py_round_fixed, mult_IZR, <- pow_IZR. field; lra.
  - rewrite mult_IZR, <- pow_IZR. field; lra.
Qed.

Lemma ln_10_pos : 0 < ln 10.
Proof. rewrite <- ln_1. apply ln_increasing; lra. Qed.

Lemma log10_le (x y : R) : 0 < x -> x <= y -> log10 x <= log10 y.
Proof.
  intros Hx Hxy. unfold log10. pose proof ln_10_pos as H10.
  apply Rmult_le_compat_r; [left; now apply Rinv_0_lt_compat |].
  destruct Hxy as [Hlt | ->]; [left; now apply ln_increasing | lra].
Qed.

Lemma log10_pow (n : nat) : log10 (10 ^ n) = INR n.
Proof.
  unfold log10. pose proof ln_10_pos as H10.
  rewrite ln_pow by lra. field; lra.
Qed.







Lemma spec_volume_weight_low (volume : R) : volume <= 10000 -> spec_volume_weight volume = 0.1.
Proof.
  intros H. unfold spec_volume_weight. case_decide as Hpos; [| reflexivity].
  pose proof (log10_le volume (10 ^ 4) Hpos ltac:(lra)) as Hl.
  rewrite log10_pow in Hl. cbn [INR] in Hl.
  unfold clamp, Rmin, Rmax. repeat destruct (Rle_dec _ _); lra.
Qed.

Lemma spec_volume_weight_high (volume : R) : 10000000 <= volume -> spec_volume_weight volume = 1.
Proof.
  intros H. unfold spec_volume_weight. case_decide as Hpos; [| lra].
  pose proof (log10_le (10 ^ 7) volume ltac:(lra) ltac:(lra)) as Hl.
  rewrite log10_pow in Hl. cbn [INR] in Hl.
  unfold clamp, Rmin, Rmax. repeat destruct (Rle_dec _ _); lra.
Qed.

Lemma spec_volume_weight_pow (n : nat) :
  (4 <= n <= 7)%nat -> spec_volume_weight (10 ^ n) = Rmax ((INR n - 4) / 3) 0.1.
Proof.
  intros Hn. unfold spec_volume_weight. pose proof (pow10_pos n).
  case_decide; [| lra]. rewrite log10_pow.
  pose proof (le_INR 4 n ltac:(lia)) as Hlo. pose proof (le_INR n 7 ltac:(lia)) as Hhi.
  change (INR 4) with (1 + 1 + 1 + 1) in Hlo.
  change (INR 7) with (1 + 1 + 1 + 1 + 1 + 1 + 1) in Hhi.
  unfold clamp, Rmin, Rmax. repeat destruct (Rle_dec _ _); lra.
Qed.

(** X2: the liquidity weight is 0.1 for every volume up to 10,000 and 1.0
    for every volume from 10,000,000; at 100,000 it is 0.3333 and at
    1,000,000 it is 0.6667. *)
Theorem volume_weight_scale (probability price : R) :
  (forall volume, volume <= 10000 ->
     volume_weight (calculate_risk_reward_score probability price volume) = 0.1)
  /\ (forall volume, 10000000 <= volume ->
        volume_weight (calculate_risk_reward_score probability price volume) = 1)
  /\ volume_weight (calculate_risk_reward_score probability price 100000) = 0.3333
  /\ volume_weight (calculate_risk_reward_score probability price 1000000) = 0.6667.
Proof.
  split; [| split; [| split]].
  - intros volume H.
    destruct (calculate_fields probability price volume) as (_ & -> & _).
    rewrite spec_volume_weight_low by exact H. apply py_round_tenth_4.
  - intros volume H.
    destruct (calculate_fields probability price volume) as (_ & -> & _).
    rewrite spec_volume_weight_high by exact H. apply py_round_1.
  - destruct (calculate_fields probability price 100000) as (_ & -> & _).
    replace 100000 with (10 ^ 5) by lra.
    rewrite spec_volume_weight_pow by lia. cbn [INR].
    unfold Rmax. destruct (Rle_dec _ _); [lra |].
    rewrite (py_round_unique _ 4 3333); lra.
  - destruct (calculate_fields probability price 1000000) as (_ & -> & _).
    replace 1000000 with (10 ^ 6) by lra.
    rewrite spec_volume_weight_pow by lia. cbn [INR].
    unfold Rmax. destruct (Rle_dec _ _); [lra |].
    rewrite (py_round_unique _ 4 6667); lra.
Qed.

(** A property of every outcome the loop body builds holds for every
    outcome of every enriched market. *)
Lemma enrich_outcomes_Forall (P : Outcome -> Prop) :
  (forall market_volume outcome_name price o,
     enrich_outcome market_volume outcome_name (Some price) = Some o -> P o) ->
  forall markets_data,
    Forall (fun market => Forall P (outcomes market)) (enrich_with_risk_metrics markets_data).
Proof.
  intros HP markets_data. apply Forall_forall. intros m Hm.
  unfold enrich_with_risk_metrics in Hm.
  rewrite list_elem_of_In in Hm. apply in_flat_map in Hm. destruct Hm as (g & _ & Hm).
  rewrite <- list_elem_of_In in Hm. apply list_elem_of_omap in Hm.
  destruct Hm as (am & _ & Hm). unfold enrich_market in Hm.
  destruct (api_outcomes am) as [names |]; [| discriminate].
  destruct (api_outcomePrices am) as [prices |]; [| discriminate].
  injection Hm as <-. cbn [outcomes]. apply Forall_forall. intros o Ho.
  apply list_elem_of_omap in Ho. destruct Ho as ([n [pr |]] & _ & Ho); [| discriminate].
  eapply HP, Ho.
Qed.

(** X3: for every outcome the pipeline stores, where the probability is
    the price, the Kelly fraction is 0 and the expected value is 0 (or -1
    when the price is not positive). *)
Theorem enriched_metrics_neutral (markets_data : list EventGroup) :
  Forall (fun market => Forall neutral_metrics (outcomes market))
         (enrich_with_risk_metrics markets_data).
Proof.
  apply enrich_outcomes_Forall. intros mv nm p o [= <-].
  unfold neutral_metrics. cbn [risk_metrics price].
  unfold set_risk_category. cbn [kelly_fraction expected_value].
  destruct (calculate_fields p p mv) as (_ & _ & _ & ->).
  rewrite calculate_expected_value. unfold spec_kelly, spec_multiplier. cbn zeta.
  destruct (decide (p > 0)) as [Hp | Hp].
  - replace (p * (1 / p) - 1) with 0 by (field; lra). split; [| apply py_round_0].
    case_decide as Hb; [| apply py_round_0].
    assert (Hp1 : p < 1).
    { destruct (Rlt_dec p 1) as [Hlt | Hge]; [exact Hlt | exfalso].
      assert (1 / p <= 1); [| lra].
      apply Rmult_le_reg_r with p; [lra |]. field_simplify; lra. }
    replace (((1 / p - 1) * p - (1 - p)) / (1 / p - 1)) with 0 by (field; lra).
    unfold clamp, Rmin, Rmax. repeat destruct (Rle_dec _ _); try lra; apply py_round_0.
  - split; [case_decide; [lra | apply py_round_0] |].
    replace (p * 0 - 1) with (IZR (-1)) by lra. apply py_round_IZR.
Qed.

Lemma round_half_even_tie_2000 : round_half_even 2000.5 = 2000%Z.
Proof.
  unfold round_half_even.
  rewrite (Zfloor_eq 2000 2000.5) by lra.
  repeat case_decide; try lra. reflexivity.
Qed.

(** The rounded multiplier exceeds 20 exactly from 20.005 on, the tie
    excluded. *)
Lemma py_round_2_gt_20 (x : R) : py_round x 2 > 20 <-> x > 20.005.
Proof.
  unfold py_round. split.
  - intros H. destruct (Rle_dec x 20.005) as [Hle | Hgt]; [| lra].
    pose proof (round_half_even_mono (x * 10 ^ 2) 2000.5 ltac:(lra)) as Hm.
    rewrite round_half_even_tie_2000 in Hm. apply IZR_le in Hm. lra.
  - intros H. pose proof (round_half_even_near (x * 10 ^ 2)) as [_ Hn].
    assert (Hz : (2000 < round_half_even (x * 10 ^ 2))%Z) by (apply lt_IZR; lra).
    assert (Hz' : (2001 <= round_half_even (x * 10 ^ 2))%Z) by lia.
    apply IZR_le in Hz'. lra.
Qed.

Lemma py_round_2_between (x : R) (lo hi : Z) :
  IZR lo / 100 <= x <= IZR hi / 100 -> IZR lo / 100 <= py_round x 2 <= IZR hi / 100.
Proof.
  intros [Hlo Hhi]. split.
  - replace (IZR lo / 100) with (py_round (IZR lo / 10 ^ 2) 2)
      by (rewrite py_round_fixed; lra).
    apply py_round_mono. lra.
  - replace (IZR hi / 100) with (py_round (IZR hi / 10 ^ 2) 2)
      by (rewrite py_round_fixed; lra).
    apply py_round_mono. lra.
Qed.

(** X4: the category the pipeline stores is decided by the price alone:
    medium for a price in [0.05, 0.10], low in (0.10, 0.20], safe above
    0.60, extreme for a positive price with 1/price above 20.005, and other
    in every remaining case. *)
Theorem enriched_category_by_price (markets_data : list EventGroup) :
  Forall (fun market => Forall category_by_price (outcomes market))
         (enrich_with_risk_metrics markets_data).
Proof.
  apply enrich_outcomes_Forall. intros mv nm p o [= <-].
  unfold category_by_price. cbn [risk_metrics price].
  unfold set_risk_category. cbn [risk_category].
  change (if decide (p > 0) then 1 / p else 0) with (spec_multiplier p).
  set (m := py_round (spec_multiplier p) 2).
  assert (Hmed : 0.05 <= p <= 0.10 -> 10 <= m <= 20).
  { intros Hp. unfold m, spec_multiplier. case_decide; [| lra].
    pose proof (py_round_2_between (1 / p) 1000 2000) as Hb.
    assert (Hi : IZR 1000 / 100 <= 1 / p <= IZR 2000 / 100).
    { split; apply Rmult_le_reg_r with p; try lra; field_simplify; lra. }
    specialize (Hb Hi). lra. }
  assert (Hlow : 0.10 < p <= 0.20 -> 5 <= m <= 10).
  { intros Hp. unfold m, spec_multiplier. case_decide; [| lra].
    pose proof (py_round_2_between (1 / p) 500 1000) as Hb.
    assert (Hi : IZR 500 / 100 <= 1 / p <= IZR 1000 / 100).
    { split; apply Rmult_le_reg_r with p; try lra; field_simplify; lra. }
    specialize (Hb Hi). lra. }
  assert (Hsafe : p > 0.60 -> m < 2).
  { intros Hp. unfold m, spec_multiplier. case_decide; [| lra].
    pose proof (py_round_2_between (1 / p) 0 167) as Hb.
    assert (Hi : IZR 0 / 100 <= 1 / p <= IZR 167 / 100).
    { split; apply Rmult_le_reg_r with p; try lra; field_simplify; lra. }
    specialize (Hb Hi). lra. }
  assert (Hext : m > 20 <-> 0 < p /\ 1 / p > 20.005).
  { unfold m, spec_multiplier. case_decide.
    - rewrite py_round_2_gt_20. split; [intros; split; lra | tauto].
    - rewrite py_round_0. split; lra. }
  assert (Hip : 0 < p -> 1 / p > 20.005 -> p < 0.05).
  { intros Hp Hi. assert (Hone : p * (1 / p) = 1) by (field; lra). nra. }
  set (ip := 1 / p) in *.
  unfold categorize_risk.
  repeat case_decide; repeat split; intros; try discriminate; try reflexivity;
    try lra; exfalso; lra.
Qed.

End RiskCalculatorMore.

(** * Further properties of the relevance classifier *)

Section AnalyzerRun.
Import NewsAnalyzer AnalyzerSpec.
Local Open Scope string_scope.

Variable md5_hexdigest : string -> string.
Variable client : nat -> string -> option Judgment.
Variable claude_client : bool.

Local Abbreviation get_cache_key := (NewsAnalyzer.get_cache_key md5_hexdigest).
Local Abbreviation classify := (NewsAnalyzer.classify md5_hexdigest client claude_client).
Local Abbreviation analyze_pair :=
  (NewsAnalyzer.analyze_pair md5_hexdigest client claude_client).
Local Abbreviation analyze_news_relevance :=
  (NewsAnalyzer.analyze_news_relevance md5_hexdigest client claude_client).

Lemma fold_left_invariant {X Y : Type} (f : X -> Y -> X) (I : X -> Prop) (l : list Y) (x : X) :
  I x -> (forall x y, In y l -> I x -> I (f x y)) -> I (fold_left f l x).
Proof.
  revert x. induction l as [| y l IH]; intros x Hx Hstep; cbn; [exact Hx |].
  apply IH; [apply Hstep; [now left | exact Hx] |].
  intros x' y' Hin. apply Hstep. now right.
Qed.

Lemma enumerate_from_In {X : Type} (i idx : nat) (x : X) (l : list X) :
  In (idx, x) (enumerate_from i l) -> i <= idx /\ l !! (idx - i) = Some x.
Proof.
  revert i. induction l as [| y l IH]; intros i; cbn; [intros [] |].
  intros [[= <- <-] | Hin].
  - rewrite Nat.sub_diag. auto.
  - apply IH in Hin as [Hle Hl]. split; [lia |].
    replace (idx - i) with (S (idx - S i)) by lia. exact Hl.
Qed.

(** An invariant of the loop body is an invariant of the run. *)
Lemma analyze_news_relevance_invariant (I : State -> Prop)
    (loaded : gmap string Judgment) (news_data : list News)
    (markets : list RiskCalculator.Market) :
  I (initial_state loaded) ->
  (forall news_idx news market st,
     firstn 10 news_data !! news_idx = Some news -> In market markets ->
     I st -> I (analyze_pair news_idx news st market)) ->
  I (analyze_news_relevance loaded news_data markets).
Proof.
  intros Hinit Hstep. unfold NewsAnalyzer.analyze_news_relevance.
  apply fold_left_invariant; [exact Hinit |].
  intros st [news_idx news] Hin Hst.
  apply enumerate_from_In in Hin as [_ Hnews]. rewrite Nat.sub_0_r in Hnews.
  apply fold_left_invariant; [exact Hst |].
  intros st' market Hm Hst'. now apply Hstep.
Qed.

(** One classification, case by case. *)
Lemma classify_classified st news_title market_id market_question outcome_names :
  let r := classify st news_title market_id market_question outcome_names in
  classified claude_client (get_cache_key news_title market_id)
    (keyword_fallback_analysis news_title market_question outcome_names)
    st (fst r) (snd r).
Proof.
  unfold NewsAnalyzer.classify, classified, checked_count.
  destruct (cache st !! get_cache_key news_title market_id) as [j0 |] eqn:E.
  - cbn. repeat split. now left.
  - destruct claude_client.
    + unfold analyze_with_claude.
      destruct (decide (50 <= request_count st)%nat);
        destruct (client _ _) as [reply |]; cbn;
        (repeat split; right; repeat split; first [now left | now right]).
    + cbn. repeat split. right. repeat split. now right.
Qed.

(** The loop body, with the classification named. *)
Lemma analyze_pair_unfold news_idx news st market :
  analyze_pair news_idx news st market
  = match named_outcomes market with
    | [] => st
    | _ :: _ =>
        let r := classify st (title news) (RiskCalculator.market_id market)
                   (RiskCalculator.question market) (named_outcomes market) in
        let st2 := set_stats (snd r) (incr_total_analyzed (stats (snd r))) in
        if decide (relevance_score (fst r) >= 3)%R
        then append_mapping st2 (mapping_entry news_idx news market (fst r))
        else st2
    end.
Proof.
  unfold NewsAnalyzer.analyze_pair, named_outcomes.
  destruct (List.filter _ _) as [| n names]; [reflexivity |].
  destruct (NewsAnalyzer.classify _ _ _ _ _ _ _ _) as [result st1]. reflexivity.
Qed.

Lemma checked_count_le (st : State) : checked_count st <= 49 /\ checked_count st <= request_count st.
Proof. unfold checked_count. case_decide; lia. Qed.

Lemma analyze_pair_accounted news_idx news st market :
  accounted st -> accounted (analyze_pair news_idx news st market).
Proof.
  intros Hacc. rewrite analyze_pair_unfold.
  destruct (named_outcomes market) as [| n names]; [exact Hacc |].
  set (r := classify _ _ _ _ _).
  pose proof (classify_classified st (title news) (RiskCalculator.market_id market)
                (RiskCalculator.question market) (n :: names)) as Hc.
  fold r in Hc. cbn zeta in Hc |- *.
  pose proof (checked_count_le st) as [Hc49 Hcrc].
  unfold accounted in *. destruct Hacc as (Ht & He & Hai & Hrc & Hrq & Hlen).
  destruct Hc as (Hmap & Htot & Herr & [[_ ->] | (_ & _ & Hcached & Hcase)]).
  - case_decide; cbn; rewrite ?length_app; cbn; lia.
  - assert (Hmap' : length (news_market_mapping (snd r)) = length (news_market_mapping st))
      by now rewrite Hmap.
    destruct Hcase as [(_ & _ & Hc1 & Hk1 & Ha1 & Hr1) | (_ & Hc1 & Hk1 & Ha1 & Hr1)];
      case_decide; cbn; rewrite ?length_app; cbn;
      destruct claude_client; lia.
Qed.

(** X5: in the result of a run, every analyzed pair is counted once, as
    answered by the service, by the keyword strategy or from the cache;
    'errors' stays 0; the mapping has at most one entry per analyzed pair;
    and the request counter of the rate limiter never exceeds 50. *)
Theorem analyze_news_relevance_accounted
    (loaded : gmap string Judgment) (news_data : list News)
    (markets : list RiskCalculator.Market) :
  accounted (analyze_news_relevance loaded news_data markets).
Proof.
  apply analyze_news_relevance_invariant.
  - unfold accounted, initial_state. cbn. lia.
  - intros news_idx news market st _ _. apply analyze_pair_accounted.
Qed.

Lemma named_outcomes_outcome (market : RiskCalculator.Market) (n : string) :
  In n (named_outcomes market) ->
  exists outcome, In outcome (RiskCalculator.outcomes market)
                  /\ RiskCalculator.name outcome <> EmptyString.
Proof.
  unfold named_outcomes. intros Hn. apply List.filter_In in Hn as [Hin Hne].
  apply in_map_iff in Hin as (outcome & <- & Hin).
  exists outcome. split; [exact Hin |].
  intros He. rewrite He in Hne. discriminate Hne.
Qed.

Lemma analyze_pair_entries news_data markets news_idx news st market :
  firstn 10 news_data !! news_idx = Some news -> In market markets ->
  Forall (entry_of news_data markets) (news_market_mapping st) ->
  Forall (entry_of news_data markets)
         (news_market_mapping (analyze_pair news_idx news st market)).
Proof.
  intros Hnews Hmarket Hst. rewrite analyze_pair_unfold.
  destruct (named_outcomes market) as [| n names] eqn:Hnames; [exact Hst |].
  set (r := classify _ _ _ _ _).
  pose proof (classify_classified st (title news) (RiskCalculator.market_id market)
                (RiskCalculator.question market) (n :: names)) as (Hmap & _).
  fold r in Hmap. cbn zeta.
  case_decide as Hrel; cbn; rewrite Hmap; [| exact Hst].
  apply Forall_app. split; [exact Hst |]. constructor; [| constructor].
  apply lookup_take_Some in Hnews as [Hnews Hidx].
  unfold entry_of, mapping_entry. cbn. repeat split; trivial.
  - exists news. auto.
  - exists market. repeat split; trivial.
    apply (named_outcomes_outcome market n). rewrite Hnames. now left.
Qed.

Lemma fold_left_count {X Y : Type} (f : X -> Y -> X) (c : X -> nat) (k : nat)
    (l : list Y) (x : X) :
  (forall x y, c (f x y) <= c x + k) -> c (fold_left f l x) <= c x + k * length l.
Proof.
  intros Hstep. revert x. induction l as [| y l IH]; intros x; cbn; [lia |].
  specialize (IH (f x y)). specialize (Hstep x y). lia.
Qed.

Lemma analyze_pair_total news_idx news st market :
  total_analyzed (stats (analyze_pair news_idx news st market))
  <= total_analyzed (stats st) + 1.
Proof.
  rewrite analyze_pair_unfold.
  destruct (named_outcomes market) as [| n names]; [lia |].
  set (r := classify _ _ _ _ _).
  pose proof (classify_classified st (title news) (RiskCalculator.market_id market)
                (RiskCalculator.question market) (n :: names)) as (_ & Htot & _).
  fold r in Htot. cbn zeta. case_decide; cbn; lia.
Qed.

Lemma length_enumerate_from {X : Type} (i : nat) (l : list X) :
  length (enumerate_from i l) = length l.
Proof. revert i. induction l as [| x l IH]; intros i; cbn; [reflexivity | now rewrite IH]. Qed.

(** X6: every entry of the mapping a run returns has a relevance_score of
    at least 3 and pairs one of the first ten news (by index, title and
    link) with one of the markets that has a named outcome (by id, question
    and url); and no more pairs are analyzed than ten, or the number of
    news if smaller, times the number of markets. *)
Theorem analyze_news_relevance_entries
    (loaded : gmap string Judgment) (news_data : list News)
    (markets : list RiskCalculator.Market) :
  let st := analyze_news_relevance loaded news_data markets in
  Forall (entry_of news_data markets) (news_market_mapping st)
  /\ total_analyzed (stats st) <= Nat.min 10 (length news_data) * length markets.
Proof.
  split.
  - apply (analyze_news_relevance_invariant
             (fun st => Forall (entry_of news_data markets) (news_market_mapping st))).
    + constructor.
    + intros news_idx news market st. apply analyze_pair_entries.
  - unfold NewsAnalyzer.analyze_news_relevance.
    set (init := {| cache := loaded |}).
    pose proof (fold_left_count
      (fun st '(news_idx, news) => fold_left (analyze_pair news_idx news) markets st)
      (fun st => total_analyzed (stats st)) (length markets)
      (enumerate_from 0 (firstn 10 news_data)) init) as Hc.
    rewrite length_enumerate_from, length_firstn in Hc. cbn [init stats total_analyzed] in Hc.
    rewrite (Nat.mul_comm (Nat.min _ _)). apply Hc.
    intros st [news_idx news].
    pose proof (fold_left_count (analyze_pair news_idx news)
      (fun st => total_analyzed (stats st)) 1 markets st) as Hi.
    rewrite Nat.mul_1_l in Hi. apply Hi.
    intros st' market. apply analyze_pair_total.
Qed.

Lemma analyze_pair_cache_grown loaded news_idx news st market :
  cache_grown loaded st -> cache_grown loaded (analyze_pair news_idx news st market).
Proof.
  intros [Hsub Hsize]. rewrite analyze_pair_unfold.
  destruct (named_outcomes market) as [| n names]; [now split |].
  set (r := classify _ _ _ _ _).
  pose proof (classify_classified st (title news) (RiskCalculator.market_id market)
                (RiskCalculator.question market) (n :: names)) as Hc.
  fold r in Hc. cbn zeta in Hc |- *.
  assert (Hgoal : cache_grown loaded (snd r)).
  { destruct Hc as (_ & _ & _ & [[_ ->] | (Hnone & Hcache & _ & Hcase)]).
    - now split.
    - unfold cache_grown. rewrite Hcache. split.
      + etransitivity; [exact Hsub | now apply insert_subseteq].
      + rewrite map_size_insert_None by exact Hnone.
        destruct Hcase as [(_ & _ & -> & -> & _) | (_ & -> & -> & _)]; lia. }
  case_decide; exact Hgoal.
Qed.

(** X7: a run only adds to the cache: every loaded entry is in the cache
    that is saved, unchanged, and the saved cache has exactly one new entry
    for each judgment the service or the keyword strategy produced. *)
Theorem analyze_news_relevance_cache_grown
    (loaded : gmap string Judgment) (news_data : list News)
    (markets : list RiskCalculator.Market) :
  cache_grown loaded (analyze_news_relevance loaded news_data markets).
Proof.
  apply analyze_news_relevance_invariant.
  - unfold cache_grown, initial_state. cbn. split; [reflexivity | lia].
  - intros news_idx news market st _ _. apply analyze_pair_cache_grown.
Qed.

(** X8: when a pair is not in the cache and the service is not configured
    or its call fails, the classification returns the keyword judgment,
    counts it under 'keyword_fallback' and stores it under the pair's key. *)
Theorem classify_falls_back st news_title market_id market_question outcome_names :
  cache st !! get_cache_key news_title market_id = None ->
  claude_client = false
  \/ client (api_calls st) (prompt news_title market_question outcome_names) = None ->
  let r := classify st news_title market_id market_question outcome_names in
  fst r = keyword_fallback_analysis news_title market_question outcome_names
  /\ keyword_fallback (stats (snd r)) = keyword_fallback (stats st) + 1
  /\ cache (snd r) !! get_cache_key news_title market_id
     = Some (keyword_fallback_analysis news_title market_question outcome_names).
Proof.
  intros Hmiss Hfail. unfold NewsAnalyzer.classify. rewrite Hmiss.
  destruct claude_client.
  - destruct Hfail as [Hf | Hf]; [discriminate |].
    unfold analyze_with_claude.
    assert (Hcalls : forall n, api_calls (set_request_count st n) = api_calls st)
      by reflexivity.
    destruct (decide (50 <= request_count st)%nat); rewrite ?Hcalls, Hf; cbn;
      (repeat split; apply lookup_insert_eq).
  - cbn. repeat split. apply lookup_insert_eq.
Qed.

End AnalyzerRun.

Section AnalyzerRuns.
Import NewsAnalyzer AnalyzerSpec.
Local Open Scope string_scope.

Variable md5_hexdigest : string -> string.

Lemma classify_falls_back_witness :
  cache (initial_state ∅) !! NewsAnalyzer.get_cache_key plain_digest "Bitcoin surges" "516710"
  = None
  /\ (true = false
      \/ no_service (api_calls (initial_state ∅))
           (prompt "Bitcoin surges" "Will Bitcoin reach $100k?" ["Yes"; "No"]) = None)
  /\ let r := NewsAnalyzer.classify plain_digest no_service true (initial_state ∅)
                "Bitcoin surges" "516710" "Will Bitcoin reach $100k?" ["Yes"; "No"] in
     fst r = keyword_fallback_analysis "Bitcoin surges" "Will Bitcoin reach $100k?" ["Yes"; "No"]
     /\ keyword_fallback (stats (snd r)) = keyword_fallback (stats (initial_state ∅)) + 1
     /\ cache (snd r) !! NewsAnalyzer.get_cache_key plain_digest "Bitcoin surges" "516710"
        = Some (keyword_fallback_analysis
                  "Bitcoin surges" "Will Bitcoin reach $100k?" ["Yes"; "No"]).
Proof.
  split; [apply lookup_empty |]. split; [right; reflexivity |].
  apply (classify_falls_back plain_digest no_service true (initial_state ∅)
           "Bitcoin surges" "516710" "Will Bitcoin reach $100k?" ["Yes"; "No"]).
  - apply lookup_empty.
  - right. reflexivity.
Defined.

Lemma analyze_pair_cache_subseteq client claude_client news_idx news st market :
  cache st ⊆ cache (NewsAnalyzer.analyze_pair md5_hexdigest client claude_client
                      news_idx news st market).
Proof.
  rewrite analyze_pair_unfold.
  destruct (named_outcomes market) as [| n names]; [reflexivity |].
  cbn zeta. set (r := NewsAnalyzer.classify _ _ _ _ _ _ _ _).
  assert (Hsub : cache st ⊆ cache (snd r)).
  { apply map_subseteq_spec. intros k j Hk. now apply classify_cache. }
  case_decide; exact Hsub.
Qed.

Lemma fold_left_related {X1 X2 Y : Type} (f1 : X1 -> Y -> X1) (f2 : X2 -> Y -> X2)
    (Rel : X1 -> X2 -> Prop) (l : list Y) (x1 : X1) (x2 : X2) :
  Rel x1 x2 -> (forall x1 x2 y, Rel x1 x2 -> Rel (f1 x1 y) (f2 x2 y)) ->
  Rel (fold_left f1 l x1) (fold_left f2 l x2).
Proof.
  intros H0 Hstep. revert x1 x2 H0.
  induction l as [| y l IH]; intros x1 x2 H0; cbn; [exact H0 |].
  apply IH, Hstep, H0.
Qed.

(** One step of a second run follows the first run's step, as long as
    the first run's cache stays within the cache that is saved. *)
Lemma analyze_pair_replayed client1 cc1 client2 cc2 saved news_idx news market st1 st2 :
  let st1' := NewsAnalyzer.analyze_pair md5_hexdigest client1 cc1 news_idx news st1 market in
  let st2' := NewsAnalyzer.analyze_pair md5_hexdigest client2 cc2 news_idx news st2 market in
  (cache st1 ⊆ saved -> replayed saved st1 st2) ->
  cache st1' ⊆ saved -> replayed saved st1' st2'.
Proof.
  intros st1' st2' Hrel Hsaved.
  assert (Hst1 : cache st1 ⊆ saved).
  { etransitivity; [apply analyze_pair_cache_subseteq | exact Hsaved]. }
  specialize (Hrel Hst1). subst st1' st2'. revert Hsaved.
  rewrite !analyze_pair_unfold.
  destruct (named_outcomes market) as [| n names]; [intros _; exact Hrel |].
  cbn zeta.
  set (r1 := NewsAnalyzer.classify md5_hexdigest client1 cc1 st1 _ _ _ _).
  intros Hsaved.
  assert (Hsaved1 : cache (snd r1) ⊆ saved) by (revert Hsaved; case_decide; trivial).
  destruct (classify_cache md5_hexdigest client1 cc1 st1 (title news)
              (RiskCalculator.market_id market) (RiskCalculator.question market)
              (n :: names)) as [Hstored _].
  fold r1 in Hstored.
  pose proof (lookup_weaken _ _ _ _ Hstored Hsaved1) as Hin.
  destruct Hrel as (Hmap & Htot & Hcached & Hai & Hkw & Hcalls & Hcache).
  rewrite <- Hcache in Hin.
  rewrite (classify_hit md5_hexdigest client2 cc2 st2 _ _ _ _ _ Hin).
  pose proof (classify_classified md5_hexdigest client1 cc1 st1 (title news)
                (RiskCalculator.market_id market) (RiskCalculator.question market)
                (n :: names)) as (Hmap1 & Htot1 & _).
  fold r1 in Hmap1, Htot1. cbn [fst snd].
  unfold replayed. case_decide; cbn; rewrite ?Hmap, ?Hmap1; repeat split; trivial; lia.
Qed.

(** X9: running the analysis again on the same news and markets, from the
    cache the first run saved, returns the same mapping: every pair is
    answered from the cache, no strategy is called, whatever the service
    would reply, and the cache is unchanged. *)
Theorem analyze_news_relevance_replay
    (client1 client2 : nat -> string -> option Judgment) (cc1 cc2 : bool)
    (loaded : gmap string Judgment) (news_data : list News)
    (markets : list RiskCalculator.Market) :
  let st1 := NewsAnalyzer.analyze_news_relevance md5_hexdigest client1 cc1
               loaded news_data markets in
  let st2 := NewsAnalyzer.analyze_news_relevance md5_hexdigest client2 cc2
               (cache st1) news_data markets in
  replayed (cache st1) st1 st2.
Proof.
  intros st1 st2. set (saved := cache st1).
  assert (Hrel : cache st1 ⊆ saved -> replayed saved st1 st2); [| now apply Hrel].
  subst st1 st2. unfold NewsAnalyzer.analyze_news_relevance.
  apply (fold_left_related _ _
           (fun x1 x2 => cache x1 ⊆ saved -> replayed saved x1 x2)).
  - intros _. unfold replayed. cbn. repeat split.
  - intros x1 x2 [news_idx news] Hx.
    apply (fold_left_related _ _
             (fun y1 y2 => cache y1 ⊆ saved -> replayed saved y1 y2)); [exact Hx |].
    intros y1 y2 market Hy. now apply analyze_pair_replayed.
Qed.

End AnalyzerRuns.

Section KeywordOnly.
Import NewsAnalyzer AnalyzerSpec ClassifierSpec.
Local Open Scope string_scope.

Variable md5_hexdigest : string -> string.
Variable client : nat -> string -> option Judgment.

Lemma analyze_pair_keyword_only news_idx news st market :
  keyword_only st ->
  keyword_only (NewsAnalyzer.analyze_pair md5_hexdigest client false news_idx news st market).
Proof.
  intros Hst. rewrite analyze_pair_unfold.
  destruct (named_outcomes market) as [| n names]; [exact Hst |].
  destruct Hst as (Hcalls & Hai & Hcache & Hmap).
  cbn zeta. set (r := NewsAnalyzer.classify _ _ _ _ _ _ _ _).
  pose proof (classify_classified md5_hexdigest client false st (title news)
                (RiskCalculator.market_id market) (RiskCalculator.question market)
                (n :: names)) as Hc.
  fold r in Hc. cbn zeta in Hc. destruct Hc as (Hm & _ & _ & Hcase).
  assert (Hr : keyword_marked (analysis_method (fst r)) (impact_direction (fst r))
                 (confidence (fst r))
               /\ api_calls (snd r) = 0 /\ claude_ai (stats (snd r)) = 0
               /\ map_Forall (fun _ j => keyword_marked (analysis_method j)
                                           (impact_direction j) (confidence j))
                             (cache (snd r))).
  { destruct Hcase as [[Hhit ->] | (_ & Hins & _ & [(Hf & _) | (Hkw & Hc1 & _ & Ha1 & _)])].
    - split; [exact (Hcache _ _ Hhit) |]. cbn. auto.
    - discriminate Hf.
    - assert (Hk : keyword_marked (analysis_method (fst r)) (impact_direction (fst r))
                     (confidence (fst r))) by (rewrite Hkw; now repeat split).
      split; [exact Hk |]. split; [lia |]. split; [lia |].
      rewrite Hins. now apply map_Forall_insert_2. }
  destruct Hr as (Hk & Ha & Hc & Hf).
  unfold keyword_only.
  case_decide; cbn; rewrite Hm;
    (split; [exact Ha | split; [exact Hc | split; [exact Hf |]]]); [| exact Hmap].
  apply Forall_app. split; [exact Hmap |]. constructor; [exact Hk | constructor].
Qed.

(** X10: a run without the service, from an empty cache, never calls it,
    and every entry of its mapping and of the cache it saves is marked as a
    keyword judgment: method 'keyword_fallback', direction 'neutral',
    confidence 'low'. *)
Theorem analyze_news_relevance_keyword_only
    (news_data : list News) (markets : list RiskCalculator.Market) :
  keyword_only (NewsAnalyzer.analyze_news_relevance md5_hexdigest client false
                  ∅ news_data markets).
Proof.
  apply (analyze_news_relevance_invariant md5_hexdigest client false keyword_only).
  - unfold keyword_only, initial_state. cbn.
    split; [reflexivity | split; [reflexivity | split]];
      [apply map_Forall_empty | constructor].
  - intros news_idx news market st _ _. apply analyze_pair_keyword_only.
Qed.

(** X11: the score of a keyword judgment lies between 0 and 10, and the
    judgment passes the filter (score >= 3) exactly when an outcome name
    occurs in the title or at least 6 tokens are shared. *)
Theorem keyword_judgment_kept
    (news_title market_question : string) (market_outcomes : list string) :
  let j := keyword_fallback_analysis news_title market_question market_outcomes in
  (0 <= relevance_score j <= 10)%R
  /\ ((relevance_score j >= 3)%R
      <-> affects_outcomes j <> [] \/ 6 <= shared_tokens market_question news_title).
Proof.
  cbn zeta. unfold keyword_fallback_analysis. cbn [relevance_score affects_outcomes].
  rewrite overlap_shared_tokens.
  set (k := shared_tokens market_question news_title).
  assert (Hk : (0 <= INR k)%R) by apply pos_INR.
  assert (Hk6 : 6 <= k -> (6 <= INR k)%R).
  { intros H. apply le_INR in H. cbn [INR] in H. lra. }
  assert (Hk5 : k <= 5 -> (INR k <= 5)%R).
  { intros H. apply le_INR in H. cbn [INR] in H. lra. }
  unfold py_min.
  destruct (List.filter _ market_outcomes) as [| o os];
    destruct (le_lt_dec 6 k) as [H6 | H5];
    [specialize (Hk6 H6) | assert (Hle : k <= 5) by lia; specialize (Hk5 Hle)
    | specialize (Hk6 H6) | assert (Hle : k <= 5) by lia; specialize (Hk5 Hle)];
    repeat case_decide; (split; [lra |]); split; intros Hx;
    first [lra | now right | now left | (destruct Hx as [Hx | Hx]; [congruence | lia])].
Qed.

End KeywordOnly.

(** * Further properties of the aggregator *)

Section DashboardFacts.
Import RiskCalculator Aggregator AggregatorSpec DashboardSpec.
Local Open Scope string_scope.

Lemma group_append_fst (market_id : string) (item : NewsAnalyzer.Entry.t)
    (g : list (string * list NewsAnalyzer.Entry.t)) :
  List.map fst (group_append market_id item g)
  = (List.map fst g
     ++ if existsb (fun k => String.eqb k market_id) (List.map fst g) then []
        else [market_id])%list.
Proof.
  induction g as [| [k l] g IH]; [reflexivity |].
  cbn [group_append List.map fst existsb].
  destruct (String.eqb k market_id); cbn [orb List.map fst].
  - now rewrite app_nil_r.
  - now rewrite IH.
Qed.

Lemma filter_filter_and {X : Type} (f h : X -> bool) (l : list X) :
  List.filter f (List.filter h l) = List.filter (fun x => h x && f x) l.
Proof.
  induction l as [| x l IH]; [reflexivity |].
  cbn [List.filter]. destruct (h x); cbn [andb List.filter]; [| exact IH].
  destruct (f x); now rewrite IH.
Qed.

Lemma filter_all {X : Type} (f : X -> bool) (l : list X) :
  (forall x, f x = true) -> List.filter f l = l.
Proof.
  intros Hf. induction l as [| x l IH]; [reflexivity |].
  cbn. now rewrite Hf, IH.
Qed.

(** The keys of the grouping dict are the market ids of the judgments in
    the order of their first occurrence. *)
Lemma group_by_market_fst (news_mapping : list NewsAnalyzer.Entry.t) :
  List.map fst (group_by_market news_mapping)
  = first_occurrences (List.map NewsAnalyzer.Entry.market_id news_mapping).
Proof.
  unfold group_by_market.
  assert (Hgen : forall items g,
            List.map fst
              (fold_left (fun news_by_market item =>
                            group_append (NewsAnalyzer.Entry.market_id item) item
                                         news_by_market)
                         items g)
            = (List.map fst g
               ++ List.filter
                    (fun k => negb (existsb (fun k' => String.eqb k' k) (List.map fst g)))
                    (first_occurrences (List.map NewsAnalyzer.Entry.market_id items)))%list).
  { induction items as [| item items IH]; intros g.
    - cbn. now rewrite app_nil_r.
    - cbn [fold_left List.map first_occurrences List.filter].
      rewrite IH, group_append_fst.
      set (id := NewsAnalyzer.Entry.market_id item).
      set (keys := List.map fst g).
      rewrite filter_filter_and.
      destruct (existsb (fun k => String.eqb k id) keys) eqn:Hid; cbn [negb].
      + rewrite app_nil_r. f_equal. apply List.filter_ext. intros k.
        destruct (String.eqb_spec k id) as [-> | Hne]; cbn [negb andb]; [| reflexivity].
        now rewrite Hid.
      + rewrite <- app_assoc. cbn [app]. do 2 f_equal.
        apply List.filter_ext. intros k.
        rewrite existsb_app. cbn [existsb]. rewrite orb_false_r, negb_orb.
        rewrite (String.eqb_sym id k). apply andb_comm. }
  rewrite Hgen. cbn [List.map app]. apply filter_all. reflexivity.
Qed.

Lemma first_occurrences_In (ids : list string) (k : string) :
  In k (first_occurrences ids) -> In k ids.
Proof.
  induction ids as [| id ids IH]; [trivial |].
  cbn. intros [H | H]; [now left | right].
  apply List.filter_In in H as [H _]. auto.
Qed.

(** No group of the dict is empty. *)
Lemma group_by_market_nonempty (news_mapping : list NewsAnalyzer.Entry.t) :
  Forall (fun kv => snd kv <> []) (group_by_market news_mapping).
Proof.
  destruct (group_by_market_grouped news_mapping) as (_ & Hg & _).
  pose proof (group_by_market_fst news_mapping) as Hkeys.
  rewrite Forall_forall in Hg. apply Forall_forall. intros [k l] Hin.
  rewrite (Hg _ Hin). cbn [fst snd].
  rewrite list_elem_of_In in Hin. apply (in_map fst) in Hin. cbn [fst] in Hin.
  rewrite Hkeys in Hin. apply first_occurrences_In, in_map_iff in Hin as (item & <- & Hitem).
  intros Hnil.
  assert (Hmem : In item (judgments_of (NewsAnalyzer.Entry.market_id item) news_mapping)).
  { unfold judgments_of. apply List.filter_In. split; [exact Hitem | apply String.eqb_refl]. }
  rewrite Hnil in Hmem. exact Hmem.
Qed.

Lemma existsb_find {X : Type} (f : X -> bool) (l : list X) :
  existsb f l = match List.find f l with Some _ => true | None => false end.
Proof.
  induction l as [| x l IH]; [reflexivity |].
  cbn. destruct (f x); [reflexivity | exact IH].
Qed.

(** A group gets an entry exactly when its key names a market of the
    list. *)
Lemma tagged_top_news_fst (markets_data : list Market)
    (g : list (string * list NewsAnalyzer.Entry.t)) :
  Forall (fun kv => snd kv <> []) g ->
  List.map fst (tagged_top_news markets_data g)
  = List.filter
      (fun id => existsb (fun m => String.eqb (RiskCalculator.market_id m) id) markets_data)
      (List.map fst g).
Proof.
  unfold tagged_top_news. induction 1 as [| [k l] g Hl Hg IH]; [reflexivity |].
  cbn [omap list_omap fst snd List.map List.filter] in *.
  change (list_omap _ _ ?f g) with (omap f g) in *.
  rewrite existsb_find. unfold best_entry at 1.
  destruct l as [| x l]; [contradiction |]. cbn [max_by].
  destruct (List.find _ markets_data) as [market |]; cbn; now rewrite IH.
Qed.

(** A list has one first element of greatest key. *)
Lemma first_best_unique {X : Type} (key : X -> R) (l : list X) (b1 b2 : X) :
  first_best key l b1 -> first_best key l b2 -> b1 = b2.
Proof.
  intros (p1 & a1 & -> & Hp1 & Ha1) (p2 & a2 & H2 & Hp2 & Ha2).
  revert p2 H2 Hp2. induction p1 as [| x p1 IH]; intros [| y p2] H2 Hp2; cbn in H2.
  - congruence.
  - injection H2 as -> ->.
    pose proof (Hp2 y (or_introl eq_refl)) as Hlt.
    pose proof (Ha1 b2 ltac:(apply in_or_app; right; now left)) as Hle. lra.
  - injection H2 as -> <-.
    pose proof (Hp1 b2 (or_introl eq_refl)) as Hlt.
    pose proof (Ha2 b1 ltac:(apply in_or_app; right; now left)) as Hle. lra.
  - injection H2 as -> H2. apply (IH ltac:(intros e He; apply Hp1; now right) p2 H2).
    intros e He. apply Hp2. now right.
Qed.

(** The best match of a market is determined by the mapping and the list
    of markets. *)
Lemma best_match_unique (news_mapping : list NewsAnalyzer.Entry.t)
    (markets_data : list Market) (market_id : string) (e1 e2 : NewsItem.t) :
  best_match news_mapping markets_data market_id e1 ->
  best_match news_mapping markets_data market_id e2 -> e1 = e2.
Proof.
  intros (b1 & m1 & Hb1 & Hm1 & ->) (b2 & m2 & Hb2 & Hm2 & ->).
  rewrite (first_best_unique _ _ _ _ Hb1 Hb2). congruence.
Qed.

Lemma best_matches_unique (news_mapping : list NewsAnalyzer.Entry.t)
    (markets_data : list Market) (market_ids : list string) (l1 l2 : list NewsItem.t) :
  Forall2 (best_match news_mapping markets_data) market_ids l1 ->
  Forall2 (best_match news_mapping markets_data) market_ids l2 -> l1 = l2.
Proof.
  intros H1. revert l2. induction H1 as [| k e1 ks l1 He1 _ IH]; intros l2 H2.
  - now inversion H2.
  - inversion H2 as [| k' e2 ks' l2' He2 H2' ]; subst.
    f_equal; [exact (best_match_unique _ _ _ _ _ He1 He2) | now apply IH].
Qed.

Example first_occurrences_example :
  first_occurrences ["b"; "a"; "b"; "c"; "a"] = ["b"; "a"; "c"].
Proof. reflexivity. Qed.

(** X12: the news feed is the top 10 of the best matches of the markets
    that have a judgment: take the market ids of the judgments that name a
    market of the list, each once, in the order in which they first occur
    in the mapping, and for each of them its best match (the first judgment
    of highest relevance_score among that market's, with the question and
    url of the first market of that id).  The feed makes up these
    candidates together with the ones it leaves out; a candidate left out
    never has a higher relevance_score than one shown, all candidates are
    shown when there are at most 10, and candidates of equal score keep the
    order in which their markets first occur in the mapping. *)
Theorem build_news_feed_widget_top10
    (news_mapping : list NewsAnalyzer.Entry.t) (markets_data : list Market) :
  exists candidates : list NewsItem.t,
    Forall2 (best_match news_mapping markets_data)
            (feed_markets news_mapping markets_data) candidates
    /\ top_of NewsItem.relevance_score 10 candidates
              (build_news_feed_widget news_mapping markets_data).
Proof.
  set (g := group_by_market news_mapping).
  exists (List.map snd (tagged_top_news markets_data g)). split.
  - unfold feed_markets. rewrite <- group_by_market_fst. fold g.
    rewrite <- tagged_top_news_fst by apply group_by_market_nonempty.
    apply Forall2_fst_snd, tagged_top_news_best.
    now destruct (group_by_market_grouped news_mapping) as (_ & Hg & _).
  - unfold build_news_feed_widget. fold g.
    rewrite <- tagged_top_news_entries. apply firstn_sorted_reverse_top.
Qed.

Lemma first_best_In {X : Type} (key : X -> R) (l : list X) (best : X) :
  first_best key l best -> In best l.
Proof. intros (before & after & -> & _). apply in_or_app. right. now left. Qed.

(** Every entry of the feed is built from a judgment of the mapping and
    from a market of the list. *)
Lemma feed_entry_origin (news_mapping : list NewsAnalyzer.Entry.t)
    (markets_data : list Market) (item : NewsItem.t) :
  In item (build_news_feed_widget news_mapping markets_data) ->
  exists best_news market,
    In best_news news_mapping /\ In market markets_data
    /\ item = news_item best_news market.
Proof.
  unfold build_news_feed_widget. intros Hin. apply In_firstn in Hin.
  apply (Permutation_in _ (sorted_reverse_perm _ _)) in Hin.
  rewrite <- tagged_top_news_entries in Hin.
  apply in_map_iff in Hin as ([k e] & <- & Hin).
  destruct (group_by_market_grouped news_mapping) as (_ & Hg & _).
  pose proof (tagged_top_news_best news_mapping markets_data _ Hg) as Hbest.
  rewrite Forall_forall in Hbest. rewrite <- list_elem_of_In in Hin.
  destruct (Hbest _ Hin) as (best & market & Hfirst & Hfind & Heq).
  exists best, market. cbn [fst snd] in *. repeat split; trivial.
  - apply first_best_In in Hfirst. unfold judgments_of in Hfirst.
    now apply List.filter_In in Hfirst.
  - now apply find_some in Hfind.
Qed.

(** X13: fed with the mapping of a run of the analyzer, the news feed
    shows only judgments of relevance_score >= 3, each with the title and
    link of one of the first ten news and the question and url of one of
    the markets. *)
Theorem news_feed_of_analysis
    (md5_hexdigest : string -> string) (client : nat -> string -> option NewsAnalyzer.Judgment)
    (claude_client : bool) (loaded : gmap string NewsAnalyzer.Judgment)
    (news_data : list NewsAnalyzer.News) (markets_data : list Market) :
  let st := NewsAnalyzer.analyze_news_relevance md5_hexdigest client claude_client
              loaded news_data markets_data in
  Forall (feed_entry_sound news_data markets_data)
         (build_news_feed_widget (NewsAnalyzer.news_market_mapping st) markets_data).
Proof.
  intros st. apply Forall_forall. intros item Hitem. rewrite list_elem_of_In in Hitem.
  apply feed_entry_origin in Hitem as (best & market & Hbest & Hmarket & ->).
  assert (Hentries : Forall (AnalyzerSpec.entry_of news_data markets_data)
                            (NewsAnalyzer.news_market_mapping st)).
  { apply (analyze_news_relevance_invariant md5_hexdigest client claude_client
             (fun st => Forall (AnalyzerSpec.entry_of news_data markets_data)
                               (NewsAnalyzer.news_market_mapping st))).
    - constructor.
    - intros news_idx news m st'. apply analyze_pair_entries. }
  rewrite Forall_forall in Hentries. rewrite <- list_elem_of_In in Hbest.
  destruct (Hentries _ Hbest) as (Hrel & Hidx & (news & Hnews & Ht & Hl) & _).
  unfold feed_entry_sound, news_item. cbn. split; [exact Hrel |]. split.
  - exists (NewsAnalyzer.Entry.news_id best), news. auto.
  - exists market. auto.
Qed.

Lemma categorize_risk_medium_low (p m : R) (c : string) :
  categorize_risk p m = c ->
  (c = "medium" -> 0.05 <= p <= 0.10 /\ 10 <= m <= 20)%R
  /\ (c = "low" -> 0.10 < p <= 0.20 /\ 5 <= m <= 10)%R.
Proof.
  intros <-. unfold categorize_risk.
  repeat case_decide; split; intros Hc; first [discriminate Hc | lra].
Qed.

(** X14: fed with the markets the pipeline enriched, the risk widget
    shows under medium_risk only outcomes of probability in [0.05, 0.10]
    and multiplier in [10, 20], and under low_risk only outcomes of
    probability in (0.10, 0.20] and multiplier in [5, 10]. *)
Theorem risk_widget_of_enriched (markets_data : list EventGroup) :
  let w := build_risk_categories_widget (enrich_with_risk_metrics markets_data) in
  Forall (item_in_region "medium") (medium_risk w)
  /\ Forall (item_in_region "low") (low_risk w).
Proof.
  assert (Hall : forall c, c = "medium" \/ c = "low" ->
            forall n, Forall (item_in_region c)
              (firstn n (sorted_reverse RiskItem.score
                 (List.filter (fun o => category_is c (RiskItem.risk_category o))
                              (all_outcomes (enrich_with_risk_metrics markets_data)))))).
  { intros c Hc n. apply Forall_forall. intros item Hitem.
    rewrite list_elem_of_In in Hitem. apply In_firstn in Hitem.
    apply (Permutation_in _ (sorted_reverse_perm _ _)) in Hitem.
    rewrite all_outcomes_category in Hitem by exact Hc.
    unfold category_outcomes in Hitem. apply in_flat_map in Hitem as (market & Hm & Hitem).
    apply in_map_iff in Hitem as (o & <- & Ho).
    apply List.filter_In in Ho as [Ho Hcat]. apply category_is_eq in Hcat.
    pose proof (enrich_outcomes_Forall stored_rounded
                  (fun mv nm pr o' => enrich_outcome_stored mv nm (Some pr) o') markets_data)
      as Hstored.
    rewrite Forall_forall in Hstored. rewrite <- list_elem_of_In in Hm.
    specialize (Hstored _ Hm). rewrite Forall_forall in Hstored.
    rewrite <- list_elem_of_In in Ho.
    destruct (Hstored _ Ho) as (_ & Hmul & Hrc).
    unfold item_in_region, risk_item. cbn. split; [exact Hcat |].
    rewrite Hcat in Hrc. injection Hrc as Hrc. rewrite <- Hmul in Hrc.
    destruct (categorize_risk_medium_low _ _ _ (eq_sym Hrc)) as [Hmed Hlow].
    destruct Hc as [-> | ->]; [left | right]; auto. }
  split; apply Hall; auto.
Qed.

End DashboardFacts.

(** * Properties of the scraper *)

Section ScraperFacts.
Import Scraper ScraperSpec.
Local Open Scope string_scope.

Variable closes_within_60_days : string -> option bool.

Local Abbreviation closing_loop := (Scraper.closing_loop closes_within_60_days).
Local Abbreviation closing_soon := (ScraperSpec.closing_soon closes_within_60_days).
Local Abbreviation select_markets := (Scraper.select_markets closes_within_60_days).
Local Abbreviation candidates := (ScraperSpec.candidates closes_within_60_days).

Lemma crypto_loop_firstn (all_markets crypto_markets : list Event) :
  length crypto_markets < 50 ->
  crypto_loop all_markets crypto_markets
  = (crypto_markets
     ++ firstn (50 - length crypto_markets) (List.filter is_crypto all_markets))%list.
Proof.
  revert crypto_markets. induction all_markets as [| market rest IH]; intros acc Hacc.
  - cbn. now rewrite firstn_nil, app_nil_r.
  - cbn [crypto_loop List.filter]. destruct (is_crypto market); [| now apply IH].
    cbn zeta. replace (50 - length acc) with (S (49 - length acc)) by lia.
    cbn [firstn]. case_decide as Hfull; rewrite length_app in Hfull; cbn in Hfull.
    + replace (49 - length acc) with 0 by lia. reflexivity.
    + rewrite IH by (rewrite length_app; cbn; lia).
      rewrite length_app, <- app_assoc. cbn. do 3 f_equal. lia.
Qed.

Lemma closing_loop_firstn (all_markets closing_soon_markets : list Event) :
  length closing_soon_markets < 30 ->
  closing_loop all_markets closing_soon_markets
  = (closing_soon_markets
     ++ firstn (30 - length closing_soon_markets)
               (List.filter closing_soon all_markets))%list.
Proof.
  revert closing_soon_markets.
  induction all_markets as [| market rest IH]; intros acc Hacc.
  - cbn. now rewrite firstn_nil, app_nil_r.
  - cbn [Scraper.closing_loop List.filter]. unfold ScraperSpec.closing_soon at 1.
    destruct (negb (String.eqb (endDate market) EmptyString)); cbn [andb];
      [| now apply IH].
    destruct (closes_within_60_days (endDate market)) as [[|] |]; try now apply IH.
    replace (30 - length acc) with (S (29 - length acc)) by lia.
    cbn [firstn]. case_decide as Hfull; rewrite length_app in Hfull; cbn in Hfull.
    + replace (29 - length acc) with 0 by lia. reflexivity.
    + rewrite IH by (rewrite length_app; cbn; lia).
      rewrite length_app, <- app_assoc. cbn. do 3 f_equal. lia.
Qed.

Lemma select_markets_candidates (all_markets : list Event) :
  select_markets all_markets = deduplicate (candidates all_markets)
  /\ length (candidates all_markets) <= 180
  /\ (forall m, In m (candidates all_markets) -> In m all_markets).
Proof.
  split; [| split].
  - unfold Scraper.select_markets, ScraperSpec.candidates.
    rewrite crypto_loop_firstn, closing_loop_firstn by (cbn; lia). reflexivity.
  - unfold ScraperSpec.candidates. rewrite !length_app.
    pose proof (firstn_le_length 100 (sorted_reverse volume24hr all_markets)).
    pose proof (firstn_le_length 50 (List.filter is_crypto all_markets)).
    pose proof (firstn_le_length 30 (List.filter closing_soon all_markets)).
    lia.
  - unfold ScraperSpec.candidates. intros m Hm.
    apply in_app_or in Hm as [Hm | Hm]; [| apply in_app_or in Hm as [Hm | Hm]];
      apply In_firstn in Hm.
    + now apply (Permutation_in _ (sorted_reverse_perm _ _)) in Hm.
    + now apply List.filter_In in Hm.
    + now apply List.filter_In in Hm.
Qed.

(** X15: the loops with [break] collect the first 50 events that mention a
    crypto keyword and the first 30 events closing within 60 days, in the
    order of the response. *)
Theorem scraper_loops_first_matches (all_markets : list Event) :
  crypto_loop all_markets [] = firstn 50 (List.filter is_crypto all_markets)
  /\ closing_loop all_markets [] = firstn 30 (List.filter closing_soon all_markets).
Proof.
  split.
  - rewrite crypto_loop_firstn by (cbn; lia). reflexivity.
  - rewrite closing_loop_firstn by (cbn; lia). reflexivity.
Qed.

Lemma dedupe_step_deduplicated (markets : list Event) (acc : gset string * list Event)
    (market : Event) :
  deduplicated markets acc -> deduplicated (markets ++ [market]) (dedupe_step acc market).
Proof.
  destruct acc as [seen final]. intros ((Hsub & Hnd & Hne & Hall) & Hseen).
  cbn [fst snd] in *. unfold dedupe_step. cbn zeta.
  destruct (String.eqb (Scraper.id market) EmptyString) eqn:Hid; cbn [negb andb];
    [apply String.eqb_eq in Hid | apply String.eqb_neq in Hid].
  - split; [| exact Hseen]. cbn [snd]. repeat split; trivial.
    + now apply sublist_inserts_r.
    + intros m Hin Hm. apply in_app_or in Hin as [Hin | [<- | []]]; [auto | contradiction].
  - case_bool_decide as Hin; cbn [negb].
    + split; [| exact Hseen]. cbn [snd]. repeat split; trivial.
      * now apply sublist_inserts_r.
      * intros m Hm Hn. apply in_app_or in Hm as [Hm | [<- | []]]; [auto |].
        now apply Hseen.
    + split; cbn [fst snd].
      * repeat split.
        -- apply sublist_app; [exact Hsub | reflexivity].
        -- rewrite map_app. apply NoDup_app. split; [exact Hnd |]. split.
           ++ intros k Hk [<- | []]%list_elem_of_In. apply Hin, Hseen.
              now apply list_elem_of_In.
           ++ cbn. apply NoDup_singleton.
        -- apply Forall_app. split; [exact Hne | now repeat constructor].
        -- intros m Hm Hn. rewrite map_app. apply in_or_app.
           apply in_app_or in Hm as [Hm | [<- | []]]; [left; auto | right; now left].
      * intros k. rewrite elem_of_union, elem_of_singleton, Hseen, map_app, in_app_iff.
        cbn. split; intros [H | H]; auto; destruct H as [H | []]; auto.
Qed.

Lemma deduplicate_first_of_each_id (markets : list Event) :
  first_of_each_id markets (deduplicate markets).
Proof.
  unfold deduplicate.
  assert (Hgen : forall l done acc, deduplicated done acc ->
            deduplicated (done ++ l) (fold_left dedupe_step l acc)).
  { induction l as [| m l IH]; intros done acc Hacc; cbn.
    - now rewrite app_nil_r.
    - replace (done ++ m :: l)%list with ((done ++ [m]) ++ l)%list
        by (now rewrite <- app_assoc).
      apply IH. now apply dedupe_step_deduplicated. }
  apply (Hgen markets [] (∅, [])).
  split; cbn.
  - repeat split; [constructor | constructor | constructor | intros m []].
  - intros k. split; [intros H; now apply not_elem_of_empty in H | intros []].
Qed.

(** X16: the markets the scraper returns are events of the response, from
    the candidate lists in their order and at most 180; no two have the
    same id, none has an empty id, and the id of every candidate with a
    non-empty id is among them. *)
Theorem select_markets_deduplicated (all_markets : list Event) :
  let final_markets := select_markets all_markets in
  first_of_each_id (candidates all_markets) final_markets
  /\ length final_markets <= 180
  /\ Forall (fun m => In m all_markets) final_markets.
Proof.
  cbn zeta.
  destruct (select_markets_candidates all_markets) as (Hsel & Hlen & Hin).
  rewrite Hsel.
  pose proof (deduplicate_first_of_each_id (candidates all_markets)) as Hd.
  split; [exact Hd |]. destruct Hd as (Hsub & _). split.
  - apply sublist_length in Hsub. lia.
  - apply Forall_forall. intros m Hm. apply Hin.
    rewrite <- list_elem_of_In. eapply elem_of_sublist; eauto.
Qed.

Variable get : nat -> Attempt.

Local Abbreviation fetch_loop := (Scraper.fetch_loop closes_within_60_days get).
Local Abbreviation fetch_polymarket_markets :=
  (Scraper.fetch_polymarket_markets closes_within_60_days get).

Lemma fetch_loop_answered (max_retries k remaining attempt : nat) (waits : list nat) :
  attempt + remaining = max_retries -> attempt <= k < max_retries ->
  (forall i, attempt <= i < k -> get i = RequestException) ->
  get k <> RequestException ->
  fetch_loop max_retries attempt remaining waits
  = match get k with
    | Json all_markets =>
        {| returned := select_markets all_markets;
           snapshot := Some (select_markets all_markets);
           slept := waits ++ List.map (Nat.pow 2) (seq attempt (k - attempt)) |}
    | _ => {| returned := []; snapshot := None;
              slept := waits ++ List.map (Nat.pow 2) (seq attempt (k - attempt)) |}
    end.
Proof.
  revert attempt waits. induction remaining as [| remaining IH]; intros attempt waits Hsum Hk Hfail Hans.
  - lia.
  - cbn [Scraper.fetch_loop]. destruct (Nat.eq_dec attempt k) as [-> | Hne].
    + rewrite Nat.sub_diag. cbn [seq List.map]. rewrite app_nil_r.
      destruct (get k); [contradiction | reflexivity | reflexivity].
    + rewrite (Hfail attempt) by lia. case_decide; [| lia].
      rewrite IH; try lia; [| intros i Hi; apply Hfail; lia | exact Hans].
      replace (k - attempt) with (S (k - S attempt)) by lia.
      cbn [seq List.map]. rewrite <- app_assoc. reflexivity.
Qed.

Lemma fetch_loop_down (max_retries remaining attempt : nat) (waits : list nat) :
  attempt + remaining = max_retries ->
  (forall i, i < max_retries -> get i = RequestException) ->
  fetch_loop max_retries attempt remaining waits
  = {| returned := []; snapshot := None;
       slept := waits ++ List.map (Nat.pow 2) (seq attempt (remaining - 1)) |}.
Proof.
  revert attempt waits. induction remaining as [| remaining IH]; intros attempt waits Hsum Hfail.
  - cbn. now rewrite app_nil_r.
  - cbn [Scraper.fetch_loop]. rewrite (Hfail attempt) by lia. case_decide as Hlast.
    + rewrite IH by (lia || exact Hfail).
      replace (S remaining - 1) with (S (remaining - 1)) by lia.
      cbn [seq List.map]. rewrite <- app_assoc. reflexivity.
    + replace (S remaining - 1) with 0 by lia. cbn. now rewrite app_nil_r.
Qed.

Lemma backoff_total (k : nat) : list_sum (backoff k) = 2 ^ k - 1.
Proof.
  unfold backoff. induction k as [| k IH]; [reflexivity |].
  rewrite seq_S, map_app, list_sum_app, IH. cbn [List.map list_sum Nat.add].
  pose proof (Nat.pow_nonzero 2 k ltac:(lia)) as Hpos. rewrite Nat.pow_succ_r'.
  generalize dependent (2 ^ k). intros n _ Hn. unfold list_sum. cbn [fold_right]. lia.
Qed.

(** X17: when the attempts before attempt [k] end in a request exception
    and attempt [k] does not, the call waits 1, 2, ..., 2^(k-1) seconds
    and then returns and saves the selection from the response of attempt
    [k], or returns the empty list, saving nothing, when that attempt
    raised another exception. *)
Theorem fetch_polymarket_markets_answered (max_retries k : nat) :
  k < max_retries ->
  (forall i, i < k -> get i = RequestException) ->
  get k <> RequestException ->
  fetch_polymarket_markets max_retries = answered closes_within_60_days (get k) k.
Proof.
  intros Hk Hfail Hans. unfold Scraper.fetch_polymarket_markets.
  rewrite (fetch_loop_answered max_retries k); try lia; trivial.
  - unfold answered, backoff. rewrite Nat.sub_0_r. now destruct (get k).
  - intros i Hi. apply Hfail. lia.
Qed.

(** X18: when every attempt ends in a request exception, the call makes
    [max_retries] attempts, waits 1, 2, ..., 2^(max_retries-2) seconds
    between them, 2^(max_retries-1) - 1 seconds in all, and returns the
    empty list without saving a snapshot. *)
Theorem fetch_polymarket_markets_down (max_retries : nat) :
  (forall i, i < max_retries -> get i = RequestException) ->
  fetch_polymarket_markets max_retries
  = {| returned := []; snapshot := None; slept := backoff (max_retries - 1) |}
  /\ list_sum (slept (fetch_polymarket_markets max_retries)) = 2 ^ (max_retries - 1) - 1.
Proof.
  intros Hfail.
  assert (Heq : fetch_polymarket_markets max_retries
                = {| returned := []; snapshot := None;
                     slept := backoff (max_retries - 1) |}).
  { unfold Scraper.fetch_polymarket_markets. now rewrite fetch_loop_down. }
  split; [exact Heq |]. rewrite Heq. cbn [slept]. apply backoff_total.
Qed.

End ScraperFacts.

Section ScraperExamples.
Import Scraper ScraperSpec.

Lemma fetch_polymarket_markets_answered_witness :
  2 < 3
  /\ (forall i, i < 2 -> service_third_time i = RequestException)
  /\ service_third_time 2 <> RequestException
  /\ fetch_polymarket_markets no_date service_third_time 3
     = answered no_date (service_third_time 2) 2.
Proof.
  assert (Hfail : forall i, i < 2 -> service_third_time i = RequestException).
  { intros i Hi. unfold service_third_time.
    destruct (Nat.ltb_spec i 2); [reflexivity | lia]. }
  assert (Hans : service_third_time 2 <> RequestException) by discriminate.
  split; [lia |]. split; [exact Hfail |]. split; [exact Hans |].
  apply (fetch_polymarket_markets_answered no_date service_third_time 3 2);
    [lia | exact Hfail | exact Hans].
Defined.

Lemma fetch_polymarket_markets_down_witness :
  (forall i, i < 3 -> service_down i = RequestException)
  /\ fetch_polymarket_markets no_date service_down 3
     = {| returned := []; snapshot := None; slept := backoff (3 - 1) |}
  /\ list_sum (slept (fetch_polymarket_markets no_date service_down 3)) = 2 ^ (3 - 1) - 1.
Proof.
  split; [reflexivity |].
  apply (fetch_polymarket_markets_down no_date service_down 3). reflexivity.
Defined.

End ScraperExamples.

(** * Properties of the news fetcher *)

Section StringOrder.

Lemma string_leb_trans (s1 s2 s3 : string) :
  String.leb s1 s2 = true -> String.leb s2 s3 = true -> String.leb s1 s3 = true.
Proof.
  unfold String.leb. revert s2 s3.
  induction s1 as [| a s1 IH]; intros [| b s2] [| c s3]; cbn; try easy.
  specialize (IH s2 s3).
  destruct (Ascii.compare a b) eqn:Eab, (Ascii.compare b c) eqn:Ebc,
           (Ascii.compare a c) eqn:Eac;
    try easy; try exact IH;
    unfold Ascii.compare in *;
    rewrite ?N.compare_eq_iff, ?N.compare_lt_iff, ?N.compare_gt_iff in *; lia.
Qed.

Lemma string_ltb_leb (s1 s2 : string) : String.ltb s1 s2 = true -> String.leb s1 s2 = true.
Proof. unfold String.ltb, String.leb. now destruct (String.compare s1 s2). Qed.

Lemma string_not_ltb_leb (s1 s2 : string) :
  String.ltb s1 s2 = false -> String.leb s2 s1 = true.
Proof.
  unfold String.ltb, String.leb. rewrite (String.compare_antisym s1 s2).
  now destruct (String.compare s2 s1).
Qed.

End StringOrder.

Section SortByStringFacts.
Import NewsFetcher.
Context {A : Type} (key : A -> string).

Lemma insert_reverse_str_perm (x : A) (l : list A) :
  Permutation (insert_reverse_str key x l) (x :: l).
Proof.
  induction l as [| y l IH]; cbn; [reflexivity |].
  destruct (String.ltb (key x) (key y)); [| reflexivity].
  rewrite IH. apply perm_swap.
Qed.

Lemma sort_reverse_perm (l : list A) : Permutation (sort_reverse key l) l.
Proof.
  induction l as [| x l IH]; cbn; [reflexivity |].
  rewrite insert_reverse_str_perm. now constructor.
Qed.

Lemma insert_reverse_str_sorted (x : A) (l : list A) :
  StronglySorted (fun a b => String.leb (key b) (key a) = true) l ->
  StronglySorted (fun a b => String.leb (key b) (key a) = true) (insert_reverse_str key x l).
Proof.
  induction 1 as [| y l Hl IH Hy]; cbn.
  - repeat constructor.
  - destruct (String.ltb (key x) (key y)) eqn:Hlt.
    + constructor; [exact IH |].
      apply Forall_forall. intros z Hz. rewrite list_elem_of_In in Hz.
      apply (Permutation_in _ (insert_reverse_str_perm x l)) in Hz.
      destruct Hz as [<- | Hz]; [now apply string_ltb_leb |].
      rewrite Forall_forall in Hy. apply Hy. now apply list_elem_of_In.
    + apply string_not_ltb_leb in Hlt.
      constructor; [now constructor |].
      constructor; [exact Hlt |].
      eapply Forall_impl; [exact Hy |]. cbn. intros z Hz.
      eapply string_leb_trans; eassumption.
Qed.

Lemma sort_reverse_sorted (l : list A) :
  StronglySorted (fun a b => String.leb (key b) (key a) = true) (sort_reverse key l).
Proof.
  induction l as [| x l IH]; cbn; [constructor |].
  now apply insert_reverse_str_sorted.
Qed.

End SortByStringFacts.

Section NewsFetcherFacts.
Import NewsFetcher NewsFetcherSpec.
Local Open Scope string_scope.

Variable fetch_feed : string -> string -> option (list RssEntry).
Variable isoformat : Z -> string.

Local Abbreviation entry_step := (NewsFetcher.entry_step isoformat).
Local Abbreviation source_step := (NewsFetcher.source_step fetch_feed isoformat).
Local Abbreviation fetch_crypto_news := (NewsFetcher.fetch_crypto_news fetch_feed isoformat).
Local Abbreviation collected := (NewsFetcherSpec.collected isoformat).
Local Abbreviation well_formed := (NewsFetcherSpec.well_formed isoformat).

Lemma length_substring_le (n : nat) (s : string) :
  String.length (String.substring 0 n s) <= n.
Proof.
  revert s. induction n as [| n IH]; intros [| c s]; cbn; try lia.
  specialize (IH s). lia.
Qed.

Lemma entry_step_collected cutoff_time source_name acc entry :
  In source_name (List.map fst RSS_SOURCES) ->
  collected cutoff_time acc -> collected cutoff_time (entry_step cutoff_time source_name acc entry).
Proof.
  intros Hsrc Hacc. destruct acc as [seen all_news].
  unfold NewsFetcher.entry_step. cbn zeta.
  set (published := match published_parsed entry with
                    | Some t => Some t
                    | None => updated_parsed entry
                    end).
  destruct (match published with
            | Some t => bool_decide (t < cutoff_time)%Z
            | None => false
            end) eqn:Hold; [exact Hacc |].
  destruct (String.eqb (strip (entry_title entry)) EmptyString) eqn:Htitle;
    cbn [negb andb]; [exact Hacc |].
  apply String.eqb_neq in Htitle.
  case_bool_decide as Hseen; cbn [negb]; [exact Hacc |].
  destruct Hacc as (Hnd & Hwf & Hiff). cbn [fst snd] in *.
  split; [| split]; cbn [fst snd].
  - rewrite map_app. apply NoDup_app. split; [exact Hnd |]. split.
    + intros k Hk [<- | []]%list_elem_of_In. apply Hseen, Hiff.
      now apply list_elem_of_In.
    + cbn. apply NoDup_singleton.
  - apply Forall_app. split; [exact Hwf |]. constructor; [| constructor].
    unfold NewsFetcherSpec.well_formed. cbn. split; [exact Htitle |].
    split; [apply length_substring_le |]. split; [exact Hsrc |].
    destruct published as [t |]; [right | now left].
    exists t. split; [| reflexivity].
    apply bool_decide_eq_false in Hold. lia.
  - intros k. rewrite elem_of_union, elem_of_singleton, Hiff, map_app, in_app_iff.
    cbn. split; intros [H | H]; auto; destruct H as [H | []]; auto.
Qed.

Lemma source_step_collected cutoff_time acc src :
  In src RSS_SOURCES ->
  collected cutoff_time acc -> collected cutoff_time (source_step cutoff_time acc src).
Proof.
  intros Hsrc Hacc. destruct src as [source_name feed_url].
  unfold NewsFetcher.source_step.
  destruct (fetch_feed source_name feed_url) as [entries |]; [| exact Hacc].
  apply fold_left_invariant; [exact Hacc |].
  intros acc' entry _ Hacc'. apply entry_step_collected; [| exact Hacc'].
  now apply (in_map fst) in Hsrc.
Qed.

(** X19: the news the fetcher returns have pairwise distinct, non-empty
    titles, summaries of at most 200 characters, one of the four sources
    as source and, when dated, a date that is not before the cutoff; and
    they are in descending order of the date string, undated items counting
    as the empty string. *)
Theorem fetch_crypto_news_well_formed (cutoff_time : Z) :
  let all_news := fetch_crypto_news cutoff_time in
  NoDup (List.map title all_news)
  /\ Forall (well_formed cutoff_time) all_news
  /\ newest_first all_news.
Proof.
  cbn zeta. unfold NewsFetcher.fetch_crypto_news.
  set (acc := fold_left (source_step cutoff_time) RSS_SOURCES (∅, [])).
  assert (Hacc : collected cutoff_time acc).
  { apply fold_left_invariant.
    - split; [constructor | split; [constructor |]].
      intros k. cbn. split; [intros H; now apply not_elem_of_empty in H | intros []].
    - intros acc' src Hsrc Hacc'. now apply source_step_collected. }
  destruct Hacc as (Hnd & Hwf & _).
  pose proof (sort_reverse_perm sort_key (snd acc)) as Hperm.
  split; [| split].
  - now rewrite (Permutation_map title Hperm).
  - now rewrite Hperm.
  - apply sort_reverse_sorted.
Qed.

End NewsFetcherFacts.

(** * Properties of the closing-soon script *)

Section CheckClosingFacts.
Import RiskCalculator RiskSpec CheckClosing CheckClosingSpec.
Local Open Scope R_scope.

Variable hours_until_close : string -> option R.

Lemma omap_ext_Forall {X Y : Type} (f g : X -> option Y) (l : list X) :
  Forall (fun x => f x = g x) l -> omap f l = omap g l.
Proof.
  induction 1 as [| x l Hx Hl IH]; [reflexivity |].
  cbn. change (list_omap _ _ ?h l) with (omap h l). now rewrite Hx, IH.
Qed.

(** For a stored outcome of probability in [0.60, 0.90] the stored
    multiplier lies in [1.11, 1.67]. *)
Lemma stored_multiplier_range (o : Outcome) :
  stored_rounded o -> 0.60 <= probability o <= 0.90 ->
  1.11 <= multiplier (risk_metrics o) <= 1.67.
Proof.
  intros (Hp & Hm & _) Hrange. rewrite Hm, <- Hp. unfold spec_multiplier.
  case_decide; [| lra].
  pose proof (py_round_2_between (1 / probability o) 111 167) as Hb.
  assert (Hi : IZR 111 / 100 <= 1 / probability o <= IZR 167 / 100).
  { split; apply Rmult_le_reg_r with (probability o); try lra; field_simplify; lra. }
  specialize (Hb Hi). lra.
Qed.

Lemma candidates_market_agree (market : Market) (h : R) :
  Forall stored_rounded (outcomes market) ->
  omap (fun outcome =>
          let prob := probability outcome in
          let mult := multiplier (risk_metrics outcome) in
          if decide (0.60 <= prob <= 0.90 /\ mult >= 1.1) then
            Some {| Candidate.question := String.substring 0 60 (question market);
                    Candidate.outcome := name outcome;
                    Candidate.prob := prob;
                    Candidate.mult := py_round mult 2;
                    Candidate.hours := py_round h 1 |}
          else None) (outcomes market)
  = omap (fun outcome =>
            if decide (0.60 <= probability outcome <= 0.90) then
              Some {| Candidate.question := String.substring 0 60 (question market);
                      Candidate.outcome := name outcome;
                      Candidate.prob := probability outcome;
                      Candidate.mult := py_round (multiplier (risk_metrics outcome)) 2;
                      Candidate.hours := py_round h 1 |}
            else None) (outcomes market).
Proof.
  intros Hstored. apply omap_ext_Forall.
  eapply Forall_impl; [exact Hstored |]. cbn. intros o Ho.
  destruct (decide (0.60 <= probability o <= 0.90)) as [Hr | Hr].
  - pose proof (stored_multiplier_range o Ho Hr). case_decide; [reflexivity | lra].
  - case_decide; [lra | reflexivity].
Qed.

Lemma candidates_agree (markets_data : list Market) :
  Forall (fun market => Forall stored_rounded (outcomes market)) markets_data ->
  candidates hours_until_close markets_data
  = candidates_by_probability hours_until_close markets_data.
Proof.
  unfold candidates, candidates_by_probability.
  induction 1 as [| market rest Hm Hrest IH]; [reflexivity |].
  cbn [flat_map]. rewrite IH. f_equal. cbn zeta.
  destruct (String.eqb (end_date market) EmptyString); [reflexivity |].
  destruct (hours_until_close (end_date market)) as [h |]; [| reflexivity].
  case_decide; [| reflexivity]. now apply candidates_market_agree.
Qed.

Lemma candidates_by_probability_ranges (markets_data : list Market) :
  Forall (fun market => Forall stored_rounded (outcomes market)) markets_data ->
  Forall candidate_ranges (candidates_by_probability hours_until_close markets_data).
Proof.
  intros Hall. apply Forall_forall. intros c Hc. rewrite list_elem_of_In in Hc.
  unfold candidates_by_probability in Hc. apply in_flat_map in Hc as (market & Hm & Hc).
  rewrite Forall_forall in Hall. rewrite <- list_elem_of_In in Hm.
  specialize (Hall _ Hm). rewrite Forall_forall in Hall.
  destruct (String.eqb (end_date market) EmptyString); [destruct Hc |].
  destruct (hours_until_close (end_date market)) as [h |]; [| destruct Hc].
  case_decide as Hh; [| destruct Hc].
  rewrite <- list_elem_of_In in Hc. apply list_elem_of_omap in Hc as (o & Ho & Hc).
  case_decide as Hr; [| discriminate Hc]. injection Hc as <-.
  pose proof (stored_multiplier_range o (Hall _ Ho) Hr) as Hmult.
  unfold candidate_ranges. cbn. split; [exact Hr |]. split; [| split].
  - pose proof (py_round_2_between (multiplier (risk_metrics o)) 111 167) as Hb.
    assert (Hi : IZR 111 / 100 <= multiplier (risk_metrics o) <= IZR 167 / 100) by lra.
    specialize (Hb Hi). lra.
  - split; [apply py_round_nonneg; lra |].
    pose proof (py_round_mono h 720 1 ltac:(lra)) as Hle.
    replace 720 with (IZR 720) in Hle at 2 by reflexivity.
    rewrite py_round_IZR in Hle. exact Hle.
  - apply length_substring_le.
Qed.

(** X20: on the markets the pipeline enriched, the test of the multiplier
    in the script's first loop never rejects an outcome: the candidates
    are the outcomes of probability in [0.60, 0.90] of the markets closing
    within 720 hours; each has a multiplier in [1.11, 1.67], hours in
    [0, 720] and a question of at most 60 characters. *)
Theorem closing_candidates_of_enriched (markets_data : list EventGroup) :
  let enriched := enrich_with_risk_metrics markets_data in
  candidates hours_until_close enriched
  = candidates_by_probability hours_until_close enriched
  /\ Forall candidate_ranges (candidates hours_until_close enriched).
Proof.
  cbn zeta.
  pose proof (enrich_outcomes_Forall stored_rounded
                (fun mv nm pr o' => enrich_outcome_stored mv nm (Some pr) o') markets_data)
    as Hstored.
  split; [now apply candidates_agree |].
  rewrite candidates_agree by exact Hstored.
  now apply candidates_by_probability_ranges.
Qed.

End CheckClosingFacts.
